(** * Sonica backend: order, stock, delivery and review lifecycle

    A shallow embedding of the route handlers of the Sonica bicycle shop
    backend (Express + Mongoose) and the properties of its order / stock
    reservation protocol.

    Conventions of the embedding.
    - A MongoDB collection is a finite map from [ObjectId] to documents.
    - A route handler is a function from the request and the database to a
      response and the database it leaves behind.  An exception caught by the
      handler's [try/catch] answers 500 and keeps every write issued before
      the throw.
    - JavaScript numbers that hold counts, quantities, prices and timestamps
      are integers ([Z]); ratings and their averages are rationals ([Q]) with
      an explicit [NaN] where the source divides by an empty length.
    - [new Date()] and [Date.now()] read the request's clock [now]. *)

From Stdlib Require Import ZArith QArith Qround Ascii String DecimalString DecimalZ.
From stdpp Require Import base gmap list strings.
Close Scope Q_scope.
Local Open Scope Z_scope.

(** ** Common types *)

(** A document id, and a [Date] as epoch milliseconds. *)
Abbreviation ObjectId := N (only parsing).
Abbreviation Date := Z (only parsing).

Inductive Role := customer | admin | inventory_manager | delivery_partner.

#[global] Instance Role_eq_dec : EqDecision Role.
Proof. solve_decision. Defined.

(** [req.user], as attached by the [protect] middleware. *)
Record AuthUser := mkAuthUser { user_id : ObjectId; role : Role }.

(** [res.status(code).json({ success, data | message })]. *)
Inductive Response (A : Type) :=
| Success (code : Z) (data : A)
| Failure (code : Z) (message : string).
Arguments Success {A} code data.
Arguments Failure {A} code message.

Definition code_of {A} (r : Response A) : Z :=
  match r with Success c _ => c | Failure c _ => c end.

(** JavaScript truthiness of an optional string: [undefined] and the empty
    string are falsy. *)
Definition truthy (s : option string) : bool :=
  match s with
  | None => false
  | Some s => negb (String.eqb s "")
  end.

(** [a || b] on optional strings, with a string default. *)
Definition or_else (a : option string) (b : string) : string :=
  match a with
  | Some s => if String.eqb s "" then b else s
  | None => b
  end.

(** [Number.prototype.toString()] on an integer. *)
Definition toString (z : Z) : string := NilZero.string_of_int (Z.to_int z).

Fixpoint repeat_char (c : ascii) (n : nat) : string :=
  match n with
  | O => EmptyString
  | S k => String c (repeat_char c k)
  end.

(** [String.prototype.padStart(n, c)] for a one-character pad: the string
    itself when it already has [n] characters or more. *)
Definition padStart (n : nat) (c : ascii) (s : string) : string :=
  repeat_char c (n - String.length s) ++ s.

(** ** models/Product.js *)

Module Product.
Record t := mk {
  name : string;
  price : Z;
  discountPrice : Z;
  stock : Z;
  reservedStock : Z;
  lowStockThreshold : Z;
  isAvailable : bool;
  ratings_average : Q;
  ratings_count : Z
}.

(** [productSchema.virtual('availableStock')] *)
Definition availableStock (p : t) : Z := stock p - reservedStock p.

Definition set_stock (v : Z) (p : t) : t :=
  mk (name p) (price p) (discountPrice p) v (reservedStock p)
     (lowStockThreshold p) (isAvailable p) (ratings_average p) (ratings_count p).

(** [{ $inc: { reservedStock: d } }] *)
Definition inc_reservedStock (d : Z) (p : t) : t :=
  mk (name p) (price p) (discountPrice p) (stock p) (reservedStock p + d)
     (lowStockThreshold p) (isAvailable p) (ratings_average p) (ratings_count p).

(** [{ $inc: { stock: d1, reservedStock: d2 } }] *)
Definition inc_both (d1 d2 : Z) (p : t) : t :=
  mk (name p) (price p) (discountPrice p) (stock p + d1) (reservedStock p + d2)
     (lowStockThreshold p) (isAvailable p) (ratings_average p) (ratings_count p).

Definition set_ratings_average (a : Q) (p : t) : t :=
  mk (name p) (price p) (discountPrice p) (stock p) (reservedStock p)
     (lowStockThreshold p) (isAvailable p) a (ratings_count p).

Definition set_ratings (a : Q) (c : Z) (p : t) : t :=
  mk (name p) (price p) (discountPrice p) (stock p) (reservedStock p)
     (lowStockThreshold p) (isAvailable p) a c.

(** The schema's [min: 0] on [stock] and [reservedStock], with the data
    model's bound of the reservation by the stock. *)
Definition stock_ok (p : t) : Prop := 0 <= reservedStock p <= stock p.

Definition stock_okb (p : t) : bool :=
  (0 <=? reservedStock p) && (reservedStock p <=? stock p).
End Product.

(** ** models/Inventory.js *)

Module Inventory.
Inductive HistoryType := h_in | h_out | h_reserved | h_released | h_returned | h_adjustment.

Record StockHistory := mkHistory {
  type : HistoryType;
  quantity : Z;
  previousStock : Z;
  newStock : Z;
  reason : string;
  updatedBy : ObjectId
}.

Record t := mk {
  totalStock : Z;
  reservedStock : Z;
  lowStockThreshold : Z;
  stockHistory : list StockHistory;
  lastRestocked : option Date
}.

Definition availableStock (i : t) : Z := totalStock i - reservedStock i.

Definition set_totalStock (v : Z) (i : t) : t :=
  mk v (reservedStock i) (lowStockThreshold i) (stockHistory i) (lastRestocked i).

Definition set_lowStockThreshold (v : Z) (i : t) : t :=
  mk (totalStock i) (reservedStock i) v (stockHistory i) (lastRestocked i).

Definition set_lastRestocked (d : option Date) (i : t) : t :=
  mk (totalStock i) (reservedStock i) (lowStockThreshold i) (stockHistory i) d.

(** [inventory.stockHistory.push(h)] *)
Definition push_history (h : StockHistory) (i : t) : t :=
  mk (totalStock i) (reservedStock i) (lowStockThreshold i) (stockHistory i ++ [h])
     (lastRestocked i).

(** Schema validation: the [min: 0] of both counters. *)
Definition valid (i : t) : bool := (0 <=? totalStock i) && (0 <=? reservedStock i).
End Inventory.

(** ** models/Cart.js *)

Module Cart.
(** Modelled from the spec: the Cart model is not among the sources.  A cart
    line holds a product reference, a quantity and a price snapshot. *)
Record Item := mkItem {
  product : ObjectId;
  quantity : Z;
  price : Z
}.

(** Modelled from the spec: the Cart model is not among the sources.  One
    cart per user, holding the ordered list of its lines. *)
Record t := mk { items : list Item }.

(** Modelled from the spec: the Cart model is not among the sources; the
    spec's round-trip property gives the cart total as the sum over the
    lines of quantity times price. *)
Definition totalAmount (c : t) : Z :=
  foldr (fun i acc => quantity i * price i + acc) 0 (items c).
End Cart.

(** ** models/Order.js *)

Module Order.
Inductive Status := created | paid | packed | shipped | delivered | completed | cancelled.

#[global] Instance Status_eq_dec : EqDecision Status.
Proof. solve_decision. Defined.

Definition status_name (s : Status) : string :=
  match s with
  | created => "created" | paid => "paid" | packed => "packed"
  | shipped => "shipped" | delivered => "delivered"
  | completed => "completed" | cancelled => "cancelled"
  end.

(** The schema's [enum]; a string outside it has no status. *)
Definition parse_status (s : string) : option Status :=
  if String.eqb s "created" then Some created
  else if String.eqb s "paid" then Some paid
  else if String.eqb s "packed" then Some packed
  else if String.eqb s "shipped" then Some shipped
  else if String.eqb s "delivered" then Some delivered
  else if String.eqb s "completed" then Some completed
  else if String.eqb s "cancelled" then Some cancelled
  else None.

Inductive PaymentStatus := pending | pay_completed | failed | refunded.

#[global] Instance PaymentStatus_eq_dec : EqDecision PaymentStatus.
Proof. solve_decision. Defined.

Record Item := mkItem {
  product : ObjectId;
  name : string;
  quantity : Z;
  price : Z
}.

Record Address := mkAddress {
  street : string;
  city : string;
  state : string;
  pincode : string
}.

Record Payment := mkPayment {
  razorpayOrderId : option string;
  razorpayPaymentId : option string;
  razorpaySignature : option string;
  method : option string;
  pay_status : PaymentStatus;
  paidAt : option Date
}.

Record DeliveryInfo := mkDeliveryInfo {
  partner : option ObjectId;
  estimatedDate : option Date;
  actualDate : option Date;
  notes : option string
}.

Record History := mkHistory {
  h_status : string;
  h_timestamp : Date;
  h_note : option string;
  h_updatedBy : option ObjectId
}.

Record t := mk {
  user : ObjectId;
  orderNumber : option string;
  items : list Item;
  shippingAddress : Address;
  status : Status;
  payment : Payment;
  delivery : DeliveryInfo;
  totalAmount : Z;
  statusHistory : list History;
  cancellationReason : option string
}.

Definition set_orderNumber (n : option string) (o : t) : t :=
  mk (user o) n (items o) (shippingAddress o) (status o) (payment o)
     (delivery o) (totalAmount o) (statusHistory o) (cancellationReason o).

Definition set_status (s : Status) (o : t) : t :=
  mk (user o) (orderNumber o) (items o) (shippingAddress o) s (payment o)
     (delivery o) (totalAmount o) (statusHistory o) (cancellationReason o).

Definition set_payment (p : Payment) (o : t) : t :=
  mk (user o) (orderNumber o) (items o) (shippingAddress o) (status o) p
     (delivery o) (totalAmount o) (statusHistory o) (cancellationReason o).

Definition set_delivery (d : DeliveryInfo) (o : t) : t :=
  mk (user o) (orderNumber o) (items o) (shippingAddress o) (status o) (payment o)
     d (totalAmount o) (statusHistory o) (cancellationReason o).

(** [order.statusHistory.push(h)] *)
Definition push_history (h : History) (o : t) : t :=
  mk (user o) (orderNumber o) (items o) (shippingAddress o) (status o) (payment o)
     (delivery o) (totalAmount o) (statusHistory o ++ [h]) (cancellationReason o).

Definition set_cancellationReason (r : option string) (o : t) : t :=
  mk (user o) (orderNumber o) (items o) (shippingAddress o) (status o) (payment o)
     (delivery o) (totalAmount o) (statusHistory o) r.

Definition default_payment : Payment :=
  mkPayment None None None None pending None.

Definition default_delivery : DeliveryInfo :=
  mkDeliveryInfo None None None None.

(** Schema validation run by [save]: the four address parts are required
    strings, every line has a quantity of at least one. *)
Definition valid (o : t) : bool :=
  negb (String.eqb (street (shippingAddress o)) "")
  && negb (String.eqb (city (shippingAddress o)) "")
  && negb (String.eqb (state (shippingAddress o)) "")
  && negb (String.eqb (pincode (shippingAddress o)) "")
  && forallb (fun i => 1 <=? quantity i) (items o).

(** The sequence part of an order number: [(count + 1).toString().padStart(4, '0')]. *)
Definition sequence (count : Z) : string :=
  padStart 4 "0"%char (toString (count + 1)).

(** [`SON-${Date.now()}-${(count + 1).toString().padStart(4, '0')}`] *)
Definition make_orderNumber (now : Date) (count : Z) : string :=
  "SON-" ++ toString now ++ "-" ++ sequence count.

(** [orderSchema.pre('save')]: an order without an order number gets one
    from the clock and the number of stored orders. *)
Definition pre_save (now : Date) (count : Z) (o : t) : t :=
  if truthy (orderNumber o) then o
  else set_orderNumber (Some (make_orderNumber now count)) o.
End Order.


(** ** models/Delivery.js *)

Module Delivery.
(** The [status] enum of deliverySchema; the status route accepts the same
    six names. *)
Inductive Status := assigned | picked | in_transit | out_for_delivery | delivered | failed.

#[global] Instance Status_eq_dec : EqDecision Status.
Proof. solve_decision. Defined.

Definition status_name (s : Status) : string :=
  match s with
  | assigned => "assigned" | picked => "picked" | in_transit => "in_transit"
  | out_for_delivery => "out_for_delivery" | delivered => "delivered"
  | failed => "failed"
  end.

(** [validStatuses.includes(status)] of the status route. *)
Definition parse_status (s : string) : option Status :=
  if String.eqb s "assigned" then Some assigned
  else if String.eqb s "picked" then Some picked
  else if String.eqb s "in_transit" then Some in_transit
  else if String.eqb s "out_for_delivery" then Some out_for_delivery
  else if String.eqb s "delivered" then Some delivered
  else if String.eqb s "failed" then Some failed
  else None.

(** The nested address of the delivery schema (pickup and delivery): four
    strings, none of them required. *)
Record Address := mkAddress {
  street : option string;
  city : option string;
  state : option string;
  pincode : option string
}.

(** A nested address of which nothing was set. *)
Definition no_address : Address := mkAddress None None None None.

(** The order's shipping address, whose four parts are required, as the
    delivery document holds it. *)
Definition of_shipping (a : Order.Address) : Address :=
  mkAddress (Some (Order.street a)) (Some (Order.city a)) (Some (Order.state a))
            (Some (Order.pincode a)).

(** An entry of [statusHistory] in deliverySchema. *)
Record History := mkHistory {
  h_status : string;
  h_location : option string;
  h_note : option string;
  h_timestamp : Date
}.

(** deliverySchema: [order] and [partner] are required, [status] defaults to
    [assigned] and [attempts] to 0. *)
Record t := mk {
  order : ObjectId;
  partner : ObjectId;
  status : Status;
  estimatedDate : option Date;
  actualDeliveryDate : option Date;
  pickupAddress : Address;
  deliveryAddress : Address;
  notes : option string;
  customerSignature : option string;
  proofOfDelivery : option string;
  statusHistory : list History;
  failureReason : option string;
  attempts : Z
}.

Definition set_status (s : Status) (d : t) : t :=
  mk (order d) (partner d) s (estimatedDate d) (actualDeliveryDate d)
     (pickupAddress d) (deliveryAddress d) (notes d)
     (customerSignature d) (proofOfDelivery d) (statusHistory d)
     (failureReason d) (attempts d).

Definition set_actualDeliveryDate (a : option Date) (d : t) : t :=
  mk (order d) (partner d) (status d) (estimatedDate d) a
     (pickupAddress d) (deliveryAddress d) (notes d)
     (customerSignature d) (proofOfDelivery d) (statusHistory d)
     (failureReason d) (attempts d).

Definition set_customerSignature (s : option string) (d : t) : t :=
  mk (order d) (partner d) (status d) (estimatedDate d) (actualDeliveryDate d)
     (pickupAddress d) (deliveryAddress d) (notes d)
     s (proofOfDelivery d) (statusHistory d)
     (failureReason d) (attempts d).

Definition set_proofOfDelivery (s : option string) (d : t) : t :=
  mk (order d) (partner d) (status d) (estimatedDate d) (actualDeliveryDate d)
     (pickupAddress d) (deliveryAddress d) (notes d)
     (customerSignature d) s (statusHistory d)
     (failureReason d) (attempts d).

Definition set_partner (p : ObjectId) (d : t) : t :=
  mk (order d) p (status d) (estimatedDate d) (actualDeliveryDate d)
     (pickupAddress d) (deliveryAddress d) (notes d)
     (customerSignature d) (proofOfDelivery d) (statusHistory d)
     (failureReason d) (attempts d).

Definition set_estimatedDate (e : option Date) (d : t) : t :=
  mk (order d) (partner d) (status d) e (actualDeliveryDate d)
     (pickupAddress d) (deliveryAddress d) (notes d)
     (customerSignature d) (proofOfDelivery d) (statusHistory d)
     (failureReason d) (attempts d).

(** Assigning an object to the nested path replaces it as a whole. *)
Definition set_pickupAddress (a : Address) (d : t) : t :=
  mk (order d) (partner d) (status d) (estimatedDate d) (actualDeliveryDate d)
     a (deliveryAddress d) (notes d)
     (customerSignature d) (proofOfDelivery d) (statusHistory d)
     (failureReason d) (attempts d).

(** [delivery.statusHistory.push(h)] *)
Definition push_history (h : History) (d : t) : t :=
  mk (order d) (partner d) (status d) (estimatedDate d) (actualDeliveryDate d)
     (pickupAddress d) (deliveryAddress d) (notes d)
     (customerSignature d) (proofOfDelivery d) (statusHistory d ++ [h])
     (failureReason d) (attempts d).
End Delivery.

(** ** models/Review.js *)

Module Review.
Inductive Kind := product_review | delivery_review.

#[global] Instance Kind_eq_dec : EqDecision Kind.
Proof. solve_decision. Defined.

Record t := mk {
  type : Kind;
  product : option ObjectId;
  deliveryPartner : option ObjectId;
  order : option ObjectId;
  user : ObjectId;
  rating : Q;
  title : option string;
  comment : string;
  isVerifiedPurchase : bool;
  isApproved : bool
}.

Definition set_content (r : Q) (ti : option string) (c : string) (v : t) : t :=
  mk (type v) (product v) (deliveryPartner v) (order v) (user v) r ti c
     (isVerifiedPurchase v) (isApproved v).

Definition set_isApproved (b : bool) (v : t) : t :=
  mk (type v) (product v) (deliveryPartner v) (order v) (user v) (rating v)
     (title v) (comment v) (isVerifiedPurchase v) b.

(** Schema validation: [rating] between 1 and 5, [comment] required, and the
    reference that the review's type requires. *)
Definition valid (v : t) : bool :=
  Qle_bool 1 (rating v) && Qle_bool (rating v) 5
  && negb (String.eqb (comment v) "")
  && match type v with
     | product_review => bool_decide (is_Some (product v))
     | delivery_review => bool_decide (is_Some (deliveryPartner v))
     end.
End Review.

(** ** models/User.js: the part the review routes write *)

Module User.
Record t := mk {
  role : Role;
  rating_average : Q;
  rating_count : Z
}.

Definition set_rating_average (a : Q) (u : t) : t :=
  mk (role u) a (rating_count u).

Definition set_rating (a : Q) (c : Z) (u : t) : t :=
  mk (role u) a c.
End User.

(** ** The database: one finite map per collection *)

Record DB := mkDB {
  products : gmap N Product.t;
  inventories : gmap N Inventory.t;   (* keyed by the unique [product] reference *)
  carts : gmap N Cart.t;              (* keyed by the owning user *)
  orders : gmap N Order.t;
  deliveries : gmap N Delivery.t;
  reviews : gmap N Review.t;
  users : gmap N User.t
}.

Definition set_products (ps : gmap N Product.t) (db : DB) : DB :=
  mkDB ps (inventories db) (carts db) (orders db) (deliveries db) (reviews db) (users db).

Definition set_inventories (ivs : gmap N Inventory.t) (db : DB) : DB :=
  mkDB (products db) ivs (carts db) (orders db) (deliveries db) (reviews db) (users db).

Definition set_carts (cs : gmap N Cart.t) (db : DB) : DB :=
  mkDB (products db) (inventories db) cs (orders db) (deliveries db) (reviews db) (users db).

Definition set_orders (os : gmap N Order.t) (db : DB) : DB :=
  mkDB (products db) (inventories db) (carts db) os (deliveries db) (reviews db) (users db).

Definition set_deliveries (ds : gmap N Delivery.t) (db : DB) : DB :=
  mkDB (products db) (inventories db) (carts db) (orders db) ds (reviews db) (users db).

Definition set_reviews (rs : gmap N Review.t) (db : DB) : DB :=
  mkDB (products db) (inventories db) (carts db) (orders db) (deliveries db) rs (users db).

Definition set_users (us : gmap N User.t) (db : DB) : DB :=
  mkDB (products db) (inventories db) (carts db) (orders db) (deliveries db) (reviews db) us.

(** [Model.findOne(filter)]: the first document, in key order, that passes
    the filter. *)
Definition findOne {A} (f : A -> bool) (m : gmap N A) : option (N * A) :=
  List.find (fun kv => f kv.2) (map_to_list m).

(** [Model.find(filter)]: the documents that pass the filter. *)
Definition find_all {A} (f : A -> bool) (m : gmap N A) : list A :=
  List.filter f (map_to_list m).*2.

(** *** Saving an order

    [order.save()] validates the document, runs the pre-save hook and writes
    it; the unique index on [orderNumber] rejects a number that another
    stored order already carries. *)

Definition orderNumber_taken (n : string) (os : gmap N Order.t) : bool :=
  existsb (fun kv => bool_decide (Order.orderNumber kv.2 = Some n)) (map_to_list os).

Inductive SaveResult :=
| saved (o : Order.t) (os : gmap N Order.t)
| save_error (message : string).

Definition save_order (now : Date) (id : ObjectId) (o : Order.t)
    (os : gmap N Order.t) : SaveResult :=
  if negb (Order.valid o) then save_error "Order validation failed"
  else
    let o' := Order.pre_save now (Z.of_nat (size os)) o in
    let writes_number :=
      negb (truthy (Order.orderNumber o)) || bool_decide (os !! id = None) in
    match Order.orderNumber o' with
    | Some n =>
        if writes_number && orderNumber_taken n (delete id os)
        then save_error "E11000 duplicate key error"
        else saved o' (<[id := o']> os)
    | None => saved o' (<[id := o']> os)
    end.

(** What every stored order satisfies: it passed validation and carries an
    order number. *)
Definition stored_ok (o : Order.t) : Prop :=
  Order.valid o = true /\ truthy (Order.orderNumber o) = true.

(** ** middleware/auth.js *)

(** Modelled from the spec: the auth middleware is not among the sources.
    An admin-only route refuses every role but [admin] with 403. *)
Definition adminOnly (u : AuthUser) : bool := bool_decide (role u = admin).

(** Modelled from the spec: the auth middleware is not among the sources.
    The delivery routes are open to delivery partners and admins. *)
Definition deliveryAccess (u : AuthUser) : bool :=
  bool_decide (role u = delivery_partner) || bool_decide (role u = admin).

(** Modelled from the spec: the auth middleware is not among the sources.
    The inventory routes are open to inventory managers and admins. *)
Definition inventoryAccess (u : AuthUser) : bool :=
  bool_decide (role u = inventory_manager) || bool_decide (role u = admin).

Definition not_authorized : string := "Not authorized".

(** ** routes/orders.js *)

Module Orders.

Record CreateReq := mkCreateReq {
  c_user : AuthUser;
  c_shippingAddress : option Order.Address;
  c_now : Date
}.

(** Outcome of the validation loop of [POST /api/orders]. *)
Inductive StockCheck :=
| stock_valid
| stock_insufficient (name : string) (availableStock : Z)
| stock_throw.

(** The loop over the populated cart lines: the first line that asks for more
    than [stock - reservedStock] ends the request; a line whose product
    reference did not populate makes [product.stock] throw. *)
Fixpoint validate_stock (ps : gmap N Product.t) (items : list Cart.Item) : StockCheck :=
  match items with
  | [] => stock_valid
  | item :: rest =>
      match ps !! Cart.product item with
      | None => stock_throw
      | Some product =>
          let availableStock := Product.stock product - Product.reservedStock product in
          if availableStock <? Cart.quantity item
          then stock_insufficient (Product.name product) availableStock
          else validate_stock ps rest
      end
  end.

(** The reservation loop: one [$inc: { reservedStock: quantity }] per line. *)
Definition reserve_stock (items : list Cart.Item) (ps : gmap N Product.t) : gmap N Product.t :=
  foldl (fun acc item =>
           alter (Product.inc_reservedStock (Cart.quantity item)) (Cart.product item) acc)
        ps items.

Definition order_item (ps : gmap N Product.t) (item : Cart.Item) : Order.Item :=
  Order.mkItem (Cart.product item)
               (from_option Product.name ""%string (ps !! Cart.product item))
               (Cart.quantity item) (Cart.price item).

Definition insufficient_message (name : string) (availableStock : Z) : string :=
  "Insufficient stock for " ++ name ++ ". Only " ++ toString availableStock ++ " available.".

(** [POST /api/orders] *)
Definition create (req : CreateReq) (db : DB) : Response Order.t * DB :=
  match c_shippingAddress req with
  | None => (Failure 400 "Shipping address is required", db)
  | Some shippingAddress =>
      match carts db !! user_id (c_user req) with
      | None => (Failure 400 "Cart is empty", db)
      | Some cart =>
          if Nat.eqb (length (Cart.items cart)) 0
          then (Failure 400 "Cart is empty", db)
          else
            match validate_stock (products db) (Cart.items cart) with
            | stock_throw =>
                (Failure 500 "Cannot read properties of null (reading 'stock')", db)
            | stock_insufficient name availableStock =>
                (Failure 400 (insufficient_message name availableStock), db)
            | stock_valid =>
                let db1 := set_products (reserve_stock (Cart.items cart) (products db)) db in
                let orderItems := map (order_item (products db)) (Cart.items cart) in
                let order :=
                  Order.mk (user_id (c_user req)) None orderItems shippingAddress
                           Order.created Order.default_payment Order.default_delivery
                           (Cart.totalAmount cart)
                           [Order.mkHistory "created" (c_now req) (Some "Order placed"%string) None]
                           None in
                let id := fresh (dom (orders db1)) in
                match save_order (c_now req) id order (orders db1) with
                | save_error m => (Failure 500 m, db1)
                | saved o os =>
                    let db2 := set_orders os db1 in
                    let db3 := set_carts (<[user_id (c_user req) := Cart.mk []]> (carts db2)) db2 in
                    (Success 201 o, db3)
                end
            end
      end
  end.

Record StatusReq := mkStatusReq {
  s_user : AuthUser;
  s_id : ObjectId;
  s_status : string;
  s_note : option string;
  s_now : Date
}.

(** [PUT /api/orders/:id/status] *)
Definition updateStatus (req : StatusReq) (db : DB) : Response Order.t * DB :=
  if negb (adminOnly (s_user req)) then (Failure 403 not_authorized, db)
  else
    match Order.parse_status (s_status req) with
    | None => (Failure 400 "Invalid status", db)
    | Some status =>
        match orders db !! s_id req with
        | None => (Failure 404 "Order not found", db)
        | Some order =>
            let order := Order.set_status status order in
            let order :=
              Order.push_history
                (Order.mkHistory (s_status req) (s_now req) (s_note req)
                                 (Some (user_id (s_user req)))) order in
            match save_order (s_now req) (s_id req) order (orders db) with
            | save_error m => (Failure 500 m, db)
            | saved o os => (Success 200 o, set_orders os db)
            end
        end
    end.

Record CancelReq := mkCancelReq {
  x_user : AuthUser;
  x_id : ObjectId;
  x_reason : option string;
  x_now : Date
}.

(** [nonCancellable.includes(order.status)] *)
Definition nonCancellable (s : Order.Status) : bool :=
  match s with
  | Order.shipped | Order.delivered | Order.completed | Order.cancelled => true
  | _ => false
  end.

(** The release loop: one [$inc: { reservedStock: -quantity }] per line. *)
Definition release_stock (items : list Order.Item) (ps : gmap N Product.t) : gmap N Product.t :=
  foldl (fun acc item =>
           alter (Product.inc_reservedStock (- Order.quantity item)) (Order.product item) acc)
        ps items.

Definition cannot_cancel_message (s : Order.Status) : string :=
  "Cannot cancel order in " ++ Order.status_name s ++ " status".

(** [POST /api/orders/:id/cancel] *)
Definition cancel (req : CancelReq) (db : DB) : Response Order.t * DB :=
  match orders db !! x_id req with
  | None => (Failure 404 "Order not found", db)
  | Some order =>
      if negb (bool_decide (role (x_user req) = admin))
         && negb (bool_decide (Order.user order = user_id (x_user req)))
      then (Failure 403 not_authorized, db)
      else if nonCancellable (Order.status order)
      then (Failure 400 (cannot_cancel_message (Order.status order)), db)
      else
        let db1 := set_products (release_stock (Order.items order) (products db)) db in
        let order := Order.set_status Order.cancelled order in
        let order := Order.set_cancellationReason (x_reason req) order in
        let order :=
          Order.push_history
            (Order.mkHistory "cancelled" (x_now req)
                             (Some (or_else (x_reason req) "Order cancelled"))
                             (Some (user_id (x_user req)))) order in
        match save_order (x_now req) (x_id req) order (orders db1) with
        | save_error m => (Failure 500 m, db1)
        | saved o os => (Success 200 o, set_orders os db1)
        end
  end.

Record AssignReq := mkAssignReq {
  g_user : AuthUser;
  g_id : ObjectId;
  g_partnerId : option ObjectId;
  g_estimatedDate : option Date;
  g_now : Date
}.

(** [PUT /api/orders/:id/assign-delivery] *)
Definition assignDelivery (req : AssignReq) (db : DB) : Response Order.t * DB :=
  if negb (adminOnly (g_user req)) then (Failure 403 not_authorized, db)
  else
    match orders db !! g_id req with
    | None => (Failure 404 "Order not found", db)
    | Some order =>
        let order :=
          Order.set_delivery
            (Order.mkDeliveryInfo (g_partnerId req) (g_estimatedDate req) None None) order in
        let order :=
          Order.push_history
            (Order.mkHistory (Order.status_name (Order.status order)) (g_now req)
                             (Some "Delivery partner assigned"%string)
                             (Some (user_id (g_user req)))) order in
        match save_order (g_now req) (g_id req) order (orders db) with
        | save_error m => (Failure 500 m, db)
        | saved o os => (Success 200 o, set_orders os db)
        end
    end.

End Orders.

(** ** routes/payments.js *)

Module Payments.

(** The payment gateway and the [crypto] module, as the routes use them. *)
Record Gateway := mkGateway {
  hmac_sha256_hex : string -> string -> string;  (* key, message, hex digest *)
  key_secret : string;                           (* RAZORPAY_KEY_SECRET *)
  webhook_secret : string;                       (* RAZORPAY_WEBHOOK_SECRET *)
  payments_fetch : string -> option string;      (* the method of a payment; [None] when the call throws *)
  orders_create : Z -> option string -> option (string * Z);  (* amount in paise, receipt; the id and the amount of the gateway order *)
  payments_refund : string -> Z -> option (string * Z * string)  (* payment id, amount; the refund's id, amount, status *)
}.

Record CreateOrderReq := mkCreateOrderReq {
  co_user : AuthUser;
  co_orderId : ObjectId;
  co_now : Date
}.

(** [POST /api/payments/create-order]: the route asks the gateway for an
    order of the total in paise and answers the id and the amount of the
    gateway's reply. *)
Definition createOrder (gw : Gateway) (req : CreateOrderReq) (db : DB)
    : Response (string * Z) * DB :=
  match orders db !! co_orderId req with
  | None => (Failure 404 "Order not found", db)
  | Some order =>
      if negb (bool_decide (Order.user order = user_id (co_user req)))
      then (Failure 403 not_authorized, db)
      else if bool_decide (Order.pay_status (Order.payment order) = Order.pay_completed)
      then (Failure 400 "Order already paid", db)
      else
        let amount := Order.totalAmount order * 100 in
        match orders_create gw amount (Order.orderNumber order) with
        | None => (Failure 500 "Gateway order creation failed", db)
        | Some (razorpayOrderId, razorpayAmount) =>
            let p := Order.payment order in
            let order :=
              Order.set_payment
                (Order.mkPayment (Some razorpayOrderId) (Order.razorpayPaymentId p)
                                 (Order.razorpaySignature p) (Order.method p)
                                 (Order.pay_status p) (Order.paidAt p)) order in
            match save_order (co_now req) (co_orderId req) order (orders db) with
            | save_error m => (Failure 500 m, db)
            | saved _ os => (Success 200 (razorpayOrderId, razorpayAmount), set_orders os db)
            end
        end
  end.

Record VerifyReq := mkVerifyReq {
  v_user : AuthUser;
  razorpay_order_id : string;
  razorpay_payment_id : string;
  razorpay_signature : string;
  orderId : ObjectId;
  v_now : Date
}.

(** The commit loop: one [$inc: { stock: -quantity, reservedStock: -quantity }]
    per line. *)
Definition commit_stock (items : list Order.Item) (ps : gmap N Product.t) : gmap N Product.t :=
  foldl (fun acc item =>
           alter (Product.inc_both (- Order.quantity item) (- Order.quantity item))
                 (Order.product item) acc)
        ps items.

(** [POST /api/payments/verify] *)
Definition verify (gw : Gateway) (req : VerifyReq) (db : DB) : Response Order.t * DB :=
  let body := (razorpay_order_id req ++ "|" ++ razorpay_payment_id req)%string in
  let expectedSignature := hmac_sha256_hex gw (key_secret gw) body in
  if negb (String.eqb expectedSignature (razorpay_signature req))
  then (Failure 400 "Invalid payment signature", db)
  else
    match orders db !! orderId req with
    | None => (Failure 404 "Order not found", db)
    | Some order =>
        match payments_fetch gw (razorpay_payment_id req) with
        | None => (Failure 500 "Payment fetch failed", db)
        | Some method =>
            let order :=
              Order.set_payment
                (Order.mkPayment (Some (razorpay_order_id req))
                                 (Some (razorpay_payment_id req))
                                 (Some (razorpay_signature req))
                                 (Some method) Order.pay_completed (Some (v_now req)))
                order in
            let order := Order.set_status Order.paid order in
            let order :=
              Order.push_history
                (Order.mkHistory "paid" (v_now req)
                                 (Some ("Payment completed via " ++ method)%string)
                                 (Some (user_id (v_user req)))) order in
            let db1 := set_products (commit_stock (Order.items order) (products db)) db in
            match save_order (v_now req) (orderId req) order (orders db1) with
            | save_error m => (Failure 500 m, db1)
            | saved o os => (Success 200 o, set_orders os db1)
            end
        end
    end.

Record PaymentEntity := mkPaymentEntity {
  pe_id : string;
  pe_order_id : string;
  pe_method : string;
  pe_error_description : string
}.

Record RefundEntity := mkRefundEntity {
  re_payment_id : string;
  re_amount : Z
}.

(** [req.body.event] with its payload. *)
Inductive Event :=
| payment_captured (entity : PaymentEntity)
| payment_failed (entity : PaymentEntity)
| refund_created (entity : RefundEntity)
| other_event (name : string).

Record WebhookReq := mkWebhookReq {
  w_signature : option string;   (* the [x-razorpay-signature] header *)
  w_body : string;               (* [JSON.stringify(req.body)] *)
  w_event : Event;
  w_now : Date
}.

(** [`${amount / 100}`] for an amount in paise. *)
Definition rupees (amount : Z) : string :=
  let a := Z.abs amount in
  let q := a / 100 in
  let r := a mod 100 in
  let sign : string := if amount <? 0 then "-" else "" in
  let cents : string :=
    if r =? 0 then ""
    else if r mod 10 =? 0 then String.append "." (toString (r / 10))
    else if r <? 10 then String.append ".0" (toString r)
    else String.append "." (toString r) in
  (sign ++ toString q ++ cents)%string.

(** The rupee sign, as its UTF-8 bytes. *)
Definition rupee_sign : string :=
  String (ascii_of_nat 226) (String (ascii_of_nat 130) (String (ascii_of_nat 185) EmptyString)).

Definition set_payment_status (s : Order.PaymentStatus) (p : Order.Payment) : Order.Payment :=
  Order.mkPayment (Order.razorpayOrderId p) (Order.razorpayPaymentId p)
                  (Order.razorpaySignature p) (Order.method p) s (Order.paidAt p).

(** The assignments of the [payment.captured] case. *)
Definition captured (e : PaymentEntity) (now : Date) (o : Order.t) : Order.t :=
  let p := Order.payment o in
  let p' :=
    Order.mkPayment (Order.razorpayOrderId p) (Some (pe_id e)) (Order.razorpaySignature p)
                    (Some (pe_method e)) Order.pay_completed (Some now) in
  Order.set_status Order.paid (Order.set_payment p' o).

Definition save_to (now : Date) (id : ObjectId) (o : Order.t) (db : DB) : Response unit * DB :=
  match save_order now id o (orders db) with
  | save_error m => (Failure 500 m, db)
  | saved _ os => (Success 200 tt, set_orders os db)
  end.

(** [POST /api/payments/webhook] *)
Definition webhook (gw : Gateway) (req : WebhookReq) (db : DB) : Response unit * DB :=
  let digest := hmac_sha256_hex gw (webhook_secret gw) (w_body req) in
  if negb (bool_decide (Some digest = w_signature req))
  then (Failure 400 "Invalid webhook signature", db)
  else
    match w_event req with
    | payment_captured paymentEntity =>
        match findOne (fun o => bool_decide
                         (Order.razorpayOrderId (Order.payment o) = Some (pe_order_id paymentEntity)))
                      (orders db) with
        | Some (id, order) =>
            if bool_decide (Order.pay_status (Order.payment order) <> Order.pay_completed)
            then save_to (w_now req) id (captured paymentEntity (w_now req) order) db
            else (Success 200 tt, db)
        | None => (Success 200 tt, db)
        end
    | payment_failed failedPayment =>
        match findOne (fun o => bool_decide
                         (Order.razorpayOrderId (Order.payment o) = Some (pe_order_id failedPayment)))
                      (orders db) with
        | Some (id, failedOrder) =>
            let o := Order.set_payment
                       (set_payment_status Order.failed (Order.payment failedOrder)) failedOrder in
            let o := Order.push_history
                       (Order.mkHistory (Order.status_name (Order.status failedOrder)) (w_now req)
                          (Some ("Payment failed: " ++ pe_error_description failedPayment)%string)
                          None) o in
            save_to (w_now req) id o db
        | None => (Success 200 tt, db)
        end
    | refund_created refundEntity =>
        match findOne (fun o => bool_decide
                         (Order.razorpayPaymentId (Order.payment o) = Some (re_payment_id refundEntity)))
                      (orders db) with
        | Some (id, refundOrder) =>
            let o := Order.set_payment
                       (set_payment_status Order.refunded (Order.payment refundOrder)) refundOrder in
            let o := Order.push_history
                       (Order.mkHistory "refunded" (w_now req)
                          (Some ("Refund of " ++ rupee_sign ++ rupees (re_amount refundEntity)
                                 ++ " initiated")%string)
                          None) o in
            save_to (w_now req) id o db
        | None => (Success 200 tt, db)
        end
    | other_event _ => (Success 200 tt, db)
    end.

Record RefundReq := mkRefundReq {
  rf_user : AuthUser;
  rf_orderId : ObjectId;
  rf_amount : option Z;
  rf_reason : option string;
  rf_now : Date
}.

(** [amount ? Math.round(amount * 100) : Math.round(order.totalAmount * 100)] *)
Definition refundAmount (amount : option Z) (o : Order.t) : Z :=
  match amount with
  | Some a => if a =? 0 then Order.totalAmount o * 100 else a * 100
  | None => Order.totalAmount o * 100
  end.

(** [POST /api/payments/refund]; the answer carries the refund's id, its
    amount in rupees and its status. *)
Definition refund (gw : Gateway) (req : RefundReq) (db : DB)
    : Response (string * string * string) * DB :=
  if negb (adminOnly (rf_user req)) then (Failure 403 not_authorized, db)
  else
    match orders db !! rf_orderId req with
    | None => (Failure 404 "Order not found", db)
    | Some order =>
        match Order.razorpayPaymentId (Order.payment order) with
        | Some paymentId =>
            if String.eqb paymentId "" then (Failure 400 "No payment to refund", db)
            else
              let amount := refundAmount (rf_amount req) order in
              match payments_refund gw paymentId amount with
              | None => (Failure 500 "Gateway refund failed", db)
              | Some r =>
                  let o := Order.set_payment
                             (set_payment_status Order.refunded (Order.payment order)) order in
                  let o := Order.set_status Order.cancelled o in
                  let o := Order.push_history
                             (Order.mkHistory "cancelled" (rf_now req)
                                (Some ("Refund processed: " ++ rupee_sign ++ rupees amount
                                       ++ ". " ++ or_else (rf_reason req) "")%string)
                                (Some (user_id (rf_user req)))) o in
                  match save_order (rf_now req) (rf_orderId req) o (orders db) with
                  | save_error m => (Failure 500 m, db)
                  | saved _ os => (Success 200 (r.1.1, rupees r.1.2, r.2), set_orders os db)
                  end
              end
        | None => (Failure 400 "No payment to refund", db)
        end
    end.

End Payments.

(** ** routes/delivery.js *)

Module Deliveries.

Record StatusReq := mkStatusReq {
  d_user : AuthUser;
  d_id : ObjectId;
  d_status : string;
  d_note : option string;
  d_location : option string;
  d_now : Date
}.

(** The [if / else if] chain that projects a delivery status onto the order:
    [assigned] and [failed] leave the order status as it is. *)
Definition project (s : Delivery.Status) (o : Order.t) : Order.t :=
  match s with
  | Delivery.picked => Order.set_status Order.packed o
  | Delivery.in_transit | Delivery.out_for_delivery => Order.set_status Order.shipped o
  | Delivery.delivered => Order.set_status Order.delivered o
  | _ => o
  end.

Definition stamp_if_delivered (s : Delivery.Status) (now : Date) (d : Delivery.t) : Delivery.t :=
  match s with
  | Delivery.delivered => Delivery.set_actualDeliveryDate (Some now) d
  | _ => d
  end.

(** The check shared by the delivery routes: a delivery partner may only
    touch a delivery assigned to themself. *)
Definition foreign_partner (u : AuthUser) (d : Delivery.t) : bool :=
  bool_decide (role u = delivery_partner)
  && negb (bool_decide (Delivery.partner d = user_id u)).

(** [PUT /api/delivery/:id/status] *)
Definition updateStatus (req : StatusReq) (db : DB) : Response Delivery.t * DB :=
  if negb (deliveryAccess (d_user req)) then (Failure 403 not_authorized, db)
  else
    match Delivery.parse_status (d_status req) with
    | None => (Failure 400 "Invalid status", db)
    | Some status =>
        match deliveries db !! d_id req with
        | None => (Failure 404 "Delivery not found", db)
        | Some delivery =>
            if foreign_partner (d_user req) delivery
            then (Failure 403 not_authorized, db)
            else
              let delivery := Delivery.set_status status delivery in
              let delivery :=
                Delivery.push_history
                  (Delivery.mkHistory (d_status req) (d_location req) (d_note req) (d_now req))
                  delivery in
              match orders db !! Delivery.order delivery with
              | Some order =>
                  let order := project status order in
                  let delivery := stamp_if_delivered status (d_now req) delivery in
                  let order :=
                    Order.push_history
                      (Order.mkHistory (Order.status_name (Order.status order)) (d_now req)
                         (Some ("Delivery status: " ++ d_status req)%string)
                         (Some (user_id (d_user req)))) order in
                  match save_order (d_now req) (Delivery.order delivery) order (orders db) with
                  | save_error m => (Failure 500 m, db)
                  | saved _ os =>
                      (Success 200 delivery,
                       set_deliveries (<[d_id req := delivery]> (deliveries db))
                                      (set_orders os db))
                  end
              | None =>
                  (Success 200 delivery,
                   set_deliveries (<[d_id req := delivery]> (deliveries db)) db)
              end
        end
    end.

Record ConfirmReq := mkConfirmReq {
  f_user : AuthUser;
  f_id : ObjectId;
  f_signature : option string;
  f_proofImage : option string;
  f_note : option string;
  f_now : Date
}.

Definition set_actualDate (a : option Date) (i : Order.DeliveryInfo) : Order.DeliveryInfo :=
  Order.mkDeliveryInfo (Order.partner i) (Order.estimatedDate i) a (Order.notes i).

(** [POST /api/delivery/:id/confirm] *)
Definition confirm (req : ConfirmReq) (db : DB) : Response Delivery.t * DB :=
  if negb (deliveryAccess (f_user req)) then (Failure 403 not_authorized, db)
  else
    match deliveries db !! f_id req with
    | None => (Failure 404 "Delivery not found", db)
    | Some delivery =>
        if foreign_partner (f_user req) delivery
        then (Failure 403 not_authorized, db)
        else
          let delivery := Delivery.set_status Delivery.delivered delivery in
          let delivery := Delivery.set_actualDeliveryDate (Some (f_now req)) delivery in
          let delivery := Delivery.set_customerSignature (f_signature req) delivery in
          let delivery := Delivery.set_proofOfDelivery (f_proofImage req) delivery in
          let delivery :=
            Delivery.push_history
              (Delivery.mkHistory "delivered" None
                 (Some (or_else (f_note req) "Delivery confirmed")) (f_now req))
              delivery in
          let db1 := set_deliveries (<[f_id req := delivery]> (deliveries db)) db in
          match orders db1 !! Delivery.order delivery with
          | Some order =>
              let order := Order.set_status Order.completed order in
              let order :=
                Order.set_delivery (set_actualDate (Some (f_now req)) (Order.delivery order))
                                   order in
              let order :=
                Order.push_history
                  (Order.mkHistory "completed" (f_now req)
                     (Some "Order delivered and confirmed"%string)
                     (Some (user_id (f_user req)))) order in
              match save_order (f_now req) (Delivery.order delivery) order (orders db1) with
              | save_error m => (Failure 500 m, db1)
              | saved _ os => (Success 200 delivery, set_orders os db1)
              end
          | None => (Success 200 delivery, db1)
          end
    end.

(** The body's [pickupAddress]: a string, or an object of the shape that
    deliverySchema declares. *)
Inductive Pickup := pickup_text (s : string) | pickup_object (a : Delivery.Address).

Record AssignReq := mkAssignReq {
  as_user : AuthUser;
  as_orderId : ObjectId;
  as_partnerId : option ObjectId;
  as_estimatedDate : option Date;
  as_pickupAddress : option Pickup;
  as_now : Date
}.

(** [new Delivery({ ..., pickupAddress, ... })]: the constructor takes an
    object for the nested path and leaves out a value that is no object. *)
Definition pickup_of_new (p : option Pickup) : Delivery.Address :=
  match p with
  | Some (pickup_object a) => a
  | _ => Delivery.no_address
  end.

(** [if (pickupAddress) delivery.pickupAddress = pickupAddress]: an object
    replaces the stored address; a non-empty string is assigned as well and
    cannot be cast to the nested path, so that [delivery.save()] throws
    ([None]). *)
Definition pickup_of_existing (p : option Pickup) (d : Delivery.t) : option Delivery.t :=
  match p with
  | None => Some d
  | Some (pickup_text s) => if String.eqb s "" then Some d else None
  | Some (pickup_object a) => Some (Delivery.set_pickupAddress a d)
  end.

(** The delivery document that the assign route passes to [delivery.save()],
    with its id: the stored delivery of the order with partner, estimated
    date and pickup address assigned, or a new document. *)
Definition assigned_delivery (req : AssignReq) (partnerId : ObjectId) (order : Order.t)
    (db : DB) : option (ObjectId * Delivery.t) :=
  match findOne (fun d => bool_decide (Delivery.order d = as_orderId req))
                (deliveries db) with
  | Some (id, delivery) =>
      let delivery := Delivery.set_partner partnerId delivery in
      let delivery := Delivery.set_estimatedDate (as_estimatedDate req) delivery in
      match pickup_of_existing (as_pickupAddress req) delivery with
      | Some delivery => Some (id, delivery)
      | None => None
      end
  | None =>
      Some (fresh (dom (deliveries db)),
            Delivery.mk (as_orderId req) partnerId Delivery.assigned
                        (as_estimatedDate req) None
                        (pickup_of_new (as_pickupAddress req))
                        (Delivery.of_shipping (Order.shippingAddress order))
                        None None None
                        [Delivery.mkHistory "assigned" None
                           (Some "Delivery assigned"%string) (as_now req)]
                        None 0)
  end.

(** [POST /api/delivery/assign]: the delivery of the order is updated, or
    created under a new id, and the order's delivery summary is rewritten.
    [partner] is required by deliverySchema: without a [partnerId] the save
    of the delivery throws and nothing is written. *)
Definition assign (req : AssignReq) (db : DB) : Response Delivery.t * DB :=
  if negb (adminOnly (as_user req)) then (Failure 403 not_authorized, db)
  else
    match orders db !! as_orderId req with
    | None => (Failure 404 "Order not found", db)
    | Some order =>
        match as_partnerId req with
        | None => (Failure 500 "Delivery validation failed", db)
        | Some partnerId =>
            match assigned_delivery req partnerId order db with
            | None => (Failure 500 "Delivery validation failed", db)
            | Some (id, delivery) =>
                let db1 := set_deliveries (<[id := delivery]> (deliveries db)) db in
                let order :=
                  Order.set_delivery
                    (Order.mkDeliveryInfo (Some partnerId) (as_estimatedDate req) None None)
                    order in
                match save_order (as_now req) (as_orderId req) order (orders db1) with
                | save_error m => (Failure 500 m, db1)
                | saved _ os => (Success 200 delivery, set_orders os db1)
                end
            end
        end
    end.

End Deliveries.

(** ** routes/reviews.js *)

Module Reviews.

(** A JavaScript number as the rating arithmetic sees it.  A finite number
    is held as an exact rational, where the code computes in binary64: the
    two agree on sums of whole ratings, on their mean rounded to one
    decimal and on the decimal literals of the seed, the rational m/10
    standing for the double nearest to it.  The theorems about averages
    are stated for whole ratings. *)
Inductive Number := Fin (q : Q) | NaN.

(** [reviews.reduce((sum, r) => sum + r.rating, 0)] *)
Definition sum_ratings (reviews : list Review.t) : Q :=
  foldl (fun sum r => (sum + Review.rating r)%Q) 0%Q reviews.

(** [reviews.reduce(...) / reviews.length]: on an empty list the sum is 0 and
    0 / 0 is NaN.  The quotient is exact here and rounded to binary64 in the
    code. *)
Definition average (reviews : list Review.t) : Number :=
  match reviews with
  | [] => NaN
  | _ => Fin (sum_ratings reviews / inject_Z (Z.of_nat (length reviews)))%Q
  end.

(** [reviews.length > 0 ? reviews.reduce(...) / reviews.length : 0] *)
Definition guarded_average (reviews : list Review.t) : Number :=
  if (0 <? length reviews)%nat then average reviews else Fin 0%Q.

(** [Math.round(x * 10) / 10]; [Math.round] is the floor of [x + 1/2].  On
    the mean of fewer than 2^40 whole ratings from 1 to 5 the binary64
    product [x * 10] lies on the same side of every half as the exact one,
    so that both round to the same integer. *)
Definition round1 (x : Number) : Number :=
  match x with
  | Fin q => Fin (inject_Z (Qfloor (q * 10 + (1 # 2))) / 10)%Q
  | NaN => NaN
  end.

(** The filter [{ product, isApproved: true, type: 'product' }]. *)
Definition approved_for_product (pid : ObjectId) (r : Review.t) : bool :=
  bool_decide (Review.product r = Some pid)
  && Review.isApproved r
  && bool_decide (Review.type r = Review.product_review).

(** The filter [{ deliveryPartner, isApproved: true, type: 'delivery' }]. *)
Definition approved_for_partner (uid : ObjectId) (r : Review.t) : bool :=
  bool_decide (Review.deliveryPartner r = Some uid)
  && Review.isApproved r
  && bool_decide (Review.type r = Review.delivery_review).

(** [Product.findByIdAndUpdate(id, { 'ratings.average': a, 'ratings.count': c })],
    and the same without the count.  Mongoose refuses to cast NaN to a Number:
    the update throws and nothing is written. *)
Definition write_product_rating (pid : ObjectId) (a : Number) (c : option Z) (db : DB)
    : option DB :=
  match a with
  | NaN => None
  | Fin q =>
      let f := match c with
               | Some n => Product.set_ratings q n
               | None => Product.set_ratings_average q
               end in
      Some (set_products (alter f pid (products db)) db)
  end.

(** [User.findByIdAndUpdate(id, { 'rating.average': a, 'rating.count': c })],
    and the same without the count. *)
Definition write_partner_rating (uid : ObjectId) (a : Number) (c : option Z) (db : DB)
    : option DB :=
  match a with
  | NaN => None
  | Fin q =>
      let f := match c with
               | Some n => User.set_rating q n
               | None => User.set_rating_average q
               end in
      Some (set_users (alter f uid (users db)) db)
  end.

Definition cast_error : string := "Cast to Number failed for value NaN".

Definition finish {A} (data : A) (code : Z) (w : option DB) (db : DB) : Response A * DB :=
  match w with
  | Some db' => (Success code data, db')
  | None => (Failure 500 cast_error, db)
  end.

(** The recomputation that the create (delivery), delete and moderate routes
    share: guarded average, average and count both written. *)
Definition recompute_guarded (review : Review.t) (db : DB) : option DB :=
  match Review.type review with
  | Review.product_review =>
      match Review.product review with
      | Some pid =>
          let reviews := find_all (approved_for_product pid) (reviews db) in
          write_product_rating pid (round1 (guarded_average reviews))
                               (Some (Z.of_nat (length reviews))) db
      | None => Some db
      end
  | Review.delivery_review =>
      match Review.deliveryPartner review with
      | Some uid =>
          let reviews := find_all (approved_for_partner uid) (reviews db) in
          write_partner_rating uid (round1 (guarded_average reviews))
                               (Some (Z.of_nat (length reviews))) db
      | None => Some db
      end
  end.

(** The recomputation of the update route: no guard on the empty list, only
    the average written. *)
Definition recompute_on_update (review : Review.t) (db : DB) : option DB :=
  match Review.type review with
  | Review.product_review =>
      match Review.product review with
      | Some pid =>
          let reviews := find_all (approved_for_product pid) (reviews db) in
          write_product_rating pid (round1 (average reviews)) None db
      | None => Some db
      end
  | Review.delivery_review =>
      match Review.deliveryPartner review with
      | Some uid =>
          let reviews := find_all (approved_for_partner uid) (reviews db) in
          write_partner_rating uid (round1 (average reviews)) None db
      | None => Some db
      end
  end.

Record CreateReq := mkCreateReq {
  r_user : AuthUser;
  r_type : option string;
  r_productId : option ObjectId;
  r_orderId : option ObjectId;
  r_rating : option Q;
  r_title : option string;
  r_comment : option string
}.

(** [Review.create(doc)]: schema validation, then insertion under a new id. *)
Definition create_review (doc : option Review.t) (db : DB) : option (Review.t * DB) :=
  match doc with
  | Some r =>
      if Review.valid r
      then Some (r, set_reviews (<[fresh (dom (reviews db)) := r]> (reviews db)) db)
      else None
  | None => None
  end.

(** The document of a review to create; [None] when [rating] or [comment],
    both required, are missing. *)
Definition review_doc (k : Review.Kind) (p d o : option ObjectId) (u : ObjectId)
    (rating : option Q) (title comment : option string) (verified : bool) : option Review.t :=
  match rating, comment with
  | Some r, Some c => Some (Review.mk k p d o u r title c verified true)
  | _, _ => None
  end.

Definition has_item (pid : ObjectId) (o : Order.t) : bool :=
  existsb (fun i => bool_decide (Order.product i = pid)) (Order.items o).

Definition delivered_or_completed (s : Order.Status) : bool :=
  match s with
  | Order.delivered | Order.completed => true
  | _ => false
  end.

Definition create_product_review (req : CreateReq) (db : DB) : Response Review.t * DB :=
  match r_productId req ≫= fun pid => (fun _ => pid) <$> products db !! pid with
  | None => (Failure 404 "Product not found", db)
  | Some productId =>
      let uid := user_id (r_user req) in
      match findOne (fun r => bool_decide (Review.product r = Some productId)
                              && bool_decide (Review.user r = uid)
                              && bool_decide (Review.type r = Review.product_review))
                    (reviews db) with
      | Some _ => (Failure 400 "You have already reviewed this product", db)
      | None =>
          let hasOrdered :=
            findOne (fun o => bool_decide (Order.user o = uid)
                              && has_item productId o
                              && delivered_or_completed (Order.status o))
                    (orders db) in
          let order := match r_orderId req with
                       | Some o => Some o
                       | None => fst <$> hasOrdered
                       end in
          match create_review
                  (review_doc Review.product_review (Some productId) None order uid
                              (r_rating req) (r_title req) (r_comment req)
                              (bool_decide (is_Some hasOrdered))) db with
          | None => (Failure 500 "Review validation failed", db)
          | Some (review, db1) =>
              let reviews := find_all (approved_for_product productId) (reviews db1) in
              finish review 201
                     (write_product_rating productId (round1 (average reviews))
                                           (Some (Z.of_nat (length reviews))) db1)
                     db1
          end
      end
  end.

Definition create_delivery_review (req : CreateReq) (db : DB) : Response Review.t * DB :=
  match r_orderId req with
  | None => (Failure 400 "Order ID is required for delivery reviews", db)
  | Some orderId =>
      match orders db !! orderId with
      | None => (Failure 404 "Order not found", db)
      | Some order =>
          let uid := user_id (r_user req) in
          if negb (bool_decide (Order.user order = uid))
          then (Failure 403 "Not authorized to review this delivery", db)
          else if negb (delivered_or_completed (Order.status order))
          then (Failure 400 "Order must be delivered to leave a review", db)
          else
            (* [populate('delivery.partner')]: a reference to no user is null *)
            match Order.partner (Order.delivery order)
                  ≫= fun p => (fun _ => p) <$> users db !! p with
            | None => (Failure 400 "No delivery partner assigned to this order", db)
            | Some deliveryPartnerId =>
                match findOne (fun r => bool_decide (Review.order r = Some orderId)
                                        && bool_decide (Review.type r = Review.delivery_review))
                              (reviews db) with
                | Some _ => (Failure 400 "You have already reviewed this delivery", db)
                | None =>
                    match create_review
                            (review_doc Review.delivery_review None (Some deliveryPartnerId)
                                        (Some orderId) uid
                                        (r_rating req) (r_title req) (r_comment req) true) db with
                    | None => (Failure 500 "Review validation failed", db)
                    | Some (review, db1) => finish review 201 (recompute_guarded review db1) db1
                    end
                end
            end
      end
  end.

(** [POST /api/reviews] *)
Definition create (req : CreateReq) (db : DB) : Response Review.t * DB :=
  let type := default "product"%string (r_type req) in
  if String.eqb type "product" then create_product_review req db
  else if String.eqb type "delivery" then create_delivery_review req db
  else (Failure 400 "Invalid review type", db).

Record UpdateReq := mkUpdateReq {
  u_user : AuthUser;
  u_id : ObjectId;
  u_rating : option Q;
  u_title : option string;
  u_comment : option string
}.

(** [rating || review.rating]: zero is falsy. *)
Definition rating_or (r : option Q) (old : Q) : Q :=
  match r with
  | Some q => if Qeq_bool q 0 then old else q
  | None => old
  end.

(** [PUT /api/reviews/:id] *)
Definition update (req : UpdateReq) (db : DB) : Response Review.t * DB :=
  match reviews db !! u_id req with
  | None => (Failure 404 "Review not found", db)
  | Some review =>
      if negb (bool_decide (Review.user review = user_id (u_user req)))
      then (Failure 403 not_authorized, db)
      else
        let review :=
          Review.set_content
            (rating_or (u_rating req) (Review.rating review))
            (if truthy (u_title req) then u_title req else Review.title review)
            (or_else (u_comment req) (Review.comment review))
            review in
        if negb (Review.valid review) then (Failure 500 "Review validation failed", db)
        else
          let db1 := set_reviews (<[u_id req := review]> (reviews db)) db in
          finish review 200 (recompute_on_update review db1) db1
  end.

Record DeleteReq := mkDeleteReq {
  del_user : AuthUser;
  del_id : ObjectId
}.

(** [DELETE /api/reviews/:id] *)
Definition delete (req : DeleteReq) (db : DB) : Response unit * DB :=
  match reviews db !! del_id req with
  | None => (Failure 404 "Review not found", db)
  | Some review =>
      if negb (bool_decide (Review.user review = user_id (del_user req)))
         && negb (bool_decide (role (del_user req) = admin))
      then (Failure 403 not_authorized, db)
      else
        let db1 := set_reviews (base.delete (del_id req) (reviews db)) db in
        finish tt 200 (recompute_guarded review db1) db1
  end.

Record ModerateReq := mkModerateReq {
  m_user : AuthUser;
  m_id : ObjectId;
  m_isApproved : option bool
}.

(** [PUT /api/reviews/:id/moderate]; an undefined [isApproved] sets nothing. *)
Definition moderate (req : ModerateReq) (db : DB) : Response Review.t * DB :=
  if negb (adminOnly (m_user req)) then (Failure 403 not_authorized, db)
  else
    match reviews db !! m_id req with
    | None => (Failure 404 "Review not found", db)
    | Some review =>
        let review := match m_isApproved req with
                      | Some b => Review.set_isApproved b review
                      | None => review
                      end in
        let db1 := set_reviews (<[m_id req := review]> (reviews db)) db in
        finish review 200 (recompute_guarded review db1) db1
    end.

End Reviews.

(** ** routes/inventory.js *)

Module Inventories.

Record AddReq := mkAddReq {
  a_user : AuthUser;
  a_productId : option ObjectId;
  a_quantity : option Z;
  a_reason : option string;
  a_now : Date
}.

(** [!quantity || quantity < 1] *)
Definition bad_quantity (q : option Z) : bool :=
  match q with
  | None => true
  | Some q => (q =? 0) || (q <? 1)
  end.

(** [POST /api/inventory/add-stock] *)
Definition addStock (req : AddReq) (db : DB) : Response Inventory.t * DB :=
  if negb (inventoryAccess (a_user req)) then (Failure 403 not_authorized, db)
  else
    match a_productId req, a_quantity req with
    | Some productId, Some quantity =>
        if bad_quantity (Some quantity)
        then (Failure 400 "Product ID and quantity are required", db)
        else
          match products db !! productId with
          | None => (Failure 404 "Product not found", db)
          | Some _ =>
              let inventory :=
                default (Inventory.mk 0 0 5 [] None) (inventories db !! productId) in
              let previousStock := Inventory.totalStock inventory in
              let inventory := Inventory.set_totalStock (previousStock + quantity) inventory in
              let inventory := Inventory.set_lastRestocked (Some (a_now req)) inventory in
              let inventory :=
                Inventory.push_history
                  (Inventory.mkHistory Inventory.h_in quantity previousStock
                     (Inventory.totalStock inventory)
                     (or_else (a_reason req) "Stock added") (user_id (a_user req)))
                  inventory in
              if negb (Inventory.valid inventory)
              then (Failure 500 "Inventory validation failed", db)
              else
                let db1 := set_inventories (<[productId := inventory]> (inventories db)) db in
                (Success 200 inventory,
                 set_products
                   (alter (Product.set_stock (Inventory.totalStock inventory)) productId
                          (products db1)) db1)
          end
    | _, _ => (Failure 400 "Product ID and quantity are required", db)
    end.

Record UpdateReq := mkUpdateReq {
  i_user : AuthUser;
  i_productId : ObjectId;
  i_totalStock : option Z;
  i_lowStockThreshold : option Z;
  i_reason : option string
}.

(** [PUT /api/inventory/:productId]: the product's stock is written before
    the inventory record is validated and saved. *)
Definition update (req : UpdateReq) (db : DB) : Response Inventory.t * DB :=
  if negb (inventoryAccess (i_user req)) then (Failure 403 not_authorized, db)
  else
    match inventories db !! i_productId req with
    | None => (Failure 404 "Inventory record not found", db)
    | Some inventory =>
        let previousStock := Inventory.totalStock inventory in
        let '(inventory, db1) :=
          match i_totalStock req with
          | Some totalStock =>
              (Inventory.push_history
                 (Inventory.mkHistory Inventory.h_adjustment (totalStock - previousStock)
                    previousStock totalStock
                    (or_else (i_reason req) "Manual adjustment") (user_id (i_user req)))
                 (Inventory.set_totalStock totalStock inventory),
               set_products
                 (alter (Product.set_stock totalStock) (i_productId req) (products db)) db)
          | None => (inventory, db)
          end in
        let inventory :=
          match i_lowStockThreshold req with
          | Some t => Inventory.set_lowStockThreshold t inventory
          | None => inventory
          end in
        if negb (Inventory.valid inventory)
        then (Failure 500 "Inventory validation failed", db1)
        else
          (Success 200 inventory,
           set_inventories (<[i_productId req := inventory]> (inventories db1)) db1)
    end.

Record RemoveReq := mkRemoveReq {
  rm_user : AuthUser;
  rm_productId : ObjectId;
  rm_quantity : option Z;
  rm_reason : option string;
  rm_type : option Inventory.HistoryType
}.

Definition cannot_remove_message (quantity availableStock : Z) : string :=
  "Cannot remove " ++ toString quantity ++ ". Only " ++ toString availableStock
  ++ " available (unreserved).".

(** [POST /api/inventory/:productId/remove-stock]: the check reads the
    inventory record's own [reservedStock]. *)
Definition removeStock (req : RemoveReq) (db : DB) : Response Inventory.t * DB :=
  if negb (inventoryAccess (rm_user req)) then (Failure 403 not_authorized, db)
  else
    match rm_quantity req with
    | Some quantity =>
        if bad_quantity (Some quantity) then (Failure 400 "Quantity is required", db)
        else
          match inventories db !! rm_productId req with
          | None => (Failure 404 "Inventory record not found", db)
          | Some inventory =>
              let availableStock :=
                Inventory.totalStock inventory - Inventory.reservedStock inventory in
              if availableStock <? quantity
              then (Failure 400 (cannot_remove_message quantity availableStock), db)
              else
                let previousStock := Inventory.totalStock inventory in
                let inventory := Inventory.set_totalStock (previousStock - quantity) inventory in
                let inventory :=
                  Inventory.push_history
                    (Inventory.mkHistory (default Inventory.h_out (rm_type req)) (- quantity)
                       previousStock (Inventory.totalStock inventory)
                       (or_else (rm_reason req) "Stock removed") (user_id (rm_user req)))
                    inventory in
                if negb (Inventory.valid inventory)
                then (Failure 500 "Inventory validation failed", db)
                else
                  let db1 :=
                    set_inventories (<[rm_productId req := inventory]> (inventories db)) db in
                  (Success 200 inventory,
                   set_products
                     (alter (Product.set_stock (Inventory.totalStock inventory))
                            (rm_productId req) (products db1)) db1)
          end
    | None => (Failure 400 "Quantity is required", db)
    end.

End Inventories.

(** ** A small shop

    One product with five units on hand, one customer with three of them in
    the cart, and the requests of one order's life. *)

Module Example.

Definition bike : Product.t := Product.mk "Bike" 100 0 5 0 5 true 0%Q 0.

Definition alice : AuthUser := mkAuthUser 10%N customer.
Definition root : AuthUser := mkAuthUser 1%N admin.
Definition courier : AuthUser := mkAuthUser 20%N delivery_partner.

Definition home : Order.Address := Order.mkAddress "1 Main St" "Pune" "MH" "411001".

Definition shop : DB :=
  mkDB {[ 1%N := bike ]} {[ 1%N := Inventory.mk 5 0 5 [] None ]}
       {[ 10%N := Cart.mk [Cart.mkItem 1%N 3 100] ]} ∅ ∅ ∅ ∅.

Definition checkout : Orders.CreateReq :=
  Orders.mkCreateReq alice (Some home) 1700000000000.

(** A gateway whose digest is the key, a colon and the message. *)
Definition gateway : Payments.Gateway :=
  Payments.mkGateway (fun k m => (k ++ ":" ++ m)%string) "secret" "hook"
                     (fun _ => Some "upi"%string)
                     (fun amount _ => Some ("order_1"%string, amount))
                     (fun _ amount => Some ("rfnd_1"%string, amount, "processed"%string)).

Definition pay : Payments.VerifyReq :=
  Payments.mkVerifyReq alice "order_1" "pay_1" "secret:order_1|pay_1" 0%N 1700000000500.

Definition withdraw : Orders.CancelReq :=
  Orders.mkCancelReq alice 0%N (Some "changed mind"%string) 1700000001000.

(** The database after the checkout, and after the payment of the order. *)
Definition ordered : DB := (Orders.create checkout shop).2.
Definition paid : DB := (Payments.verify gateway pay ordered).2.

(** An order document as a route builds it, before its first save. *)
Definition blank_order : Order.t :=
  Order.mk 10%N None [Order.mkItem 1%N "Bike" 3 100] home Order.created
           Order.default_payment Order.default_delivery 300 [] None.

(** The order of the checkout, as stored. *)
Definition placed : Order.t :=
  Order.mk 10%N (Some "SON-1700000000000-0001"%string) [Order.mkItem 1%N "Bike" 3 100] home
           Order.created Order.default_payment Order.default_delivery 300
           [Order.mkHistory "created" 1700000000000 (Some "Order placed"%string) None] None.

(** A cart that asks for seven of the five bikes. *)
Definition greedy_cart : Cart.t := Cart.mk [Cart.mkItem 1%N 7 100].

Definition greedy : DB :=
  mkDB {[ 1%N := bike ]} ∅ {[ 10%N := greedy_cart ]} ∅ ∅ ∅ ∅.

(** The placed order with a delivery assigned to the courier. *)
Definition parcel : Delivery.t :=
  Delivery.mk 0%N 20%N Delivery.assigned None None Delivery.no_address
              (Delivery.of_shipping home) None None None [] None 0.

Definition dispatched : DB := set_deliveries {[ 5%N := parcel ]} ordered.

Definition pick_up : Deliveries.StatusReq :=
  Deliveries.mkStatusReq courier 5%N "picked" None None 1700000002000.

Definition hand_over : Deliveries.ConfirmReq :=
  Deliveries.mkConfirmReq courier 5%N (Some "signed"%string) (Some "proof.png"%string) None
                          1700000003000.

(** The admin cancels the placed order through the status route. *)
Definition strike : Orders.StatusReq :=
  Orders.mkStatusReq root 0%N "cancelled" None 1700000001000.

(** The placed order once the gateway order has been created for it. *)
Definition awaited : Order.t :=
  Order.set_payment (Order.mkPayment (Some "order_1"%string) None None None Order.pending None)
                    placed.

Definition awaiting : DB := set_orders {[ 0%N := awaited ]} ordered.

Definition captured_event : Payments.PaymentEntity :=
  Payments.mkPaymentEntity "pay_1" "order_1" "upi" "".

Definition hook : Payments.WebhookReq :=
  Payments.mkWebhookReq (Some "hook:{}"%string) "{}"
                        (Payments.payment_captured captured_event) 1700000000500.

(** A seeded product: the seed writes its ratings and inserts its reviews
    apart from each other. *)
Definition seeded_bike : Product.t := Product.mk "Bike" 100 0 5 0 5 true (47 # 10)%Q 128.

Definition seeded_review : Review.t :=
  Review.mk Review.product_review (Some 1%N) None None 10%N 4%Q
            (Some "Great bike!"%string) "Great quality and design." true true.

Definition seeded : DB :=
  mkDB {[ 1%N := seeded_bike ]} ∅ ∅ ∅ ∅ {[ 7%N := seeded_review ]} ∅.

Definition edit : Reviews.UpdateReq :=
  Reviews.mkUpdateReq alice 7%N (Some 5%Q) None None.

(** The stock manager sets the bike's stock to one, and takes five bikes out. *)
Definition adjust : Inventories.UpdateReq :=
  Inventories.mkUpdateReq root 1%N (Some 1) None None.

Definition scrap : Inventories.RemoveReq :=
  Inventories.mkRemoveReq root 1%N (Some 5) None None.

End Example.

(** ** Further requests and databases *)

Module Scenario.

(** A shipping address without its pincode, and a checkout that sends it. *)
Definition nowhere : Order.Address := Order.mkAddress "1 Main St" "Pune" "MH" "".

Definition careless : Orders.CreateReq :=
  Orders.mkCreateReq Example.alice (Some nowhere) 1700000000000.

(** The cart of the shop. *)
Definition basket : Cart.t := Cart.mk [Cart.mkItem 1%N 3 100].

(** The owner asks the gateway for a payment of the placed order. *)
Definition invoice : Payments.CreateOrderReq :=
  Payments.mkCreateOrderReq Example.alice 0%N 1700000000200.

(** The placed order as the verify route stores it. *)
Definition settled : Order.t :=
  Order.mk 10%N (Some "SON-1700000000000-0001"%string) [Order.mkItem 1%N "Bike" 3 100]
           Example.home Order.paid
           (Order.mkPayment (Some "order_1"%string) (Some "pay_1"%string)
                            (Some "secret:order_1|pay_1"%string) (Some "upi"%string)
                            Order.pay_completed (Some 1700000000500))
           Order.default_delivery 300
           [Order.mkHistory "created" 1700000000000 (Some "Order placed"%string) None;
            Order.mkHistory "paid" 1700000000500
                            (Some "Payment completed via upi"%string) (Some 10%N)]
           None.

(** The gateway reports a failed payment of the awaited order. *)
Definition declined : Payments.WebhookReq :=
  Payments.mkWebhookReq (Some "hook:{}"%string) "{}"
    (Payments.payment_failed (Payments.mkPaymentEntity "pay_1" "order_1" "card" "declined"))
    1700000000500.

(** The admin refunds the paid order in full. *)
Definition reimburse : Payments.RefundReq :=
  Payments.mkRefundReq Example.root 0%N None (Some "damaged"%string) 1700000004000.

(** The depot where the courier picks parcels up. *)
Definition depot : Delivery.Address :=
  Delivery.mkAddress (Some "Warehouse 4"%string) (Some "Pune"%string) (Some "MH"%string)
                     (Some "411045"%string).

(** The admin hands the placed order to the courier. *)
Definition allot : Deliveries.AssignReq :=
  Deliveries.mkAssignReq Example.root 0%N (Some 20%N) (Some 1700000090000)
                         (Some (Deliveries.pickup_object depot)) 1700000001500.

(** A delivery whose order is not stored. *)
Definition orphaned : DB := set_deliveries {[ 5%N := Example.parcel ]} Example.shop.

(** The first review of the bike, and the database after it. *)
Definition praise : Reviews.CreateReq :=
  Reviews.mkCreateReq Example.alice None (Some 1%N) None (Some (inject_Z 4)) None
                      (Some "Solid frame."%string).

Definition first_review : Review.t :=
  Review.mk Review.product_review (Some 1%N) None None 10%N (inject_Z 4) None
            "Solid frame." false true.

Definition reviewed : DB := (Reviews.create praise Example.shop).2.

(** The seeded shop with three more approved reviews of the bike and one
    that is not approved. *)
Definition opinion (uid : ObjectId) (k : Z) (approved : bool) : Review.t :=
  Review.mk Review.product_review (Some 1%N) None None uid (inject_Z k) None "Rides well."
            false approved.

Definition rated : DB :=
  mkDB {[ 1%N := Example.seeded_bike ]} ∅ ∅ ∅ ∅
       {[ 7%N := Example.seeded_review; 8%N := opinion 11%N 5 true;
          9%N := opinion 12%N 4 true; 11%N := opinion 13%N 5 true;
          12%N := opinion 14%N 1 false ]} ∅.

(** Requests on the seeded review: its author deletes it, the admin hides it. *)
Definition retract : Reviews.DeleteReq := Reviews.mkDeleteReq Example.alice 7%N.

Definition hide : Reviews.ModerateReq := Reviews.mkModerateReq Example.root 7%N (Some false).

(** The placed order once the courier has delivered it. *)
Definition handed : Order.t :=
  Order.set_status Order.delivered
    (Order.set_delivery (Order.mkDeliveryInfo (Some 20%N) None (Some 1700000003000) None)
                        Example.placed).

Definition arrived : DB :=
  mkDB {[ 1%N := Example.bike ]} ∅ ∅ {[ 0%N := handed ]} ∅ ∅
       {[ 20%N := User.mk delivery_partner 0%Q 0 ]}.

Definition thanks : Reviews.CreateReq :=
  Reviews.mkCreateReq Example.alice (Some "delivery"%string) None (Some 0%N)
                      (Some (inject_Z 5)) None (Some "On time."%string).

Definition thanks_review : Review.t :=
  Review.mk Review.delivery_review None (Some 20%N) (Some 0%N) 10%N (inject_Z 5) None
            "On time." true true.

Definition thanked : DB := (Reviews.create thanks arrived).2.

(** The stock manager books four more bikes, and sets a stock below zero. *)
Definition restock : Inventories.AddReq :=
  Inventories.mkAddReq Example.root (Some 1%N) (Some 4) None 1700000005000.

Definition blunder : Inventories.UpdateReq :=
  Inventories.mkUpdateReq Example.root 1%N (Some (-2)) None None.

End Scenario.

(** * Properties *)

(** ** Vocabulary *)

(** Units of product [pid] on the lines of an order. *)
Definition ordered_quantity (pid : ObjectId) (items : list Order.Item) : Z :=
  foldr (fun i acc =>
           if bool_decide (Order.product i = pid) then Order.quantity i + acc else acc)
        0 items.

(** The statuses from which the cancel route proceeds, and those it refuses. *)
Definition cancellable_statuses : list Order.Status :=
  [Order.created; Order.paid; Order.packed].

Definition refused_statuses : list Order.Status :=
  [Order.shipped; Order.delivered; Order.completed; Order.cancelled].

(** Two databases that differ at most in the [orders] and [products]
    collections. *)
Definition same_outside_orders_products (db db' : DB) : Prop :=
  inventories db' = inventories db /\ carts db' = carts db
  /\ deliveries db' = deliveries db /\ reviews db' = reviews db /\ users db' = users db.

(** *** Order numbers *)

Definition is_digit (c : ascii) : bool :=
  (48 <=? nat_of_ascii c)%nat && (nat_of_ascii c <=? 57)%nat.

Fixpoint all_digits (s : string) : bool :=
  match s with
  | EmptyString => true
  | String c s' => is_digit c && all_digits s'
  end.

(** The text before the first dash, and the text after it. *)
Fixpoint split_dash (s : string) : option (string * string) :=
  match s with
  | EmptyString => None
  | String c s' =>
      if Ascii.eqb c "-" then Some (EmptyString, s')
      else match split_dash s' with
           | Some (a, b) => Some (String c a, b)
           | None => None
           end
  end.

Fixpoint strip_prefix (p s : string) : option string :=
  match p, s with
  | EmptyString, _ => Some s
  | String a p', String b s' => if Ascii.eqb a b then strip_prefix p' s' else None
  | String _ _, EmptyString => None
  end.

(** [SON-<digits>-<digits>], with a condition on the number of digits of the
    sequence. *)
Definition order_number_format (width_ok : nat -> bool) (s : string) : bool :=
  match strip_prefix "SON-" s with
  | Some rest =>
      match split_dash rest with
      | Some (millis, seq) =>
          negb (String.eqb millis "") && all_digits millis
          && all_digits seq && width_ok (String.length seq)
      | None => false
      end
  | None => false
  end.

(** The format with a sequence of exactly four digits. *)
Definition four_digit_format : string -> bool := order_number_format (Nat.eqb 4).

(** The format with a sequence of four digits or more. *)
Definition padded_format : string -> bool := order_number_format (Nat.leb 4).

Definition unique_numbers (os : gmap N Order.t) : Prop :=
  forall i j oi oj n,
    os !! i = Some oi -> os !! j = Some oj ->
    Order.orderNumber oi = Some n -> Order.orderNumber oj = Some n -> i = j.

(** Every stored order carries a well-formed order number that no other
    stored order carries. *)
Definition numbers_ok (os : gmap N Order.t) : Prop :=
  unique_numbers os
  /\ forall i o, os !! i = Some o ->
       exists n, Order.orderNumber o = Some n /\ padded_format n = true.

(** One [save] of an order document that a route either loaded from the
    collection, keeping its order number, or built without one. *)
Definition order_written (now : Z) (os os' : gmap N Order.t) : Prop :=
  exists id o o',
    save_order now id o os = saved o' os'
    /\ match os !! id with
       | Some old => Order.orderNumber o = Order.orderNumber old
       | None => Order.orderNumber o = None /\ 0 <= now
       end.

(** One request served by one of the routes; the clock of a checkout is a
    time after the epoch. *)
Inductive step (gw : Payments.Gateway) (db : DB) : DB -> Prop :=
| step_checkout req :
    0 <= Orders.c_now req -> step gw db (Orders.create req db).2
| step_status req : step gw db (Orders.updateStatus req db).2
| step_cancel req : step gw db (Orders.cancel req db).2
| step_verify req : step gw db (Payments.verify gw req db).2
| step_webhook req : step gw db (Payments.webhook gw req db).2
| step_delivery_status req : step gw db (Deliveries.updateStatus req db).2
| step_confirm req : step gw db (Deliveries.confirm req db).2
| step_review_create req : step gw db (Reviews.create req db).2
| step_review_update req : step gw db (Reviews.update req db).2
| step_review_delete req : step gw db (Reviews.delete req db).2
| step_review_moderate req : step gw db (Reviews.moderate req db).2
| step_add_stock req : step gw db (Inventories.addStock req db).2
| step_inventory_update req : step gw db (Inventories.update req db).2
| step_remove_stock req : step gw db (Inventories.removeStock req db).2
| step_assign_delivery req : step gw db (Orders.assignDelivery req db).2
| step_create_payment req : step gw db (Payments.createOrder gw req db).2
| step_refund req : step gw db (Payments.refund gw req db).2
| step_delivery_assign req : step gw db (Deliveries.assign req db).2.

(** A request either leaves the [orders] collection as it was or saves one
    order document. *)
Definition orders_touched (db db' : DB) : Prop :=
  orders db' = orders db \/ exists now, order_written now (orders db) (orders db').

(** ** Vocabulary of the further properties *)

(** Units of product [pid] on the lines of a cart. *)
Definition cart_quantity (pid : ObjectId) (items : list Cart.Item) : Z :=
  foldr (fun i acc =>
           if bool_decide (Cart.product i = pid) then Cart.quantity i + acc else acc)
        0 items.

(** The four parts of a shipping address are there. *)
Definition address_complete (a : Order.Address) : bool :=
  negb (String.eqb (Order.street a) "")
  && negb (String.eqb (Order.city a) "")
  && negb (String.eqb (Order.state a) "")
  && negb (String.eqb (Order.pincode a) "").

(** The sum over the lines of an order of quantity times price. *)
Definition lines_total (items : list Order.Item) : Z :=
  foldr (fun i acc => Order.quantity i * Order.price i + acc) 0 items.

(** Every product of the collection has [0 <= reservedStock <= stock]. *)
Definition all_stock_ok (ps : gmap N Product.t) : Prop :=
  forall pid p, ps !! pid = Some p -> Product.stock_ok p.

(** The units that the order's lines hold of each product are still counted
    in that product's [reservedStock]. *)
Definition reservation_held (ps : gmap N Product.t) (o : Order.t) : Prop :=
  forall pid p, ps !! pid = Some p ->
    ordered_quantity pid (Order.items o) <= Product.reservedStock p.

(** The order [id] is the only stored order that carries the gateway order
    id [gid]. *)
Definition only_order_of (gid : string) (id : ObjectId) (os : gmap N Order.t) : Prop :=
  forall j b, os !! j = Some b ->
    Order.razorpayOrderId (Order.payment b) = Some gid -> j = id.

(** No two stored deliveries refer to the same order. *)
Definition one_delivery_per_order (ds : gmap N Delivery.t) : Prop :=
  forall i j di dj,
    ds !! i = Some di -> ds !! j = Some dj ->
    Delivery.order di = Delivery.order dj -> i = j.

(** The request is for a product review: the type is left out or is
    ["product"]. *)
Definition asks_product_review (req : Reviews.CreateReq) : Prop :=
  Reviews.r_type req = None \/ Reviews.r_type req = Some "product"%string.

(** The filter of the duplicate check of a product review. *)
Definition reviewed_by (pid uid : ObjectId) (r : Review.t) : bool :=
  bool_decide (Review.product r = Some pid)
  && bool_decide (Review.user r = uid)
  && bool_decide (Review.type r = Review.product_review).

(** An entry of the stock ledger whose new stock is the previous stock plus
    the signed quantity. *)
Definition entry_balanced (h : Inventory.StockHistory) : Prop :=
  Inventory.newStock h = Inventory.previousStock h + Inventory.quantity h.

(** Every entry of every inventory record is balanced. *)
Definition ledgers_balanced (ivs : gmap N Inventory.t) : Prop :=
  forall k i, ivs !! k = Some i -> Forall entry_balanced (Inventory.stockHistory i).

(** Every stored order passed validation and carries an order number. *)
Definition all_stored_ok (os : gmap N Order.t) : Prop :=
  forall id o, os !! id = Some o -> stored_ok o.

(** The later state of an order document: the snapshot taken at checkout is
    as it was and the status history has only grown. *)
Definition evolves (o o' : Order.t) : Prop :=
  Order.user o' = Order.user o
  /\ Order.items o' = Order.items o
  /\ Order.totalAmount o' = Order.totalAmount o
  /\ Order.shippingAddress o' = Order.shippingAddress o
  /\ Order.statusHistory o `prefix_of` Order.statusHistory o'.

(** A request either leaves the [orders] collection as it was or saves one
    document that evolves from the stored one of the same id. *)
Definition orders_kept (db db' : DB) : Prop :=
  orders db' = orders db
  \/ exists now id o o',
       save_order now id o (orders db) = saved o' (orders db')
       /\ forall old, orders db !! id = Some old -> evolves old o.

(** The number that a string of decimal digits spells, leading zeros
    allowed. *)
Definition read_number (s : string) : option Z :=
  Z.of_uint <$> NilEmpty.uint_of_string s.

(** The clock and the sequence that an order number spells. *)
Definition read_orderNumber (s : string) : option (Z * Z) :=
  match strip_prefix "SON-" s with
  | Some rest =>
      match split_dash rest with
      | Some (millis, seq) =>
          match read_number millis, read_number seq with
          | Some m, Some n => Some (m, n)
          | _, _ => None
          end
      | None => None
      end
  | None => None
  end.

(** The approved product reviews of [pid] among the stored reviews. *)
Definition approved_product_reviews (pid : ObjectId) (rs : gmap N Review.t) : list Review.t :=
  filter (fun r => Review.product r = Some pid
                   /\ Review.isApproved r = true
                   /\ Review.type r = Review.product_review)
         (map_to_list rs).*2.

(** The reviews [rs] carry the whole ratings [ks], each from 1 to 5. *)
Definition whole_ratings (rs : list Review.t) (ks : list Z) : Prop :=
  Forall2 (fun r k => (Review.rating r == inject_Z k)%Q /\ 1 <= k <= 5) rs ks.

(** Ten times the mean of [ks], rounded to the nearest integer with a half
    rounded up; 0 when there is no rating. *)
Definition mean_in_tenths (ks : list Z) : Z :=
  match ks with
  | [] => 0
  | _ => (20 * foldr Z.add 0 ks + Z.of_nat (length ks)) / (2 * Z.of_nat (length ks))
  end.

(** ** Saving a stored order *)

Lemma pre_save_numbered now count o :
  truthy (Order.orderNumber o) = true -> Order.pre_save now count o = o.
Proof. intros H. unfold Order.pre_save. now rewrite H. Qed.

Lemma save_order_stored now id o (os : gmap N Order.t) :
  stored_ok o -> is_Some (os !! id) ->
  save_order now id o os = saved o (<[id := o]> os).
Proof.
  intros [Hv Hn] [old Hold]. unfold save_order.
  rewrite Hv, (pre_save_numbered _ _ _ Hn), Hn. simpl.
  rewrite bool_decide_eq_false_2 by (rewrite Hold; discriminate).
  destruct (Order.orderNumber o); reflexivity.
Qed.

(** The setters that the routes apply to a loaded order keep it storable. *)
Lemma stored_ok_set_status s o : stored_ok o -> stored_ok (Order.set_status s o).
Proof. intros H; exact H. Qed.

Lemma stored_ok_push_history h o : stored_ok o -> stored_ok (Order.push_history h o).
Proof. intros H; exact H. Qed.

Lemma stored_ok_set_cancellationReason r o :
  stored_ok o -> stored_ok (Order.set_cancellationReason r o).
Proof. intros H; exact H. Qed.

Lemma stored_ok_set_payment p o : stored_ok o -> stored_ok (Order.set_payment p o).
Proof. intros H; exact H. Qed.

Lemma stored_ok_set_delivery d o : stored_ok o -> stored_ok (Order.set_delivery d o).
Proof. intros H; exact H. Qed.

Create HintDb stored.

#[local] Hint Resolve stored_ok_set_status stored_ok_push_history
  stored_ok_set_cancellationReason stored_ok_set_payment stored_ok_set_delivery : stored.

(** ** The stock loops *)

Lemma inc_reservedStock_twice a b p :
  Product.inc_reservedStock a (Product.inc_reservedStock b p)
  = Product.inc_reservedStock (b + a) p.
Proof. unfold Product.inc_reservedStock; simpl. f_equal. lia. Qed.

Lemma inc_reservedStock_zero p : Product.inc_reservedStock 0 p = p.
Proof. destruct p. unfold Product.inc_reservedStock; simpl. f_equal. lia. Qed.

Lemma inc_both_twice a b p :
  Product.inc_both (- a) (- a) (Product.inc_both (- b) (- b) p)
  = Product.inc_both (- (b + a)) (- (b + a)) p.
Proof. unfold Product.inc_both; simpl. f_equal; lia. Qed.

Lemma inc_both_zero p : Product.inc_both (- 0) (- 0) p = p.
Proof. destruct p. unfold Product.inc_both; simpl. f_equal; lia. Qed.

(** The release loop takes from each product the units that the order's lines
    hold of it, and creates no product. *)
Lemma release_stock_lookup items (ps : gmap N Product.t) pid :
  Orders.release_stock items ps !! pid
  = Product.inc_reservedStock (- ordered_quantity pid items) <$> ps !! pid.
Proof.
  revert ps. induction items as [|i items IH]; intros ps.
  - simpl. destruct (ps !! pid) as [p|]; simpl; [|reflexivity].
    now rewrite inc_reservedStock_zero.
  - unfold Orders.release_stock in *. simpl. rewrite IH.
    destruct (decide (Order.product i = pid)) as [<-|Hne].
    + rewrite lookup_alter_eq, bool_decide_eq_true_2 by reflexivity.
      destruct (ps !! Order.product i) as [p|]; simpl; [|reflexivity].
      rewrite inc_reservedStock_twice. do 2 f_equal. lia.
    + rewrite lookup_alter_ne, bool_decide_eq_false_2 by assumption. reflexivity.
Qed.

(** The commit loop takes the same units from both counters. *)
Lemma commit_stock_lookup items (ps : gmap N Product.t) pid :
  Payments.commit_stock items ps !! pid
  = Product.inc_both (- ordered_quantity pid items) (- ordered_quantity pid items)
      <$> ps !! pid.
Proof.
  revert ps. induction items as [|i items IH]; intros ps.
  - simpl. destruct (ps !! pid) as [p|]; simpl; [|reflexivity].
    now rewrite inc_both_zero.
  - unfold Payments.commit_stock in *. simpl. rewrite IH.
    destruct (decide (Order.product i = pid)) as [<-|Hne].
    + rewrite lookup_alter_eq, bool_decide_eq_true_2 by reflexivity.
      destruct (ps !! Order.product i) as [p|]; simpl; [|reflexivity].
      rewrite inc_both_twice. do 2 f_equal; lia.
    + rewrite lookup_alter_ne, bool_decide_eq_false_2 by assumption. reflexivity.
Qed.

(** ** Cancelling an order *)

Lemma refused_nonCancellable s :
  s ∈ refused_statuses <-> Orders.nonCancellable s = true.
Proof.
  unfold refused_statuses. split.
  - intros H. repeat (apply elem_of_cons in H as [->|H]; [reflexivity|]).
    now apply elem_of_nil in H.
  - destruct s; simpl; intros H; try discriminate; set_solver.
Qed.

Lemma cancellable_not_nonCancellable s :
  s ∈ cancellable_statuses <-> Orders.nonCancellable s = false.
Proof.
  unfold cancellable_statuses. split.
  - intros H. repeat (apply elem_of_cons in H as [->|H]; [reflexivity|]).
    now apply elem_of_nil in H.
  - destruct s; simpl; intros H; try discriminate; set_solver.
Qed.

Lemma cancel_access_granted (u : AuthUser) (o : Order.t) :
  role u = admin \/ Order.user o = user_id u ->
  negb (bool_decide (role u = admin)) && negb (bool_decide (Order.user o = user_id u)) = false.
Proof.
  intros [H|H]; rewrite (bool_decide_eq_true_2 _ H); simpl; [reflexivity|].
  apply andb_false_r.
Qed.

(** C4: for a stored order that the caller may cancel, the cancel route
    refuses with 400 and leaves the database as it is when the status is
    shipped, delivered, completed or cancelled; when the status is created,
    paid or packed it answers 200, takes from every product's [reservedStock]
    the quantity that the order's lines hold of it, sets the status to
    cancelled, records the reason and appends one status-history entry; and
    it answers 200 only in the second case. *)
Theorem cancel_only_before_shipping (req : Orders.CancelReq) (db : DB) (order : Order.t) :
  orders db !! Orders.x_id req = Some order ->
  role (Orders.x_user req) = admin \/ Order.user order = user_id (Orders.x_user req) ->
  stored_ok order ->
  (Order.status order ∈ refused_statuses ->
   Orders.cancel req db
   = (Failure 400 (Orders.cannot_cancel_message (Order.status order)), db))
  /\ (Order.status order ∈ cancellable_statuses ->
      exists o' db',
        Orders.cancel req db = (Success 200 o', db')
        /\ orders db' = <[Orders.x_id req := o']> (orders db)
        /\ same_outside_orders_products db db'
        /\ Order.status o' = Order.cancelled
        /\ Order.cancellationReason o' = Orders.x_reason req
        /\ Order.statusHistory o'
           = Order.statusHistory order
             ++ [Order.mkHistory "cancelled" (Orders.x_now req)
                   (Some (or_else (Orders.x_reason req) "Order cancelled"))
                   (Some (user_id (Orders.x_user req)))]
        /\ Order.items o' = Order.items order
        /\ Order.orderNumber o' = Order.orderNumber order
        /\ Order.payment o' = Order.payment order
        /\ (forall pid p, products db !! pid = Some p ->
            exists p', products db' !! pid = Some p'
              /\ Product.reservedStock p'
                 = Product.reservedStock p - ordered_quantity pid (Order.items order)
              /\ Product.stock p' = Product.stock p)
        /\ (forall pid, products db !! pid = None -> products db' !! pid = None))
  /\ (code_of (Orders.cancel req db).1 = 200 ->
      Order.status order ∈ cancellable_statuses).
Proof.
  intros Hfound Hauth Hstored.
  assert (Hrefuse : Order.status order ∈ refused_statuses ->
            Orders.cancel req db
            = (Failure 400 (Orders.cannot_cancel_message (Order.status order)), db)).
  { intros Hin. apply refused_nonCancellable in Hin.
    unfold Orders.cancel. rewrite Hfound, (cancel_access_granted _ _ Hauth), Hin.
    reflexivity. }
  split; [exact Hrefuse|]. split.
  - intros Hin. apply cancellable_not_nonCancellable in Hin.
    unfold Orders.cancel. rewrite Hfound, (cancel_access_granted _ _ Hauth), Hin.
    simpl orders. rewrite save_order_stored; [|auto with stored|eauto].
    eexists _, _. split; [reflexivity|].
    cbn [products orders set_products set_orders].
    repeat split; try reflexivity.
    + intros pid p Hp. rewrite release_stock_lookup, Hp. simpl.
      eexists; split; [reflexivity|]. simpl. split; [lia|reflexivity].
    + intros pid Hp. rewrite release_stock_lookup, Hp. reflexivity.
  - intros Hcode. destruct (Orders.nonCancellable (Order.status order)) eqn:Hnc.
    + apply refused_nonCancellable in Hnc. rewrite (Hrefuse Hnc) in Hcode.
      simpl in Hcode. discriminate.
    + now apply cancellable_not_nonCancellable.
Qed.

(** ** The admin status update *)

(** C9: the admin status update never touches a collection other than
    [orders]: every product keeps its [stock] and [reservedStock], whatever
    the target status, [cancelled] included.  On a stored order, with an admin
    caller and a status of the enumeration, it answers 200 and changes the
    order's [status] and [statusHistory] only. *)
Theorem admin_status_update_frame (req : Orders.StatusReq) (db : DB) :
  products (Orders.updateStatus req db).2 = products db
  /\ same_outside_orders_products db (Orders.updateStatus req db).2
  /\ (forall order status,
        adminOnly (Orders.s_user req) = true ->
        orders db !! Orders.s_id req = Some order ->
        stored_ok order ->
        Order.parse_status (Orders.s_status req) = Some status ->
        exists o',
          Orders.updateStatus req db
          = (Success 200 o', set_orders (<[Orders.s_id req := o']> (orders db)) db)
          /\ Order.status o' = status
          /\ Order.statusHistory o'
             = Order.statusHistory order
               ++ [Order.mkHistory (Orders.s_status req) (Orders.s_now req)
                     (Orders.s_note req) (Some (user_id (Orders.s_user req)))]
          /\ Order.user o' = Order.user order
          /\ Order.orderNumber o' = Order.orderNumber order
          /\ Order.items o' = Order.items order
          /\ Order.shippingAddress o' = Order.shippingAddress order
          /\ Order.payment o' = Order.payment order
          /\ Order.delivery o' = Order.delivery order
          /\ Order.totalAmount o' = Order.totalAmount order
          /\ Order.cancellationReason o' = Order.cancellationReason order).
Proof.
  split; [|split].
  - unfold Orders.updateStatus.
    repeat (match goal with |- context [match ?x with _ => _ end] => destruct x end;
            try reflexivity).
  - unfold Orders.updateStatus, same_outside_orders_products.
    repeat (match goal with |- context [match ?x with _ => _ end] => destruct x end;
            try (repeat split; reflexivity)).
  - intros order status Hadmin Hfound Hstored Hparse.
    unfold Orders.updateStatus. rewrite Hadmin, Hparse, Hfound. simpl negb. cbv iota.
    rewrite save_order_stored; [|auto with stored|eauto].
    eexists. split; [reflexivity|]. repeat split; reflexivity.
Qed.

(** ** Payments *)

Lemma findOne_Some {A} (f : A -> bool) (m : gmap N A) k a :
  findOne f m = Some (k, a) -> m !! k = Some a /\ f a = true.
Proof.
  unfold findOne. intros H. apply find_some in H as [Hin Hf].
  apply list_elem_of_In, elem_of_map_to_list in Hin. auto.
Qed.



(** ** Deliveries *)

Lemma stored_ok_project s o : stored_ok o -> stored_ok (Deliveries.project s o).
Proof. intros H. destruct s; exact H. Qed.

#[local] Hint Resolve stored_ok_project : stored.

Lemma order_stamp_if_delivered s now d :
  Delivery.order (Deliveries.stamp_if_delivered s now d) = Delivery.order d.
Proof. destruct s; reflexivity. Qed.

(** C5: for a delivery whose parent order is stored, a status update by a
    caller with access sets the delivery status, appends one history entry to
    the delivery and one to the order, and projects the status onto the order:
    picked gives packed, in_transit and out_for_delivery give shipped,
    delivered gives delivered and stamps the delivery's [actualDeliveryDate];
    assigned and failed leave the order status as it was. *)
Theorem delivery_status_projects_onto_order (req : Deliveries.StatusReq) (db : DB)
    (delivery : Delivery.t) (order : Order.t) (status : Delivery.Status) :
  deliveryAccess (Deliveries.d_user req) = true ->
  Deliveries.foreign_partner (Deliveries.d_user req) delivery = false ->
  deliveries db !! Deliveries.d_id req = Some delivery ->
  orders db !! Delivery.order delivery = Some order ->
  stored_ok order ->
  Delivery.parse_status (Deliveries.d_status req) = Some status ->
  exists d' o',
    Deliveries.updateStatus req db
    = (Success 200 d',
       set_deliveries (<[Deliveries.d_id req := d']> (deliveries db))
                      (set_orders (<[Delivery.order delivery := o']> (orders db)) db))
    /\ Delivery.status d' = status
    /\ Delivery.statusHistory d'
       = Delivery.statusHistory delivery
         ++ [Delivery.mkHistory (Deliveries.d_status req) (Deliveries.d_location req)
               (Deliveries.d_note req) (Deliveries.d_now req)]
    /\ Order.statusHistory o'
       = Order.statusHistory order
         ++ [Order.mkHistory (Order.status_name (Order.status o')) (Deliveries.d_now req)
               (Some ("Delivery status: " ++ Deliveries.d_status req)%string)
               (Some (user_id (Deliveries.d_user req)))]
    /\ (status = Delivery.picked -> Order.status o' = Order.packed)
    /\ (status = Delivery.in_transit \/ status = Delivery.out_for_delivery ->
        Order.status o' = Order.shipped)
    /\ (status = Delivery.delivered ->
        Order.status o' = Order.delivered
        /\ Delivery.actualDeliveryDate d' = Some (Deliveries.d_now req))
    /\ (status = Delivery.assigned \/ status = Delivery.failed ->
        Order.status o' = Order.status order)
    /\ (status <> Delivery.delivered ->
        Delivery.actualDeliveryDate d' = Delivery.actualDeliveryDate delivery)
    /\ Delivery.order d' = Delivery.order delivery
    /\ Delivery.partner d' = Delivery.partner delivery
    /\ Delivery.estimatedDate d' = Delivery.estimatedDate delivery
    /\ Delivery.pickupAddress d' = Delivery.pickupAddress delivery
    /\ Delivery.deliveryAddress d' = Delivery.deliveryAddress delivery
    /\ Delivery.notes d' = Delivery.notes delivery
    /\ Delivery.customerSignature d' = Delivery.customerSignature delivery
    /\ Delivery.proofOfDelivery d' = Delivery.proofOfDelivery delivery
    /\ Delivery.failureReason d' = Delivery.failureReason delivery
    /\ Delivery.attempts d' = Delivery.attempts delivery.
Proof.
  intros Haccess Hown Hdel Hord Hstored Hparse.
  unfold Deliveries.updateStatus.
  rewrite Haccess, Hparse, Hdel, Hown. simpl negb. cbv iota.
  rewrite order_stamp_if_delivered.
  cbn [Delivery.order Delivery.push_history Delivery.set_status].
  rewrite Hord.
  rewrite save_order_stored; [|auto with stored|eauto].
  eexists _, _. split; [reflexivity|].
  split; [destruct status; reflexivity|].
  split; [destruct status; reflexivity|].
  split; [destruct status; reflexivity|].
  destruct status; cbn; intuition congruence.
Qed.

(** C6: confirming a delivery, for a caller with access, forces the delivery
    to delivered, stamps [actualDeliveryDate], stores the signature and the
    proof image and appends one history entry; when the parent order is
    stored, the order goes straight to completed, its [delivery.actualDate]
    is stamped and one history entry is appended; without a parent order only
    the delivery is written. *)
Theorem confirm_completes_order (req : Deliveries.ConfirmReq) (db : DB)
    (delivery : Delivery.t) :
  deliveryAccess (Deliveries.f_user req) = true ->
  Deliveries.foreign_partner (Deliveries.f_user req) delivery = false ->
  deliveries db !! Deliveries.f_id req = Some delivery ->
  exists d',
    Delivery.status d' = Delivery.delivered
    /\ Delivery.actualDeliveryDate d' = Some (Deliveries.f_now req)
    /\ Delivery.customerSignature d' = Deliveries.f_signature req
    /\ Delivery.proofOfDelivery d' = Deliveries.f_proofImage req
    /\ Delivery.statusHistory d'
       = Delivery.statusHistory delivery
         ++ [Delivery.mkHistory "delivered" None
               (Some (or_else (Deliveries.f_note req) "Delivery confirmed"))
               (Deliveries.f_now req)]
    /\ Delivery.order d' = Delivery.order delivery
    /\ Delivery.partner d' = Delivery.partner delivery
    /\ Delivery.estimatedDate d' = Delivery.estimatedDate delivery
    /\ Delivery.pickupAddress d' = Delivery.pickupAddress delivery
    /\ Delivery.deliveryAddress d' = Delivery.deliveryAddress delivery
    /\ Delivery.notes d' = Delivery.notes delivery
    /\ Delivery.failureReason d' = Delivery.failureReason delivery
    /\ Delivery.attempts d' = Delivery.attempts delivery
    /\ (forall order,
          orders db !! Delivery.order delivery = Some order ->
          stored_ok order ->
          exists o',
            Deliveries.confirm req db
            = (Success 200 d',
               set_orders (<[Delivery.order delivery := o']> (orders db))
                 (set_deliveries (<[Deliveries.f_id req := d']> (deliveries db)) db))
            /\ Order.status o' = Order.completed
            /\ Order.actualDate (Order.delivery o') = Some (Deliveries.f_now req)
            /\ Order.partner (Order.delivery o') = Order.partner (Order.delivery order)
            /\ Order.estimatedDate (Order.delivery o')
               = Order.estimatedDate (Order.delivery order)
            /\ Order.statusHistory o'
               = Order.statusHistory order
                 ++ [Order.mkHistory "completed" (Deliveries.f_now req)
                       (Some "Order delivered and confirmed"%string)
                       (Some (user_id (Deliveries.f_user req)))]
            /\ Order.items o' = Order.items order
            /\ Order.payment o' = Order.payment order)
    /\ (orders db !! Delivery.order delivery = None ->
        Deliveries.confirm req db
        = (Success 200 d',
           set_deliveries (<[Deliveries.f_id req := d']> (deliveries db)) db)).
Proof.
  intros Haccess Hown Hdel.
  eexists. repeat match goal with |- _ /\ _ => split end.
  14: { intros order Hord Hstored.
       unfold Deliveries.confirm. rewrite Haccess, Hdel, Hown. simpl negb. cbv iota.
       cbn [orders set_deliveries]. cbn [Delivery.order Delivery.push_history
         Delivery.set_proofOfDelivery Delivery.set_customerSignature
         Delivery.set_actualDeliveryDate Delivery.set_status].
       rewrite Hord. rewrite save_order_stored; [|auto with stored|eauto].
       eexists. split; [reflexivity|]. repeat split; reflexivity. }
  14: { intros Hnone.
       unfold Deliveries.confirm. rewrite Haccess, Hdel, Hown. simpl negb. cbv iota.
       cbn [orders set_deliveries]. cbn [Delivery.order Delivery.push_history
         Delivery.set_proofOfDelivery Delivery.set_customerSignature
         Delivery.set_actualDeliveryDate Delivery.set_status].
       rewrite Hnone. reflexivity. }
  all: reflexivity.
Qed.

(** ** Checkout *)

Lemma validate_stock_finds_failing_line (ps : gmap N Product.t) items :
  (forall item, item ∈ items -> is_Some (ps !! Cart.product item)) ->
  (exists item p, item ∈ items /\ ps !! Cart.product item = Some p
                  /\ Product.availableStock p < Cart.quantity item) ->
  exists item p, item ∈ items /\ ps !! Cart.product item = Some p
                 /\ Product.availableStock p < Cart.quantity item
                 /\ Orders.validate_stock ps items
                    = Orders.stock_insufficient (Product.name p) (Product.availableStock p).
Proof.
  induction items as [|i items IH]; intros Hpop (item & p & Hin & Hp & Hlt).
  - now apply elem_of_nil in Hin.
  - destruct (Hpop i) as [pi Hpi]; [left|]. simpl. rewrite Hpi.
    destruct (Z.ltb_spec (Product.stock pi - Product.reservedStock pi) (Cart.quantity i))
      as [Hfail|Hpass].
    + exists i, pi. repeat split; auto. left.
    + destruct IH as (item' & p' & Hin' & Hp' & Hlt' & Hv).
      * intros j Hj. apply Hpop. now right.
      * apply elem_of_cons in Hin as [->|Hin].
        -- rewrite Hpi in Hp. injection Hp as <-. unfold Product.availableStock in Hlt. lia.
        -- eauto.
      * exists item', p'. repeat split; auto. now right.
Qed.

Lemma validate_stock_valid_all_lines (ps : gmap N Product.t) items :
  Orders.validate_stock ps items = Orders.stock_valid ->
  forall item, item ∈ items ->
    exists p, ps !! Cart.product item = Some p
              /\ Cart.quantity item <= Product.availableStock p.
Proof.
  induction items as [|i items IH]; intros Hv item Hin.
  - now apply elem_of_nil in Hin.
  - simpl in Hv. destruct (ps !! Cart.product i) as [pi|] eqn:Hpi; [|discriminate].
    destruct (Z.ltb_spec (Product.stock pi - Product.reservedStock pi) (Cart.quantity i))
      as [Hfail|Hpass]; [discriminate|].
    apply elem_of_cons in Hin as [->|Hin]; [|now apply IH].
    exists pi. split; [assumption|]. unfold Product.availableStock. lia.
Qed.

(** C2: checkout runs the stock check over every cart line before it
    reserves anything.  With a shipping address and a cart whose lines refer
    to stored products, a line that asks for more than its product's
    available stock makes the request fail with 400 and the insufficient-stock
    message of such a line, and the database, every [reservedStock] with it,
    is left as it was; the products collection changes, and the request
    succeeds, only when every line passed the check. *)
Theorem checkout_checks_every_line_first (req : Orders.CreateReq) (db : DB)
    (address : Order.Address) (cart : Cart.t) :
  Orders.c_shippingAddress req = Some address ->
  carts db !! user_id (Orders.c_user req) = Some cart ->
  (forall item, item ∈ Cart.items cart -> is_Some (products db !! Cart.product item)) ->
  ((exists item p, item ∈ Cart.items cart /\ products db !! Cart.product item = Some p
                   /\ Product.availableStock p < Cart.quantity item) ->
   exists item p, item ∈ Cart.items cart /\ products db !! Cart.product item = Some p
                  /\ Product.availableStock p < Cart.quantity item
                  /\ Orders.create req db
                     = (Failure 400 (Orders.insufficient_message (Product.name p)
                                       (Product.availableStock p)), db))
  /\ (products (Orders.create req db).2 <> products db ->
      forall item, item ∈ Cart.items cart ->
        exists p, products db !! Cart.product item = Some p
                  /\ Cart.quantity item <= Product.availableStock p)
  /\ (code_of (Orders.create req db).1 = 201 ->
      forall item, item ∈ Cart.items cart ->
        exists p, products db !! Cart.product item = Some p
                  /\ Cart.quantity item <= Product.availableStock p).
Proof.
  intros Haddr Hcart Hpop. split; [|split].
  - intros Hfail.
    destruct (validate_stock_finds_failing_line _ _ Hpop Hfail)
      as (item & p & Hin & Hp & Hlt & Hv).
    exists item, p. repeat split; auto.
    unfold Orders.create. rewrite Haddr, Hcart.
    destruct (Cart.items cart) as [|i items] eqn:Hitems; [now apply elem_of_nil in Hin|].
    simpl Nat.eqb. cbv iota. now rewrite Hv.
  - unfold Orders.create. rewrite Haddr, Hcart.
    destruct (Nat.eqb _ 0); [simpl; congruence|].
    destruct (Orders.validate_stock _ _) eqn:Hv; try (simpl; congruence).
    intros _. now apply validate_stock_valid_all_lines.
  - unfold Orders.create. rewrite Haddr, Hcart.
    destruct (Nat.eqb _ 0); [simpl; discriminate|].
    destruct (Orders.validate_stock _ _) eqn:Hv; try (simpl; discriminate).
    intros _. now apply validate_stock_valid_all_lines.
Qed.

(** ** Order numbers *)

Lemma all_digits_app a b : all_digits (a ++ b) = all_digits a && all_digits b.
Proof. induction a as [|c a IH]; simpl; [reflexivity|]. now rewrite IH, andb_assoc. Qed.

Lemma string_of_uint_digits d : all_digits (NilEmpty.string_of_uint d) = true.
Proof. induction d; simpl; auto. Qed.

Lemma toString_digits z : 0 <= z -> all_digits (toString z) = true /\ toString z <> ""%string.
Proof.
  intros Hz. unfold toString. destruct z as [|p|p]; [split; [reflexivity|discriminate]| |lia].
  simpl. unfold NilZero.string_of_uint.
  destruct (Pos.to_uint p) eqn:Hp; try (split; [apply (string_of_uint_digits (_ _))|discriminate]).
  split; [reflexivity|discriminate].
Qed.

Lemma split_dash_digits a b :
  all_digits a = true -> split_dash (a ++ String "-" b) = Some (a, b).
Proof.
  induction a as [|c a IH]; simpl; [reflexivity|].
  intros [Hc Ha]%andb_prop. rewrite (IH Ha).
  destruct (Ascii.eqb_spec c "-") as [->|]; [discriminate Hc|reflexivity].
Qed.

Lemma repeat_zero k :
  all_digits (repeat_char "0" k) = true /\ String.length (repeat_char "0" k) = k.
Proof. induction k as [|k [IH1 IH2]]; simpl; [split; reflexivity|]. rewrite IH1, IH2. split; reflexivity. Qed.

Lemma string_length_app (a b : string) : String.length (a ++ b) = (String.length a + String.length b)%nat.
Proof. induction a; simpl; auto. Qed.

Lemma sequence_digits count :
  0 <= count ->
  all_digits (Order.sequence count) = true /\ (4 <= String.length (Order.sequence count))%nat.
Proof.
  intros Hc. unfold Order.sequence, padStart.
  destruct (toString_digits (count + 1)) as [Hd _]; [lia|].
  destruct (repeat_zero (4 - String.length (toString (count + 1)))) as [Hz Hl].
  rewrite all_digits_app, Hz, Hd, string_length_app, Hl. split; [reflexivity|lia].
Qed.

Lemma strip_prefix_app p s : strip_prefix p (p ++ s) = Some s.
Proof. induction p as [|a p IH]; simpl; [reflexivity|]. now rewrite Ascii.eqb_refl. Qed.

Lemma make_orderNumber_padded now count :
  0 <= now -> 0 <= count -> padded_format (Order.make_orderNumber now count) = true.
Proof.
  intros Hn Hc. unfold Order.make_orderNumber, padded_format.
  destruct (toString_digits now Hn) as [Hd Hne].
  destruct (sequence_digits count Hc) as [Hs Hl].
  unfold order_number_format. rewrite strip_prefix_app.
  change ("-" ++ Order.sequence count)%string with (String "-" (Order.sequence count)).
  rewrite (split_dash_digits _ _ Hd), Hd, Hs.
  destruct (String.eqb_spec (toString now) ""); [contradiction|].
  rewrite (proj2 (Nat.leb_le _ _) Hl). reflexivity.
Qed.

Lemma short_toString :
  forallb (fun n => (String.length (toString n) <=? 4)%nat) (seqZ 0 10000) = true.
Proof. vm_compute. reflexivity. Qed.

Lemma sequence_four_digits count :
  0 <= count < 9999 -> String.length (Order.sequence count) = 4%nat.
Proof.
  intros Hc. unfold Order.sequence, padStart.
  destruct (repeat_zero (4 - String.length (toString (count + 1)))) as [_ Hl].
  rewrite string_length_app, Hl.
  pose proof short_toString as H. rewrite forallb_forall in H.
  assert (Hin : In (count + 1) (seqZ 0 10000)).
  { apply list_elem_of_In, elem_of_seqZ. lia. }
  apply H, Nat.leb_le in Hin. lia.
Qed.

Lemma make_orderNumber_four_digits now count :
  0 <= now -> 0 <= count < 9999 ->
  four_digit_format (Order.make_orderNumber now count) = true.
Proof.
  intros Hn Hc. unfold Order.make_orderNumber, four_digit_format.
  destruct (toString_digits now Hn) as [Hd Hne].
  destruct (sequence_digits count (proj1 Hc)) as [Hs _].
  unfold order_number_format. rewrite strip_prefix_app.
  change ("-" ++ Order.sequence count)%string with (String "-" (Order.sequence count)).
  rewrite (split_dash_digits _ _ Hd), Hd, Hs, (sequence_four_digits _ Hc).
  destruct (String.eqb_spec (toString now) ""); [contradiction|]. reflexivity.
Qed.

Lemma padded_format_truthy n : padded_format n = true -> truthy (Some n) = true.
Proof. destruct n; [discriminate|reflexivity]. Qed.

Lemma orderNumber_taken_false n (os : gmap N Order.t) :
  orderNumber_taken n os = false ->
  forall j oj, os !! j = Some oj -> Order.orderNumber oj <> Some n.
Proof.
  unfold orderNumber_taken. intros Hf j oj Hj Hn.
  assert (Ht : existsb (fun kv : N * Order.t => bool_decide (Order.orderNumber kv.2 = Some n))
                 (map_to_list os) = true).
  { apply existsb_exists. exists (j, oj). split.
    - now apply list_elem_of_In, elem_of_map_to_list.
    - now apply bool_decide_eq_true_2. }
  congruence.
Qed.

(** The effect of one route-issued save on the order numbers. *)
Lemma order_written_numbers now (os os' : gmap N Order.t) :
  numbers_ok os -> order_written now os os' ->
  numbers_ok os'
  /\ (forall id o, os !! id = Some o ->
        exists o', os' !! id = Some o' /\ Order.orderNumber o' = Order.orderNumber o)
  /\ (forall id o', os !! id = None -> os' !! id = Some o' ->
        0 <= now
        /\ Order.orderNumber o' = Some (Order.make_orderNumber now (Z.of_nat (size os)))).
Proof.
  intros [Huniq Hfmt] (id & o & o' & Hsave & Hder).
  unfold save_order in Hsave.
  destruct (negb (Order.valid o)); [discriminate|].
  destruct (os !! id) as [old|] eqn:Hold.
  - destruct (Hfmt _ _ Hold) as (n & Hn & Hpad).
    assert (Ho : Order.orderNumber o = Some n) by congruence.
    rewrite pre_save_numbered in Hsave by (rewrite Ho; now apply padded_format_truthy).
    rewrite Ho in Hsave. rewrite (padded_format_truthy _ Hpad) in Hsave.
    rewrite bool_decide_eq_false_2 in Hsave by discriminate.
    simpl in Hsave. injection Hsave as <- <-.
    split; [split|split].
    + intros i j oi oj m Hi Hj Hmi Hmj.
      destruct (decide (i = id)) as [->|Hi'], (decide (j = id)) as [->|Hj']; auto.
      * rewrite lookup_insert_eq in Hi. rewrite lookup_insert_ne in Hj by auto.
        injection Hi as <-. apply (Huniq id j old oj m); congruence.
      * rewrite lookup_insert_eq in Hj. rewrite lookup_insert_ne in Hi by auto.
        injection Hj as <-. apply (Huniq i id oi old m); congruence.
      * rewrite lookup_insert_ne in Hi, Hj by auto. eauto.
    + intros i oi Hi. destruct (decide (i = id)) as [->|Hi'].
      * rewrite lookup_insert_eq in Hi. injection Hi as <-. eauto.
      * rewrite lookup_insert_ne in Hi by auto. eauto.
    + intros i oi Hi. destruct (decide (i = id)) as [->|Hi'].
      * rewrite lookup_insert_eq. eexists; split; [reflexivity|]. congruence.
      * rewrite lookup_insert_ne by auto. eauto.
    + intros i oi Hnone Hi. destruct (decide (i = id)) as [->|Hi']; [congruence|].
      rewrite lookup_insert_ne in Hi by auto. congruence.
  - destruct Hder as [Hnone Hnow].
    unfold Order.pre_save in Hsave. rewrite Hnone in Hsave. simpl in Hsave.
    rewrite delete_id in Hsave by assumption.
    destruct (orderNumber_taken _ os) eqn:Htaken; [discriminate|].
    injection Hsave as <- <-.
    pose proof (orderNumber_taken_false _ _ Htaken) as Hfresh.
    split; [split|split].
    + intros i j oi oj m Hi Hj Hmi Hmj.
      destruct (decide (i = id)) as [->|Hi'], (decide (j = id)) as [->|Hj']; auto.
      * rewrite lookup_insert_eq in Hi. rewrite lookup_insert_ne in Hj by auto.
        injection Hi as <-. simpl in Hmi. exfalso. apply (Hfresh _ _ Hj). congruence.
      * rewrite lookup_insert_eq in Hj. rewrite lookup_insert_ne in Hi by auto.
        injection Hj as <-. simpl in Hmj. exfalso. apply (Hfresh _ _ Hi). congruence.
      * rewrite lookup_insert_ne in Hi, Hj by auto. eauto.
    + intros i oi Hi. destruct (decide (i = id)) as [->|Hi'].
      * rewrite lookup_insert_eq in Hi. injection Hi as <-. simpl.
        eexists; split; [reflexivity|]. apply make_orderNumber_padded; lia.
      * rewrite lookup_insert_ne in Hi by auto. eauto.
    + intros i oi Hi. destruct (decide (i = id)) as [->|Hi']; [congruence|].
      rewrite lookup_insert_ne by auto. eauto.
    + intros i oi Hn Hi. split; [assumption|].
      destruct (decide (i = id)) as [->|Hi'].
      * rewrite lookup_insert_eq in Hi. injection Hi as <-. reflexivity.
      * rewrite lookup_insert_ne in Hi by auto. congruence.
Qed.

Ltac case_handler :=
  repeat match goal with
  | |- context [match ?x with _ => _ end] =>
      lazymatch x with
      | save_order _ _ _ _ => fail
      | _ => destruct x eqn:?
      end
  end.

Ltac untouched := solve [left; reflexivity].

Lemma fresh_order_id (os : gmap N Order.t) : os !! fresh (dom os) = None.
Proof. apply not_elem_of_dom, is_fresh. Qed.

Lemma create_touches req db :
  0 <= Orders.c_now req -> orders_touched db (Orders.create req db).2.
Proof.
  intros Hnow. unfold Orders.create. case_handler; try untouched.
  destruct (save_order _ _ _ _) eqn:Hsave; [|untouched].
  right. exists (Orders.c_now req). eexists _, _, _. split; [exact Hsave|].
  cbn [orders set_products]. rewrite fresh_order_id. auto.
Qed.

Lemma updateStatus_touches req db : orders_touched db (Orders.updateStatus req db).2.
Proof.
  unfold Orders.updateStatus. case_handler; try untouched.
  destruct (save_order _ _ _ _) eqn:Hsave; [|untouched].
  right. eexists. eexists _, _, _. split; [exact Hsave|].
  match goal with H : orders db !! _ = Some _ |- _ => rewrite H end. reflexivity.
Qed.

Lemma cancel_touches req db : orders_touched db (Orders.cancel req db).2.
Proof.
  unfold Orders.cancel. case_handler; try untouched.
  destruct (save_order _ _ _ _) eqn:Hsave; [|untouched].
  right. eexists. eexists _, _, _. split; [exact Hsave|].
  cbn [orders set_products].
  match goal with H : orders db !! _ = Some _ |- _ => rewrite H end. reflexivity.
Qed.

Lemma verify_touches gw req db : orders_touched db (Payments.verify gw req db).2.
Proof.
  unfold Payments.verify. case_handler; try untouched.
  destruct (save_order _ _ _ _) eqn:Hsave; [|untouched].
  right. eexists. eexists _, _, _. split; [exact Hsave|].
  cbn [orders set_products].
  match goal with H : orders db !! _ = Some _ |- _ => rewrite H end. reflexivity.
Qed.

Lemma save_to_touches now id o old db :
  orders db !! id = Some old -> Order.orderNumber o = Order.orderNumber old ->
  orders_touched db (Payments.save_to now id o db).2.
Proof.
  intros Hold Hnum. unfold Payments.save_to.
  destruct (save_order _ _ _ _) eqn:Hsave; [|untouched].
  right. eexists. eexists _, _, _. split; [exact Hsave|]. now rewrite Hold.
Qed.

Lemma webhook_touches gw req db : orders_touched db (Payments.webhook gw req db).2.
Proof.
  unfold Payments.webhook. destruct (negb _); [untouched|].
  destruct (Payments.w_event req); try untouched;
    (destruct (findOne _ _) as [[id order]|] eqn:Hfind; [|untouched]);
    apply findOne_Some in Hfind as [Hlook _];
    try (destruct (bool_decide _); [|untouched]);
    eapply save_to_touches; eauto.
Qed.

Lemma delivery_status_touches req db : orders_touched db (Deliveries.updateStatus req db).2.
Proof.
  unfold Deliveries.updateStatus. case_handler; try untouched.
  destruct (save_order _ _ _ _) eqn:Hsave; [|untouched].
  right. eexists. eexists _, _, _. split; [exact Hsave|].
  rewrite order_stamp_if_delivered.
  match goal with H : orders db !! _ = Some _ |- _ => rewrite H end.
  match goal with |- context [Deliveries.project ?s _] => destruct s end; reflexivity.
Qed.

Lemma confirm_touches req db : orders_touched db (Deliveries.confirm req db).2.
Proof.
  unfold Deliveries.confirm. case_handler; try untouched.
  destruct (save_order _ _ _ _) eqn:Hsave; [|untouched].
  right. eexists. eexists _, _, _. split; [exact Hsave|].
  match goal with H : orders _ !! _ = Some _ |- _ => cbn [orders set_deliveries] in H |- *; rewrite H end.
  reflexivity.
Qed.

Lemma finish_orders {A} (data : A) code w db db0 :
  (forall db', w = Some db' -> orders db' = orders db0) -> orders db = orders db0 ->
  orders (Reviews.finish data code w db).2 = orders db0.
Proof. intros Hw Hdb. unfold Reviews.finish. destruct w; simpl; auto. Qed.

Lemma write_product_rating_orders pid a c db db' :
  Reviews.write_product_rating pid a c db = Some db' -> orders db' = orders db.
Proof. unfold Reviews.write_product_rating. destruct a; [|discriminate]. now intros [= <-]. Qed.

Lemma write_partner_rating_orders uid a c db db' :
  Reviews.write_partner_rating uid a c db = Some db' -> orders db' = orders db.
Proof. unfold Reviews.write_partner_rating. destruct a; [|discriminate]. now intros [= <-]. Qed.

Lemma recompute_guarded_orders r db db' :
  Reviews.recompute_guarded r db = Some db' -> orders db' = orders db.
Proof.
  unfold Reviews.recompute_guarded. case_handler;
    eauto using write_product_rating_orders, write_partner_rating_orders.
  all: now intros [= <-].
Qed.

Lemma recompute_on_update_orders r db db' :
  Reviews.recompute_on_update r db = Some db' -> orders db' = orders db.
Proof.
  unfold Reviews.recompute_on_update. case_handler;
    eauto using write_product_rating_orders, write_partner_rating_orders.
  all: now intros [= <-].
Qed.

Lemma create_review_orders doc db r db' :
  Reviews.create_review doc db = Some (r, db') -> orders db' = orders db.
Proof.
  unfold Reviews.create_review. destruct doc; [|discriminate].
  destruct (Review.valid _); [|discriminate]. now intros [= _ <-].
Qed.

Lemma review_create_touches req db : orders_touched db (Reviews.create req db).2.
Proof.
  left. unfold Reviews.create, Reviews.create_product_review, Reviews.create_delivery_review.
  case_handler; try reflexivity.
  all: match goal with H : Reviews.create_review _ _ = Some _ |- _ =>
         apply create_review_orders in H end.
  all: apply finish_orders; auto.
  all: intros db' Hw.
  - apply write_product_rating_orders in Hw. congruence.
  - apply recompute_guarded_orders in Hw. congruence.
Qed.

Lemma review_update_touches req db : orders_touched db (Reviews.update req db).2.
Proof.
  left. unfold Reviews.update. case_handler; try reflexivity.
  all: apply finish_orders; auto; intros db' Hw; now apply recompute_on_update_orders in Hw.
Qed.

Lemma review_delete_touches req db : orders_touched db (Reviews.delete req db).2.
Proof.
  left. unfold Reviews.delete. case_handler; try reflexivity.
  all: apply finish_orders; auto; intros db' Hw; now apply recompute_guarded_orders in Hw.
Qed.

Lemma review_moderate_touches req db : orders_touched db (Reviews.moderate req db).2.
Proof.
  left. unfold Reviews.moderate. case_handler; try reflexivity.
  all: apply finish_orders; auto; intros db' Hw; now apply recompute_guarded_orders in Hw.
Qed.

Lemma addStock_touches req db : orders_touched db (Inventories.addStock req db).2.
Proof. left. unfold Inventories.addStock. case_handler; reflexivity. Qed.

Lemma inventory_update_touches req db : orders_touched db (Inventories.update req db).2.
Proof.
  left. unfold Inventories.update. destruct (negb _); [reflexivity|].
  destruct (inventories db !! _); [|reflexivity].
  destruct (Inventories.i_totalStock req); case_handler; reflexivity.
Qed.

Lemma removeStock_touches req db : orders_touched db (Inventories.removeStock req db).2.
Proof. left. unfold Inventories.removeStock. case_handler; reflexivity. Qed.

Lemma assignDelivery_touches req db : orders_touched db (Orders.assignDelivery req db).2.
Proof.
  unfold Orders.assignDelivery. case_handler; try untouched.
  destruct (save_order _ _ _ _) eqn:Hsave; [|untouched].
  right. eexists. eexists _, _, _. split; [exact Hsave|].
  match goal with H : orders db !! _ = Some _ |- _ => rewrite H end. reflexivity.
Qed.

Lemma createOrder_touches gw req db : orders_touched db (Payments.createOrder gw req db).2.
Proof.
  unfold Payments.createOrder. case_handler; try untouched.
  destruct (save_order _ _ _ _) eqn:Hsave; [|untouched].
  right. eexists. eexists _, _, _. split; [exact Hsave|].
  match goal with H : orders db !! _ = Some _ |- _ => rewrite H end. reflexivity.
Qed.

Lemma refund_touches gw req db : orders_touched db (Payments.refund gw req db).2.
Proof.
  unfold Payments.refund. case_handler; try untouched.
  destruct (save_order _ _ _ _) eqn:Hsave; [|untouched].
  right. eexists. eexists _, _, _. split; [exact Hsave|].
  match goal with H : orders db !! _ = Some _ |- _ => rewrite H end. reflexivity.
Qed.

Lemma delivery_assign_touches req db : orders_touched db (Deliveries.assign req db).2.
Proof.
  unfold Deliveries.assign. destruct (negb _); [untouched|].
  destruct (orders db !! _) as [order|] eqn:Hord; [|untouched].
  destruct (Deliveries.as_partnerId req) as [partnerId|]; [|untouched].
  destruct (Deliveries.assigned_delivery _ _ _ _) as [[id delivery]|]; [|untouched].
  destruct (save_order _ _ _ _) eqn:Hsave; [|untouched].
  right. eexists. eexists _, _, _. split; [exact Hsave|].
  cbn [orders set_deliveries]. rewrite Hord. reflexivity.
Qed.

Lemma step_touches gw db db' : step gw db db' -> orders_touched db db'.
Proof.
  destruct 1;
    eauto using create_touches, updateStatus_touches, cancel_touches, verify_touches,
      webhook_touches, delivery_status_touches, confirm_touches, review_create_touches,
      review_update_touches, review_delete_touches, review_moderate_touches,
      addStock_touches, inventory_update_touches, removeStock_touches,
      assignDelivery_touches, createOrder_touches, refund_touches,
      delivery_assign_touches.
Qed.

Lemma numbers_ok_empty : numbers_ok (∅ : gmap N Order.t).
Proof.
  split.
  - intros i j oi oj n Hi. now rewrite lookup_empty in Hi.
  - intros i o Hi. now rewrite lookup_empty in Hi.
Qed.

(** C7, as stated, fails on the width of the sequence: the order that the
    hook numbers when 9999 orders are stored gets a sequence of five digits. *)
Lemma order_number_fifth_digit :
  exists n,
    Order.orderNumber (Order.pre_save 1700000000000 9999 Example.blank_order) = Some n
    /\ n = "SON-1700000000000-10000"%string
    /\ four_digit_format n = false.
Proof. eexists. split; [reflexivity|]. split; reflexivity. Qed.

(** C7, amended: every request keeps the order numbers of the stored orders
    well formed and pairwise different, leaves the number of every stored
    order as it was, and gives an order it stores for the first time the
    number made of the clock and of the count of stored orders plus one,
    padded with zeros to four digits or more: exactly four while fewer than
    9999 orders are stored. *)
Theorem order_number_assigned_once (gw : Payments.Gateway) (db db' : DB) :
  step gw db db' ->
  numbers_ok (orders db) ->
  numbers_ok (orders db')
  /\ (forall id o, orders db !! id = Some o ->
        exists o', orders db' !! id = Some o'
                   /\ Order.orderNumber o' = Order.orderNumber o)
  /\ (forall id o', orders db !! id = None -> orders db' !! id = Some o' ->
        exists now n,
          0 <= now
          /\ n = Order.make_orderNumber now (Z.of_nat (size (orders db)))
          /\ Order.orderNumber o' = Some n
          /\ padded_format n = true
          /\ (Z.of_nat (size (orders db)) < 9999 -> four_digit_format n = true)).
Proof.
  intros Hstep Hok. destruct (step_touches _ _ _ Hstep) as [Hsame|[now Hw]].
  - rewrite Hsame. split; [assumption|]. split; [eauto|]. congruence.
  - destruct (order_written_numbers _ _ _ Hok Hw) as (Hok' & Hkeep & Hnew).
    split; [assumption|]. split; [assumption|].
    intros id o' Hnone Hsome. destruct (Hnew _ _ Hnone Hsome) as [Hnow Hn].
    exists now, (Order.make_orderNumber now (Z.of_nat (size (orders db)))).
    repeat split; auto.
    + apply make_orderNumber_padded; lia.
    + intros Hsize. apply make_orderNumber_four_digits; lia.
Qed.

(** ** The stock counters along one order's life *)

(** C1, at a failing input: a product with five units, three of them
    ordered, paid and then cancelled.  The checkout reserves three, the
    payment takes three from both counters, and the cancellation of the paid
    order takes three from [reservedStock] once more: every request answers
    with success and the reservation ends at -3. *)
Theorem cancel_of_paid_order_drives_reservation_negative :
  Product.stock_okb <$> products Example.shop !! 1%N = Some true
  /\ code_of (Orders.create Example.checkout Example.shop).1 = 201
  /\ (fun p => (Product.stock p, Product.reservedStock p))
       <$> products Example.ordered !! 1%N = Some (5, 3)
  /\ code_of (Payments.verify Example.gateway Example.pay Example.ordered).1 = 200
  /\ (fun p => (Product.stock p, Product.reservedStock p))
       <$> products Example.paid !! 1%N = Some (2, 0)
  /\ code_of (Orders.cancel Example.withdraw Example.paid).1 = 200
  /\ (fun p => (Product.stock p, Product.reservedStock p))
       <$> products (Orders.cancel Example.withdraw Example.paid).2 !! 1%N = Some (2, -3)
  /\ Product.stock_okb
       <$> products (Orders.cancel Example.withdraw Example.paid).2 !! 1%N = Some false.
Proof. repeat split; vm_compute; reflexivity. Qed.

(** The inventory routes read the inventory record's own [reservedStock],
    which no order route writes: with three bikes reserved, an adjustment to
    one and a removal of five both succeed and leave less stock than
    reservation. *)
Lemma inventory_routes_ignore_reservations :
  code_of (Inventories.update Example.adjust Example.ordered).1 = 200
  /\ (fun p => (Product.stock p, Product.reservedStock p))
       <$> products (Inventories.update Example.adjust Example.ordered).2 !! 1%N = Some (1, 3)
  /\ code_of (Inventories.removeStock Example.scrap Example.ordered).1 = 200
  /\ (fun p => (Product.stock p, Product.reservedStock p))
       <$> products (Inventories.removeStock Example.scrap Example.ordered).2 !! 1%N
     = Some (0, 3).
Proof. repeat split; vm_compute; reflexivity. Qed.

(** C3, at a failing input: the verify route run twice, with the same valid
    signature, on the same order.  Both runs answer 200 and the second takes
    the three units from both counters again. *)
Theorem verify_twice_commits_twice :
  (fun p => (Product.stock p, Product.reservedStock p))
    <$> products Example.ordered !! 1%N = Some (5, 3)
  /\ code_of (Payments.verify Example.gateway Example.pay Example.ordered).1 = 200
  /\ (fun p => (Product.stock p, Product.reservedStock p))
       <$> products Example.paid !! 1%N = Some (2, 0)
  /\ (Order.pay_status ∘ Order.payment) <$> orders Example.paid !! 0%N
     = Some Order.pay_completed
  /\ code_of (Payments.verify Example.gateway Example.pay Example.paid).1 = 200
  /\ (fun p => (Product.stock p, Product.reservedStock p))
       <$> products (Payments.verify Example.gateway Example.pay Example.paid).2 !! 1%N
     = Some (-1, -3).
Proof. repeat split; vm_compute; reflexivity. Qed.

(** ** Ratings *)

(** C8, at a failing input: a seeded product with the ratings 4.7 / 128 and
    one approved review, whose author raises the rating from 4 to 5.  The
    update route answers 200 and writes the average 5, and the stored count
    stays at 128 with one approved review in the collection. *)
Theorem review_update_leaves_count_stale :
  code_of (Reviews.update Example.edit Example.seeded).1 = 200
  /\ length (find_all (Reviews.approved_for_product 1%N)
               (reviews (Reviews.update Example.edit Example.seeded).2)) = 1%nat
  /\ Product.ratings_count
       <$> products (Reviews.update Example.edit Example.seeded).2 !! 1%N = Some 128
  /\ (fun p => Qeq_bool (Product.ratings_average p) 5)
       <$> products (Reviews.update Example.edit Example.seeded).2 !! 1%N = Some true.
Proof. repeat split; vm_compute; reflexivity. Qed.

(** The recomputation shared by the create, delete and moderate routes does
    what the update route leaves out: it never divides by an empty length and
    it writes the count next to the average. *)
Lemma recompute_guarded_product_rating r pid db p :
  Review.type r = Review.product_review ->
  Review.product r = Some pid ->
  products db !! pid = Some p ->
  exists db' p',
    Reviews.recompute_guarded r db = Some db'
    /\ reviews db' = reviews db
    /\ products db' !! pid = Some p'
    /\ Product.ratings_count p'
       = Z.of_nat (length (find_all (Reviews.approved_for_product pid) (reviews db)))
    /\ Reviews.Fin (Product.ratings_average p')
       = Reviews.round1
           (Reviews.guarded_average
              (find_all (Reviews.approved_for_product pid) (reviews db))).
Proof.
  intros Hty Hpid Hp. unfold Reviews.recompute_guarded. rewrite Hty, Hpid.
  set (rs := find_all (Reviews.approved_for_product pid) (reviews db)).
  assert (Hfin : exists q, Reviews.guarded_average rs = Reviews.Fin q).
  { unfold Reviews.guarded_average, Reviews.average.
    destruct rs as [|x rs']; simpl; eauto. }
  destruct Hfin as [q Hq]. rewrite Hq. simpl.
  eexists _, _. split; [reflexivity|]. split; [reflexivity|].
  cbn [products set_products]. rewrite lookup_alter_eq, Hp. simpl.
  split; [reflexivity|]. split; reflexivity.
Qed.

(** ** The theorems at work on the small shop *)

Lemma checkout_checks_every_line_first_witness :
  exists m, Orders.create Example.checkout Example.greedy = (Failure 400 m, Example.greedy).
Proof.
  destruct (checkout_checks_every_line_first Example.checkout Example.greedy
              Example.home Example.greedy_cart) as [H _].
  - reflexivity.
  - vm_compute. reflexivity.
  - intros item Hin. apply list_elem_of_singleton in Hin as ->.
    exists Example.bike. vm_compute. reflexivity.
  - destruct H as (item & p & _ & _ & _ & Heq).
    + exists (Cart.mkItem 1%N 7 100), Example.bike.
      split; [apply list_elem_of_singleton; reflexivity|].
      split; [vm_compute; reflexivity|]. vm_compute. reflexivity.
    + eexists. exact Heq.
Defined.

Lemma cancel_only_before_shipping_witness :
  exists o' db',
    Orders.cancel Example.withdraw Example.ordered = (Success 200 o', db')
    /\ Order.status o' = Order.cancelled.
Proof.
  destruct (cancel_only_before_shipping Example.withdraw Example.ordered Example.placed)
    as (_ & H & _).
  - vm_compute. reflexivity.
  - right. reflexivity.
  - split; reflexivity.
  - destruct H as (o' & db' & Heq & _ & _ & Hst & _).
    + unfold cancellable_statuses. simpl. left.
    + exists o', db'. split; assumption.
Defined.

Lemma delivery_status_projects_onto_order_witness :
  exists d' o',
    (Deliveries.updateStatus Example.pick_up Example.dispatched).1 = Success 200 d'
    /\ deliveries (Deliveries.updateStatus Example.pick_up Example.dispatched).2 !! 5%N
       = Some d'
    /\ orders (Deliveries.updateStatus Example.pick_up Example.dispatched).2 !! 0%N
       = Some o'
    /\ Delivery.status d' = Delivery.picked
    /\ Order.status o' = Order.packed.
Proof.
  destruct (delivery_status_projects_onto_order Example.pick_up Example.dispatched
              Example.parcel Example.placed Delivery.picked)
    as (d' & o' & Heq & Hst & _ & _ & Hpacked & _).
  - reflexivity.
  - reflexivity.
  - vm_compute. reflexivity.
  - vm_compute. reflexivity.
  - split; reflexivity.
  - reflexivity.
  - exists d', o'. rewrite Heq. split; [reflexivity|].
    split; [apply lookup_insert_eq|]. split; [apply lookup_insert_eq|].
    split; [assumption|]. apply Hpacked. reflexivity.
Defined.

Lemma confirm_completes_order_witness :
  exists d' o',
    (Deliveries.confirm Example.hand_over Example.dispatched).1 = Success 200 d'
    /\ deliveries (Deliveries.confirm Example.hand_over Example.dispatched).2 !! 5%N
       = Some d'
    /\ orders (Deliveries.confirm Example.hand_over Example.dispatched).2 !! 0%N
       = Some o'
    /\ Delivery.status d' = Delivery.delivered
    /\ Order.status o' = Order.completed.
Proof.
  destruct (confirm_completes_order Example.hand_over Example.dispatched Example.parcel)
    as (d' & Hst & _ & _ & _ & _ & _ & _ & _ & _ & _ & _ & _ & _ & Hparent & _).
  - reflexivity.
  - reflexivity.
  - vm_compute. reflexivity.
  - destruct (Hparent Example.placed) as (o' & Heq & Hcompleted & _).
    + vm_compute. reflexivity.
    + split; reflexivity.
    + exists d', o'. rewrite Heq. split; [reflexivity|].
      split; [apply lookup_insert_eq|]. split; [apply lookup_insert_eq|]. auto.
Defined.

Lemma order_number_assigned_once_witness : numbers_ok (orders Example.ordered).
Proof.
  apply (order_number_assigned_once Example.gateway Example.shop Example.ordered).
  - apply (step_checkout Example.gateway Example.shop Example.checkout).
    vm_compute. discriminate.
  - apply numbers_ok_empty.
Defined.

Lemma admin_status_update_frame_witness :
  exists o',
    (Orders.updateStatus Example.strike Example.ordered).1 = Success 200 o'
    /\ Order.status o' = Order.cancelled
    /\ products (Orders.updateStatus Example.strike Example.ordered).2
       = products Example.ordered.
Proof.
  destruct (admin_status_update_frame Example.strike Example.ordered) as (Hframe & _ & H).
  destruct (H Example.placed Order.cancelled) as (o' & Heq & Hst & _).
  - reflexivity.
  - vm_compute. reflexivity.
  - split; reflexivity.
  - reflexivity.
  - exists o'. rewrite Heq. auto.
Defined.


(** * Further properties of the routes *)

Lemma reserve_stock_lookup items (ps : gmap N Product.t) pid :
  Orders.reserve_stock items ps !! pid
  = Product.inc_reservedStock (cart_quantity pid items) <$> ps !! pid.
Proof.
  revert ps. induction items as [|i items IH]; intros ps.
  - simpl. destruct (ps !! pid) as [p|]; simpl; [|reflexivity].
    now rewrite inc_reservedStock_zero.
  - unfold Orders.reserve_stock in *. simpl. rewrite IH.
    destruct (decide (Cart.product i = pid)) as [<-|Hne].
    + rewrite lookup_alter_eq, bool_decide_eq_true_2 by reflexivity.
      destruct (ps !! Cart.product i) as [p|]; simpl; [|reflexivity].
      rewrite inc_reservedStock_twice. reflexivity.
    + rewrite lookup_alter_ne, bool_decide_eq_false_2 by assumption. reflexivity.
Qed.

Lemma validate_stock_passes (ps : gmap N Product.t) items :
  (forall item, item ∈ items ->
     exists p, ps !! Cart.product item = Some p
               /\ Cart.quantity item <= Product.availableStock p) ->
  Orders.validate_stock ps items = Orders.stock_valid.
Proof.
  induction items as [|i items IH]; intros H; [reflexivity|].
  destruct (H i) as (p & Hp & Hle); [left|]. simpl. rewrite Hp.
  unfold Product.availableStock in Hle.
  destruct (Z.ltb_spec (Product.stock p - Product.reservedStock p) (Cart.quantity i)); [lia|].
  apply IH. intros j Hj. apply H. now right.
Qed.

Lemma ordered_quantity_order_items ps pid items :
  ordered_quantity pid (map (Orders.order_item ps) items) = cart_quantity pid items.
Proof.
  induction items as [|i items IH]; [reflexivity|]. simpl. now rewrite IH.
Qed.

Lemma lines_total_order_items ps items :
  lines_total (map (Orders.order_item ps) items) = Cart.totalAmount (Cart.mk items).
Proof.
  unfold Cart.totalAmount. simpl. induction items as [|i items IH]; [reflexivity|].
  simpl. now rewrite IH.
Qed.

Lemma order_items_projection ps items :
  map (fun i => (Order.product i, Order.quantity i, Order.price i))
      (map (Orders.order_item ps) items)
  = map (fun i => (Cart.product i, Cart.quantity i, Cart.price i)) items.
Proof. induction items as [|i items IH]; [reflexivity|]. simpl. now rewrite IH. Qed.

Lemma forallb_quantities ps items :
  forallb (fun i => 1 <=? Order.quantity i) (map (Orders.order_item ps) items)
  = forallb (fun i => 1 <=? Cart.quantity i) items.
Proof. induction items as [|i items IH]; [reflexivity|]. simpl. now rewrite IH. Qed.

(** What a successful checkout was made of. *)
Lemma create_success_inv req db o db1 :
  Orders.create req db = (Success 201 o, db1) ->
  exists address cart,
    Orders.c_shippingAddress req = Some address
    /\ carts db !! user_id (Orders.c_user req) = Some cart
    /\ Cart.items cart <> []
    /\ Orders.validate_stock (products db) (Cart.items cart) = Orders.stock_valid
    /\ save_order (Orders.c_now req) (fresh (dom (orders db)))
         (Order.mk (user_id (Orders.c_user req)) None
            (map (Orders.order_item (products db)) (Cart.items cart)) address
            Order.created Order.default_payment Order.default_delivery
            (Cart.totalAmount cart)
            [Order.mkHistory "created" (Orders.c_now req) (Some "Order placed"%string) None]
            None)
         (orders db) = saved o (orders db1)
    /\ products db1 = Orders.reserve_stock (Cart.items cart) (products db)
    /\ carts db1 = <[user_id (Orders.c_user req) := Cart.mk []]> (carts db)
    /\ inventories db1 = inventories db /\ deliveries db1 = deliveries db
    /\ reviews db1 = reviews db /\ users db1 = users db.
Proof.
  unfold Orders.create.
  destruct (Orders.c_shippingAddress req) as [address|]; [|discriminate].
  destruct (carts db !! _) as [cart|] eqn:Hcart; [|discriminate].
  destruct (Cart.items cart) as [|i items] eqn:Hitems; [discriminate|].
  simpl Nat.eqb. cbv iota.
  destruct (Orders.validate_stock _ _) eqn:Hv; try discriminate.
  cbn [orders set_products].
  destruct (save_order _ _ _ _) eqn:Hsave; [|discriminate].
  intros [= <- <-]. exists address, cart. rewrite Hitems.
  repeat split; try reflexivity; try assumption. discriminate.
Qed.

Lemma save_order_saved now id o os o' os' :
  save_order now id o os = saved o' os' ->
  stored_ok o' /\ os' = <[id := o']> os /\ o' = Order.pre_save now (Z.of_nat (size os)) o.
Proof.
  unfold save_order. destruct (Order.valid o) eqn:Hv; [|discriminate]. simpl.
  assert (Hok : stored_ok (Order.pre_save now (Z.of_nat (size os)) o)).
  { unfold Order.pre_save. destruct (truthy (Order.orderNumber o)) eqn:Ht.
    - split; assumption.
    - split; [exact Hv|reflexivity]. }
  destruct (Order.orderNumber (Order.pre_save _ _ o)) as [n|].
  - destruct (_ && _); [discriminate|]. intros [= <- <-]. auto.
  - intros [= <- <-]. auto.
Qed.

(** X1: A checkout with a complete shipping address, a non-empty cart whose
    lines each ask for at least one and at most the available units of a
    stored product, and a free order number answers 201.  It stores one new
    order in status created for the caller, with the number made from the
    clock and the order count, the default payment, the cart's lines as its
    items, their sum as the total and one history entry; it empties the
    cart; and it raises each product's reservedStock by the units the cart
    holds of it, leaving stock as it was. *)
Theorem checkout_places_order (req : Orders.CreateReq) (db : DB)
    (address : Order.Address) (cart : Cart.t) :
  Orders.c_shippingAddress req = Some address ->
  address_complete address = true ->
  carts db !! user_id (Orders.c_user req) = Some cart ->
  Cart.items cart <> [] ->
  (forall item, item ∈ Cart.items cart ->
     exists p, products db !! Cart.product item = Some p
               /\ 1 <= Cart.quantity item <= Product.availableStock p) ->
  orderNumber_taken
    (Order.make_orderNumber (Orders.c_now req) (Z.of_nat (size (orders db)))) (orders db)
  = false ->
  exists o db1,
    Orders.create req db = (Success 201 o, db1)
    /\ orders db1 = <[fresh (dom (orders db)) := o]> (orders db)
    /\ carts db1 = <[user_id (Orders.c_user req) := Cart.mk []]> (carts db)
    /\ Order.user o = user_id (Orders.c_user req)
    /\ Order.status o = Order.created
    /\ Order.shippingAddress o = address
    /\ Order.orderNumber o
       = Some (Order.make_orderNumber (Orders.c_now req) (Z.of_nat (size (orders db))))
    /\ Order.payment o = Order.default_payment
    /\ map (fun i => (Order.product i, Order.quantity i, Order.price i)) (Order.items o)
       = map (fun i => (Cart.product i, Cart.quantity i, Cart.price i)) (Cart.items cart)
    /\ Order.totalAmount o = lines_total (Order.items o)
    /\ Order.statusHistory o
       = [Order.mkHistory "created" (Orders.c_now req) (Some "Order placed"%string) None]
    /\ (forall pid p, products db !! pid = Some p ->
        exists p', products db1 !! pid = Some p'
          /\ Product.reservedStock p'
             = Product.reservedStock p + cart_quantity pid (Cart.items cart)
          /\ Product.stock p' = Product.stock p).
Proof.
  intros Haddr Hcomplete Hcart Hne Hlines Hfree.
  unfold Orders.create. rewrite Haddr, Hcart.
  destruct (Cart.items cart) as [|i items] eqn:Hitems; [contradiction|].
  simpl Nat.eqb. cbv iota. rewrite <- Hitems in *.
  rewrite validate_stock_passes
    by (intros j Hj; destruct (Hlines j Hj) as (p & Hp & Hq); exists p; split; [auto|lia]).
  cbn [orders set_products].
  unfold save_order.
  assert (Hvalid : Order.valid
            (Order.mk (user_id (Orders.c_user req)) None
               (map (Orders.order_item (products db)) (Cart.items cart)) address
               Order.created Order.default_payment Order.default_delivery
               (Cart.totalAmount cart)
               [Order.mkHistory "created" (Orders.c_now req) (Some "Order placed"%string) None]
               None) = true).
  { unfold Order.valid. cbn [Order.shippingAddress Order.items].
    unfold address_complete in Hcomplete. rewrite Hcomplete. simpl.
    rewrite forallb_quantities. apply forallb_forall. intros j Hj.
    apply list_elem_of_In in Hj. destruct (Hlines j Hj) as (p & _ & Hq).
    apply Z.leb_le. lia. }
  rewrite Hvalid. simpl negb. cbv iota.
  unfold Order.pre_save. cbn [Order.orderNumber truthy Order.set_orderNumber].
  rewrite delete_id by (apply not_elem_of_dom, is_fresh).
  rewrite Hfree, andb_false_r.
  eexists _, _. split; [reflexivity|].
  cbn [orders carts products set_orders set_carts set_products Order.user Order.status
       Order.shippingAddress Order.orderNumber Order.payment Order.items Order.totalAmount
       Order.statusHistory].
  repeat split; try reflexivity.
  - apply order_items_projection.
  - destruct cart as [its]. symmetry. apply lines_total_order_items.
  - intros pid p Hp. rewrite reserve_stock_lookup, Hp. simpl.
    eexists. split; [reflexivity|]. split; reflexivity.
Qed.

Lemma cart_quantity_absent pid items :
  pid ∉ map Cart.product items -> cart_quantity pid items = 0.
Proof.
  induction items as [|i items IH]; [reflexivity|]. simpl. intros Hnot.
  apply not_elem_of_cons in Hnot as [Hne Hnot].
  rewrite bool_decide_eq_false_2 by congruence. auto.
Qed.

Lemma cart_quantity_bounds (ps : gmap N Product.t) items pid p :
  NoDup (map Cart.product items) ->
  (forall item, item ∈ items ->
     exists q, ps !! Cart.product item = Some q
               /\ 0 <= Cart.quantity item <= Product.availableStock q) ->
  ps !! pid = Some p ->
  0 <= cart_quantity pid items
  /\ (cart_quantity pid items = 0 \/ cart_quantity pid items <= Product.availableStock p).
Proof.
  induction items as [|i items IH]; intros Hnd Hlines Hp; [simpl; lia|].
  simpl in Hnd. apply NoDup_cons in Hnd as [Hnot Hnd]. simpl.
  destruct (decide (Cart.product i = pid)) as [Heq|Hne].
  - rewrite bool_decide_eq_true_2 by assumption.
    rewrite Heq in Hnot. rewrite (cart_quantity_absent _ _ Hnot).
    destruct (Hlines i) as (q & Hq & Hb); [left|].
    rewrite Heq, Hp in Hq. injection Hq as <-. lia.
  - rewrite bool_decide_eq_false_2 by assumption.
    apply IH; auto. intros j Hj. apply Hlines. now right.
Qed.

(** X2: A checkout keeps [0 <= reservedStock <= stock] on every product,
    whatever it answers, when the caller's cart names pairwise different
    products and no quantity is below zero. *)
Theorem checkout_keeps_stock_bounds (req : Orders.CreateReq) (db : DB) :
  all_stock_ok (products db) ->
  (forall cart, carts db !! user_id (Orders.c_user req) = Some cart ->
     NoDup (map Cart.product (Cart.items cart))
     /\ forall item, item ∈ Cart.items cart -> 0 <= Cart.quantity item) ->
  all_stock_ok (products (Orders.create req db).2).
Proof.
  intros Hok Hcart. unfold Orders.create.
  destruct (Orders.c_shippingAddress req); [|exact Hok].
  destruct (carts db !! _) as [cart|] eqn:Hc; [|exact Hok].
  destruct (Nat.eqb _ 0); [exact Hok|].
  destruct (Orders.validate_stock _ _) eqn:Hv; try exact Hok.
  destruct (Hcart cart eq_refl) as [Hnd Hpos].
  assert (Hres : all_stock_ok (Orders.reserve_stock (Cart.items cart) (products db))).
  { intros pid p'. rewrite reserve_stock_lookup.
    destruct (products db !! pid) as [p|] eqn:Hp; [|discriminate].
    simpl. intros [= <-]. specialize (Hok _ _ Hp).
    destruct (cart_quantity_bounds (products db) (Cart.items cart) pid p Hnd) as [H0 Hle];
      [|assumption|].
    - intros j Hj.
      destruct (validate_stock_valid_all_lines _ _ Hv j Hj) as (q & Hq & Hb).
      exists q. split; [assumption|]. split; [auto|assumption].
    - unfold Product.stock_ok, Product.availableStock in *. simpl. lia. }
  cbn [orders set_products]. destruct (save_order _ _ _ _); exact Hres.
Qed.

(** X3: The reservation loop runs before the order is saved.  With a
    shipping address that lacks one of its four parts and a cart that
    passes the stock check, the checkout answers 500, stores no order and
    leaves the cart as it was, yet reservedStock has been raised by the
    units of the cart. *)
Theorem checkout_keeps_reservation_when_order_is_refused (req : Orders.CreateReq) (db : DB)
    (address : Order.Address) (cart : Cart.t) :
  Orders.c_shippingAddress req = Some address ->
  address_complete address = false ->
  carts db !! user_id (Orders.c_user req) = Some cart ->
  Cart.items cart <> [] ->
  (forall item, item ∈ Cart.items cart ->
     exists p, products db !! Cart.product item = Some p
               /\ Cart.quantity item <= Product.availableStock p) ->
  exists m db1,
    Orders.create req db = (Failure 500 m, db1)
    /\ orders db1 = orders db
    /\ carts db1 = carts db
    /\ (forall pid p, products db !! pid = Some p ->
        exists p', products db1 !! pid = Some p'
          /\ Product.reservedStock p'
             = Product.reservedStock p + cart_quantity pid (Cart.items cart)).
Proof.
  intros Haddr Hcomplete Hcart Hne Hlines.
  unfold Orders.create. rewrite Haddr, Hcart.
  destruct (Cart.items cart) as [|i items] eqn:Hitems; [contradiction|].
  simpl Nat.eqb. cbv iota. rewrite <- Hitems in *.
  rewrite validate_stock_passes by assumption.
  cbn [orders set_products]. unfold save_order.
  assert (Hinvalid : forall its tot h,
            Order.valid (Order.mk (user_id (Orders.c_user req)) None its address
                           Order.created Order.default_payment Order.default_delivery
                           tot h None) = false).
  { intros. unfold Order.valid. cbn [Order.shippingAddress].
    unfold address_complete in Hcomplete. now rewrite Hcomplete. }
  rewrite Hinvalid. simpl negb. cbv iota.
  eexists _, _. split; [reflexivity|]. repeat split.
  intros pid p Hp. cbn [products set_products]. rewrite reserve_stock_lookup, Hp. simpl.
  eexists. split; reflexivity.
Qed.

Lemma release_after_reserve items (ps : gmap N Product.t) :
  Orders.release_stock (map (Orders.order_item ps) items) (Orders.reserve_stock items ps) = ps.
Proof.
  apply map_eq. intros pid.
  rewrite release_stock_lookup, reserve_stock_lookup, ordered_quantity_order_items.
  destruct (ps !! pid) as [p|]; simpl; [|reflexivity].
  rewrite inc_reservedStock_twice.
  replace (cart_quantity pid items + - cart_quantity pid items) with 0 by lia.
  now rewrite inc_reservedStock_zero.
Qed.

(** X4: Cancelling, as its owner, the order that a checkout has just stored
    answers 200 and puts the products collection back to what it was before
    the checkout. *)
Theorem cancel_undoes_checkout_reservation (req : Orders.CreateReq) (can : Orders.CancelReq)
    (db db1 : DB) (o : Order.t) :
  Orders.create req db = (Success 201 o, db1) ->
  Orders.x_id can = fresh (dom (orders db)) ->
  Orders.x_user can = Orders.c_user req ->
  exists o' db2,
    Orders.cancel can db1 = (Success 200 o', db2)
    /\ Order.status o' = Order.cancelled
    /\ products db2 = products db.
Proof.
  intros Hcreate Hid Huser.
  destruct (create_success_inv _ _ _ _ Hcreate)
    as (address & cart & _ & _ & _ & _ & Hsave & Hps & _).
  destruct (save_order_saved _ _ _ _ _ _ Hsave) as (Hstored & Hos & Ho).
  assert (Hlook : orders db1 !! Orders.x_id can = Some o).
  { rewrite Hos, Hid. apply lookup_insert_eq. }
  assert (Hfields : Order.status o = Order.created
                    /\ Order.user o = user_id (Orders.c_user req)
                    /\ Order.items o = map (Orders.order_item (products db)) (Cart.items cart)).
  { rewrite Ho. unfold Order.pre_save. simpl. auto. }
  destruct Hfields as (Hst & Hu & Hit).
  unfold Orders.cancel. rewrite Hlook.
  rewrite cancel_access_granted by (right; now rewrite Huser).
  rewrite Hst. simpl Orders.nonCancellable. cbv iota.
  cbn [orders set_products].
  rewrite save_order_stored; [|auto with stored|eauto].
  eexists _, _. split; [reflexivity|]. split; [reflexivity|].
  cbn [products set_products set_orders].
  rewrite Hps, Hit, release_after_reserve. reflexivity.
Qed.

(** X5: The cancel route changes the database only for a stored order, a
    caller who is an admin or the order's owner, and a status among
    created, paid and packed. *)
Theorem cancel_writes_only_when_allowed (req : Orders.CancelReq) (db : DB) :
  (Orders.cancel req db).2 <> db ->
  exists order,
    orders db !! Orders.x_id req = Some order
    /\ (role (Orders.x_user req) = admin \/ Order.user order = user_id (Orders.x_user req))
    /\ Order.status order ∈ cancellable_statuses.
Proof.
  unfold Orders.cancel.
  destruct (orders db !! _) as [order|] eqn:Hfound; [|simpl; congruence].
  destruct (bool_decide (role _ = admin)) eqn:Hadmin;
    destruct (bool_decide (Order.user order = _)) eqn:Hown; simpl negb; cbv iota beta;
    simpl andb; cbv iota;
    try (destruct (Orders.nonCancellable _) eqn:Hnc; [simpl; congruence|];
         intros _; exists order; split; [reflexivity|];
         split; [|now apply cancellable_not_nonCancellable]).
  - left. now apply bool_decide_eq_true_1 in Hadmin.
  - left. now apply bool_decide_eq_true_1 in Hadmin.
  - right. now apply bool_decide_eq_true_1 in Hown.
  - simpl. congruence.
Qed.

Lemma ordered_quantity_nonneg pid items :
  forallb (fun i => 1 <=? Order.quantity i) items = true ->
  0 <= ordered_quantity pid items.
Proof.
  induction items as [|i items IH]; simpl; [lia|].
  intros [Hi Hrest]%andb_prop. apply Z.leb_le in Hi. specialize (IH Hrest).
  destruct (bool_decide _); lia.
Qed.

Lemma stored_ok_quantities o pid : stored_ok o -> 0 <= ordered_quantity pid (Order.items o).
Proof.
  intros [Hv _]. unfold Order.valid in Hv. apply andb_prop in Hv as [_ Hq].
  now apply ordered_quantity_nonneg.
Qed.

(** X6: The verify route never changes the available stock
    (stock minus reservedStock) of any product, for any request: the commit
    lowers both counters by the same quantity. *)
Theorem verify_keeps_available_stock (gw : Payments.Gateway) (req : Payments.VerifyReq)
    (db : DB) (pid : ObjectId) :
  Product.availableStock <$> products (Payments.verify gw req db).2 !! pid
  = Product.availableStock <$> products db !! pid.
Proof.
  unfold Payments.verify.
  destruct (negb _); [reflexivity|].
  destruct (orders db !! _) as [order|]; [|reflexivity].
  destruct (Payments.payments_fetch gw _); [|reflexivity].
  assert (Hcommit : forall items,
            Product.availableStock <$> Payments.commit_stock items (products db) !! pid
            = Product.availableStock <$> products db !! pid).
  { intros items. rewrite commit_stock_lookup.
    destruct (products db !! pid) as [p|]; simpl; [|reflexivity].
    unfold Product.availableStock. simpl. f_equal. lia. }
  cbn [orders set_products]. destruct (save_order _ _ _ _); apply Hcommit.
Qed.

(** X7: While the units of an order are still counted in reservedStock,
    neither the verify route nor the cancel route on that order breaks
    [0 <= reservedStock <= stock] on any product. *)
Theorem held_reservation_keeps_stock_bounds (gw : Payments.Gateway)
    (pay : Payments.VerifyReq) (can : Orders.CancelReq) (db : DB) :
  all_stock_ok (products db) ->
  (forall o, orders db !! Payments.orderId pay = Some o ->
     stored_ok o /\ reservation_held (products db) o) ->
  (forall o, orders db !! Orders.x_id can = Some o ->
     stored_ok o /\ reservation_held (products db) o) ->
  all_stock_ok (products (Payments.verify gw pay db).2)
  /\ all_stock_ok (products (Orders.cancel can db).2).
Proof.
  intros Hok Hpay Hcan. split.
  - unfold Payments.verify.
    destruct (negb _); [exact Hok|].
    destruct (orders db !! Payments.orderId pay) as [order|] eqn:Hord; [|exact Hok].
    destruct (Payments.payments_fetch gw _); [|exact Hok].
    destruct (Hpay order eq_refl) as [Hstored Hheld].
    assert (Hres : all_stock_ok (Payments.commit_stock (Order.items order) (products db))).
    { intros pid p'. rewrite commit_stock_lookup.
      destruct (products db !! pid) as [p|] eqn:Hp; [|discriminate].
      simpl. intros [= <-]. specialize (Hok _ _ Hp). specialize (Hheld _ _ Hp).
      pose proof (stored_ok_quantities order pid Hstored).
      unfold Product.stock_ok in *. simpl. lia. }
    cbn [orders set_products]. destruct (save_order _ _ _ _); exact Hres.
  - unfold Orders.cancel.
    destruct (orders db !! Orders.x_id can) as [order|] eqn:Hord; [|exact Hok].
    destruct (_ && _); [exact Hok|].
    destruct (Orders.nonCancellable _); [exact Hok|].
    destruct (Hcan order eq_refl) as [Hstored Hheld].
    assert (Hres : all_stock_ok (Orders.release_stock (Order.items order) (products db))).
    { intros pid p'. rewrite release_stock_lookup.
      destruct (products db !! pid) as [p|] eqn:Hp; [|discriminate].
      simpl. intros [= <-]. specialize (Hok _ _ Hp). specialize (Hheld _ _ Hp).
      pose proof (stored_ok_quantities order pid Hstored).
      unfold Product.stock_ok in *. simpl. lia. }
    cbn [orders set_products]. destruct (save_order _ _ _ _); exact Hres.
Qed.

Lemma findOne_unique {A} (f : A -> bool) (m : gmap N A) k a :
  m !! k = Some a -> f a = true ->
  (forall j b, m !! j = Some b -> f b = true -> j = k) ->
  findOne f m = Some (k, a).
Proof.
  intros Hk Hf Huniq. unfold findOne.
  destruct (List.find _ _) as [[j b]|] eqn:Hfind.
  - apply find_some in Hfind as [Hin Hfb]. simpl in Hfb.
    apply list_elem_of_In, elem_of_map_to_list in Hin.
    assert (j = k) by eauto. subst. congruence.
  - eapply find_none in Hfind; [|apply list_elem_of_In, elem_of_map_to_list; exact Hk].
    simpl in Hfind. congruence.
Qed.

Lemma findOne_None {A} (f : A -> bool) (m : gmap N A) :
  findOne f m = None -> forall k a, m !! k = Some a -> f a = false.
Proof.
  unfold findOne. intros Hfind k a Hk.
  eapply find_none in Hfind; [|apply list_elem_of_In, elem_of_map_to_list; exact Hk].
  exact Hfind.
Qed.

Lemma findOne_gateway_order gid id (os : gmap N Order.t) o :
  os !! id = Some o ->
  Order.razorpayOrderId (Order.payment o) = Some gid ->
  only_order_of gid id os ->
  findOne (fun o => bool_decide (Order.razorpayOrderId (Order.payment o) = Some gid)) os
  = Some (id, o).
Proof.
  intros Hid Hgid Honly. apply findOne_unique; auto.
  - now apply bool_decide_eq_true_2.
  - intros j b Hj Hb. apply bool_decide_eq_true_1 in Hb. eauto.
Qed.

Lemma only_order_of_insert gid id (os : gmap N Order.t) o' :
  only_order_of gid id os -> only_order_of gid id (<[id := o']> os).
Proof.
  intros Honly j b Hj Hb. destruct (decide (j = id)) as [|Hne]; [assumption|].
  rewrite lookup_insert_ne in Hj by auto. eauto.
Qed.

(** X8: The verify route changes the database only after the signature
    matched the digest of the order id and payment id, the order was found
    and the gateway returned the payment.  The webhook changes it only
    after its signature matched the digest of the raw body, and never for
    an event other than the three it handles. *)
Theorem payment_routes_write_only_after_checks (gw : Payments.Gateway)
    (vreq : Payments.VerifyReq) (wreq : Payments.WebhookReq) (db : DB) :
  ((Payments.verify gw vreq db).2 <> db ->
   Payments.razorpay_signature vreq
   = Payments.hmac_sha256_hex gw (Payments.key_secret gw)
       (Payments.razorpay_order_id vreq ++ "|" ++ Payments.razorpay_payment_id vreq)%string
   /\ is_Some (orders db !! Payments.orderId vreq)
   /\ is_Some (Payments.payments_fetch gw (Payments.razorpay_payment_id vreq)))
  /\ ((Payments.webhook gw wreq db).2 <> db ->
      Payments.w_signature wreq
      = Some (Payments.hmac_sha256_hex gw (Payments.webhook_secret gw) (Payments.w_body wreq))
      /\ forall name, Payments.w_event wreq <> Payments.other_event name).
Proof.
  split.
  - unfold Payments.verify.
    destruct (String.eqb_spec
                (Payments.hmac_sha256_hex gw (Payments.key_secret gw)
                   (Payments.razorpay_order_id vreq ++ "|" ++ Payments.razorpay_payment_id vreq))
                (Payments.razorpay_signature vreq)) as [Heq|Hne]; [|simpl; congruence].
    simpl negb. cbv iota.
    destruct (orders db !! _) as [order|]; [|simpl; congruence].
    destruct (Payments.payments_fetch gw _) as [method|]; [|simpl; congruence].
    intros _. repeat split; eauto.
  - unfold Payments.webhook.
    destruct (bool_decide _) eqn:Hsig; [|simpl; congruence].
    apply bool_decide_eq_true_1 in Hsig. simpl negb. cbv iota.
    destruct (Payments.w_event wreq); try (intros _; split; [auto|discriminate]).
    simpl. congruence.
Qed.


Lemma webhook_captured_settled gw req db e id order :
  Payments.w_event req = Payments.payment_captured e ->
  Payments.w_signature req
  = Some (Payments.hmac_sha256_hex gw (Payments.webhook_secret gw) (Payments.w_body req)) ->
  orders db !! id = Some order ->
  Order.razorpayOrderId (Order.payment order) = Some (Payments.pe_order_id e) ->
  only_order_of (Payments.pe_order_id e) id (orders db) ->
  Order.pay_status (Order.payment order) = Order.pay_completed ->
  Payments.webhook gw req db = (Success 200 tt, db).
Proof.
  intros He Hsig Hid Hgid Honly Hdone.
  unfold Payments.webhook. rewrite He, Hsig.
  rewrite (bool_decide_eq_true_2 _ eq_refl). simpl negb. cbv iota.
  rewrite (findOne_gateway_order _ _ _ _ Hid Hgid Honly).
  rewrite bool_decide_eq_false_2 by (intros H; now apply H). reflexivity.
Qed.

(** X10: A payment.captured webhook delivered a second time changes nothing:
    the second call answers 200 and returns the database the first call
    left. *)
Theorem webhook_captured_is_idempotent (gw : Payments.Gateway)
    (req req' : Payments.WebhookReq) (db : DB) (e : Payments.PaymentEntity)
    (id : ObjectId) (order : Order.t) :
  Payments.w_event req = Payments.payment_captured e ->
  Payments.w_event req' = Payments.payment_captured e ->
  Payments.w_signature req
  = Some (Payments.hmac_sha256_hex gw (Payments.webhook_secret gw) (Payments.w_body req)) ->
  Payments.w_signature req'
  = Some (Payments.hmac_sha256_hex gw (Payments.webhook_secret gw) (Payments.w_body req')) ->
  orders db !! id = Some order ->
  Order.razorpayOrderId (Order.payment order) = Some (Payments.pe_order_id e) ->
  only_order_of (Payments.pe_order_id e) id (orders db) ->
  stored_ok order ->
  Payments.webhook gw req' (Payments.webhook gw req db).2
  = (Success 200 tt, (Payments.webhook gw req db).2).
Proof.
  intros He He' Hsig Hsig' Hid Hgid Honly Hstored.
  destruct (decide (Order.pay_status (Order.payment order) = Order.pay_completed))
    as [Hdone|Hpending].
  - rewrite (webhook_captured_settled gw req db e id order) by assumption.
    simpl. now apply (webhook_captured_settled gw req' db e id order).
  - assert (Hfirst : (Payments.webhook gw req db).2
                     = set_orders (<[id := Payments.captured e (Payments.w_now req) order]>
                                     (orders db)) db).
    { unfold Payments.webhook. rewrite He, Hsig.
      rewrite (bool_decide_eq_true_2 _ eq_refl). simpl negb. cbv iota.
      rewrite (findOne_gateway_order _ _ _ _ Hid Hgid Honly).
      rewrite (bool_decide_eq_true_2 _ Hpending).
      unfold Payments.save_to, Payments.captured.
      rewrite save_order_stored; [reflexivity|auto with stored|eauto]. }
    rewrite Hfirst.
    apply (webhook_captured_settled gw req' _ e id
             (Payments.captured e (Payments.w_now req) order)); auto.
    + cbn [orders set_orders]. apply lookup_insert_eq.
    + cbn [orders set_orders]. now apply only_order_of_insert.
Qed.

Lemma pre_save_fields now count o :
  Order.status (Order.pre_save now count o) = Order.status o
  /\ Order.items (Order.pre_save now count o) = Order.items o
  /\ Order.user (Order.pre_save now count o) = Order.user o
  /\ Order.totalAmount (Order.pre_save now count o) = Order.totalAmount o
  /\ Order.shippingAddress (Order.pre_save now count o) = Order.shippingAddress o
  /\ Order.payment (Order.pre_save now count o) = Order.payment o
  /\ Order.statusHistory (Order.pre_save now count o) = Order.statusHistory o.
Proof. unfold Order.pre_save. destruct (truthy _); repeat split; reflexivity. Qed.

Lemma save_to_keeps now id (o old : Order.t) db :
  orders db !! id = Some old ->
  Order.status o = Order.status old -> Order.items o = Order.items old ->
  forall j b, orders db !! j = Some b ->
    exists b', orders (Payments.save_to now id o db).2 !! j = Some b'
               /\ Order.status b' = Order.status b /\ Order.items b' = Order.items b.
Proof.
  intros Hold Hst Hit j b Hj. unfold Payments.save_to.
  destruct (save_order _ _ _ _) eqn:Hsave; [|simpl; eauto].
  apply save_order_saved in Hsave as (_ & -> & ->). cbn [snd orders set_orders].
  destruct (decide (j = id)) as [->|Hne].
  - rewrite lookup_insert_eq. eexists. split; [reflexivity|].
    destruct (pre_save_fields now (Z.of_nat (size (orders db))) o) as (-> & -> & _).
    rewrite Hold in Hj. injection Hj as <-. auto.
  - rewrite lookup_insert_ne by auto. eauto.
Qed.

(** X11: A webhook whose event is not payment.captured leaves the status and
    the items of every stored order as they were, and drops no order. *)
Theorem webhook_changes_status_only_on_capture (gw : Payments.Gateway)
    (req : Payments.WebhookReq) (db : DB) :
  (forall e, Payments.w_event req <> Payments.payment_captured e) ->
  forall id o, orders db !! id = Some o ->
    exists o', orders (Payments.webhook gw req db).2 !! id = Some o'
               /\ Order.status o' = Order.status o
               /\ Order.items o' = Order.items o.
Proof.
  intros Hnot id o Hid. unfold Payments.webhook.
  destruct (negb _); [simpl; eauto|].
  destruct (Payments.w_event req) as [e|e|e|name]; [now destruct (Hnot e)| | |simpl; eauto].
  - destruct (findOne _ _) as [[k found]|] eqn:Hfind; [|simpl; eauto].
    apply findOne_Some in Hfind as [Hk _].
    eapply save_to_keeps; eauto.
  - destruct (findOne _ _) as [[k found]|] eqn:Hfind; [|simpl; eauto].
    apply findOne_Some in Hfind as [Hk _].
    eapply save_to_keeps; eauto.
Qed.

(** X12: The create-order route, called by the owner of a stored order,
    answers 400 with the database unchanged when the payment is completed.
    Otherwise it asks the gateway for an order of the total in paise: when
    the gateway returns one, the route answers 200 with the id and the
    amount of the gateway's reply and stores the order with the gateway
    order id on its payment record and every other field as it was; when
    the gateway call throws, the route answers 500 and writes nothing. *)
Theorem create_payment_refuses_paid_order (gw : Payments.Gateway)
    (req : Payments.CreateOrderReq) (db : DB) (order : Order.t) :
  orders db !! Payments.co_orderId req = Some order ->
  Order.user order = user_id (Payments.co_user req) ->
  stored_ok order ->
  (Order.pay_status (Order.payment order) = Order.pay_completed ->
   Payments.createOrder gw req db = (Failure 400 "Order already paid", db))
  /\ (Order.pay_status (Order.payment order) <> Order.pay_completed ->
      forall gid amount,
        Payments.orders_create gw (Order.totalAmount order * 100) (Order.orderNumber order)
        = Some (gid, amount) ->
        Payments.createOrder gw req db
        = (Success 200 (gid, amount),
           set_orders
             (<[Payments.co_orderId req :=
                  Order.mk (Order.user order) (Order.orderNumber order) (Order.items order)
                    (Order.shippingAddress order) (Order.status order)
                    (Order.mkPayment (Some gid)
                       (Order.razorpayPaymentId (Order.payment order))
                       (Order.razorpaySignature (Order.payment order))
                       (Order.method (Order.payment order))
                       (Order.pay_status (Order.payment order))
                       (Order.paidAt (Order.payment order)))
                    (Order.delivery order) (Order.totalAmount order)
                    (Order.statusHistory order) (Order.cancellationReason order)]>
                (orders db)) db))
  /\ (Order.pay_status (Order.payment order) <> Order.pay_completed ->
      Payments.orders_create gw (Order.totalAmount order * 100) (Order.orderNumber order)
      = None ->
      exists m, Payments.createOrder gw req db = (Failure 500 m, db)).
Proof.
  intros Hfound Howner Hstored. split; [|split].
  - intros Hpaid. unfold Payments.createOrder.
    rewrite Hfound, (bool_decide_eq_true_2 _ Howner), (bool_decide_eq_true_2 _ Hpaid).
    reflexivity.
  - intros Hpending gid amount Hgw. unfold Payments.createOrder.
    rewrite Hfound, (bool_decide_eq_true_2 _ Howner), (bool_decide_eq_false_2 _ Hpending).
    simpl negb. cbv iota. rewrite Hgw.
    rewrite save_order_stored; [|auto with stored|eauto].
    reflexivity.
  - intros Hpending Hgw. unfold Payments.createOrder.
    rewrite Hfound, (bool_decide_eq_true_2 _ Howner), (bool_decide_eq_false_2 _ Hpending).
    simpl negb. cbv iota. rewrite Hgw. eauto.
Qed.

(** X13: After a successful create-order, a payment.captured webhook that
    carries the returned gateway order id marks that order paid, with
    payment status completed, the payment id and the time of the webhook,
    and leaves the products as they were. *)
Theorem captured_webhook_pays_created_payment (gw : Payments.Gateway)
    (req : Payments.CreateOrderReq) (hook : Payments.WebhookReq) (db db1 : DB)
    (gid : string) (amount : Z) (e : Payments.PaymentEntity) :
  Payments.createOrder gw req db = (Success 200 (gid, amount), db1) ->
  (forall j b, orders db !! j = Some b -> j <> Payments.co_orderId req ->
     Order.razorpayOrderId (Order.payment b) <> Some gid) ->
  Payments.w_event hook = Payments.payment_captured e ->
  Payments.pe_order_id e = gid ->
  Payments.w_signature hook
  = Some (Payments.hmac_sha256_hex gw (Payments.webhook_secret gw) (Payments.w_body hook)) ->
  exists o2,
    orders (Payments.webhook gw hook db1).2 !! Payments.co_orderId req = Some o2
    /\ Order.status o2 = Order.paid
    /\ Order.pay_status (Order.payment o2) = Order.pay_completed
    /\ Order.razorpayOrderId (Order.payment o2) = Some gid
    /\ Order.razorpayPaymentId (Order.payment o2) = Some (Payments.pe_id e)
    /\ Order.paidAt (Order.payment o2) = Some (Payments.w_now hook)
    /\ products (Payments.webhook gw hook db1).2 = products db.
Proof.
  intros Hcreate Hothers He Hgid Hsig.
  unfold Payments.createOrder in Hcreate.
  destruct (orders db !! Payments.co_orderId req) as [order|] eqn:Hfound; [|discriminate].
  destruct (negb _); [discriminate|].
  destruct (bool_decide _) eqn:Hpaid; [discriminate|].
  apply bool_decide_eq_false_1 in Hpaid.
  destruct (Payments.orders_create gw _ _) as [[g a]|]; [|discriminate].
  destruct (save_order _ _ _ _) eqn:Hsave; [|discriminate].
  injection Hcreate as -> <- <-.
  apply save_order_saved in Hsave as (Hstored & -> & Ho).
  set (id := Payments.co_orderId req) in *.
  assert (Hfields : Order.razorpayOrderId (Order.payment o) = Some gid
                    /\ Order.pay_status (Order.payment o)
                       = Order.pay_status (Order.payment order)).
  { rewrite Ho. destruct (pre_save_fields (Payments.co_now req)
                            (Z.of_nat (size (orders db)))
                            (Order.set_payment
                               (Order.mkPayment (Some gid)
                                  (Order.razorpayPaymentId (Order.payment order))
                                  (Order.razorpaySignature (Order.payment order))
                                  (Order.method (Order.payment order))
                                  (Order.pay_status (Order.payment order))
                                  (Order.paidAt (Order.payment order))) order))
      as (_ & _ & _ & _ & _ & -> & _). auto. }
  destruct Hfields as [Hg Hst].
  assert (Honly : only_order_of gid id (<[id := o]> (orders db))).
  { intros j b Hj Hb. destruct (decide (j = id)) as [|Hne]; [assumption|].
    rewrite lookup_insert_ne in Hj by auto. now destruct (Hothers j b Hj Hne). }
  unfold Payments.webhook. rewrite He, Hsig.
  rewrite (bool_decide_eq_true_2 _ eq_refl). simpl negb. cbv iota.
  cbn [orders set_orders]. rewrite Hgid.
  rewrite (findOne_gateway_order gid id _ o (lookup_insert_eq _ _ _) Hg Honly).
  rewrite bool_decide_eq_true_2 by congruence.
  unfold Payments.save_to, Payments.captured. cbn [orders set_orders].
  rewrite save_order_stored;
    [|auto with stored|rewrite lookup_insert_eq; eauto].
  cbn [snd orders products set_orders]. rewrite lookup_insert_eq.
  eexists. split; [reflexivity|]. simpl. repeat split; auto.
Qed.

(** X14: The refund route never writes a product.  For an admin, a stored
    order with a payment id and a gateway that grants the refund, it sets
    payment status refunded and order status cancelled with one history
    entry, so the units of the order are not released; without a payment id
    it answers 400 and writes nothing. *)
Theorem refund_cancels_without_release (gw : Payments.Gateway) (req : Payments.RefundReq)
    (db : DB) :
  products (Payments.refund gw req db).2 = products db
  /\ (forall order paymentId r,
        adminOnly (Payments.rf_user req) = true ->
        orders db !! Payments.rf_orderId req = Some order ->
        stored_ok order ->
        Order.razorpayPaymentId (Order.payment order) = Some paymentId ->
        paymentId <> ""%string ->
        Payments.payments_refund gw paymentId (Payments.refundAmount (Payments.rf_amount req) order)
        = Some r ->
        exists o',
          (Payments.refund gw req db).2
          = set_orders (<[Payments.rf_orderId req := o']> (orders db)) db
          /\ code_of (Payments.refund gw req db).1 = 200
          /\ Order.status o' = Order.cancelled
          /\ Order.pay_status (Order.payment o') = Order.refunded
          /\ Order.razorpayPaymentId (Order.payment o') = Some paymentId
          /\ Order.items o' = Order.items order
          /\ exists note,
               Order.statusHistory o'
               = Order.statusHistory order
                 ++ [Order.mkHistory "cancelled" (Payments.rf_now req) (Some note)
                       (Some (user_id (Payments.rf_user req)))])
  /\ (forall order,
        adminOnly (Payments.rf_user req) = true ->
        orders db !! Payments.rf_orderId req = Some order ->
        truthy (Order.razorpayPaymentId (Order.payment order)) = false ->
        Payments.refund gw req db = (Failure 400 "No payment to refund", db)).
Proof.
  split; [|split].
  - unfold Payments.refund.
    repeat (match goal with |- context [match ?x with _ => _ end] => destruct x end;
            try reflexivity).
  - intros order paymentId r Hadmin Hfound Hstored Hpid Hne Hgw.
    unfold Payments.refund. rewrite Hadmin, Hfound, Hpid. simpl negb. cbv iota.
    destruct (String.eqb_spec paymentId ""); [contradiction|].
    rewrite Hgw. rewrite save_order_stored; [|auto with stored|eauto].
    eexists. split; [reflexivity|]. repeat split; try reflexivity; try assumption.
    eexists. reflexivity.
  - intros order Hadmin Hfound Hfalsy.
    unfold Payments.refund. rewrite Hadmin, Hfound. simpl negb. cbv iota.
    destruct (Order.razorpayPaymentId (Order.payment order)) as [pid|]; [|reflexivity].
    simpl in Hfalsy. apply negb_false_iff in Hfalsy. now rewrite Hfalsy.
Qed.

Lemma one_delivery_rewrite (ds : gmap N Delivery.t) id d d' :
  one_delivery_per_order ds -> ds !! id = Some d ->
  Delivery.order d' = Delivery.order d ->
  one_delivery_per_order (<[id := d']> ds).
Proof.
  intros Hone Hid Hord i j di dj Hi Hj Heq.
  destruct (decide (i = id)) as [->|Hi'], (decide (j = id)) as [->|Hj']; auto.
  - rewrite lookup_insert_eq in Hi. rewrite lookup_insert_ne in Hj by auto.
    injection Hi as <-. apply (Hone id j d dj); congruence.
  - rewrite lookup_insert_eq in Hj. rewrite lookup_insert_ne in Hi by auto.
    injection Hj as <-. apply (Hone i id di d); congruence.
  - rewrite lookup_insert_ne in Hi, Hj by auto. eauto.
Qed.

Lemma one_delivery_new (ds : gmap N Delivery.t) d' :
  one_delivery_per_order ds ->
  (forall k d, ds !! k = Some d -> Delivery.order d <> Delivery.order d') ->
  one_delivery_per_order (<[fresh (dom ds) := d']> ds).
Proof.
  intros Hone Hnew i j di dj Hi Hj Heq.
  destruct (decide (i = fresh (dom ds))) as [->|Hi'],
           (decide (j = fresh (dom ds))) as [->|Hj']; auto.
  - rewrite lookup_insert_eq in Hi. rewrite lookup_insert_ne in Hj by auto.
    injection Hi as <-. destruct (Hnew j dj Hj). congruence.
  - rewrite lookup_insert_eq in Hj. rewrite lookup_insert_ne in Hi by auto.
    injection Hj as <-. destruct (Hnew i di Hi). congruence.
  - rewrite lookup_insert_ne in Hi, Hj by auto. eauto.
Qed.

Lemma deliveries_after_status req db :
  deliveries (Deliveries.updateStatus req db).2 = deliveries db
  \/ exists d d',
       deliveries db !! Deliveries.d_id req = Some d
       /\ Delivery.order d' = Delivery.order d
       /\ deliveries (Deliveries.updateStatus req db).2
          = <[Deliveries.d_id req := d']> (deliveries db).
Proof.
  unfold Deliveries.updateStatus.
  destruct (negb _); [left; reflexivity|].
  destruct (Delivery.parse_status _) as [status|]; [|left; reflexivity].
  destruct (deliveries db !! _) as [d|] eqn:Hd; [|left; reflexivity].
  destruct (Deliveries.foreign_partner _ _); [left; reflexivity|].
  destruct (orders db !! _).
  - destruct (save_order _ _ _ _); [|left; reflexivity].
    right. exists d. eexists. split; [reflexivity|]. split; [|reflexivity].
    now rewrite order_stamp_if_delivered.
  - right. exists d. eexists. split; [reflexivity|]. split; [|reflexivity]. reflexivity.
Qed.

Lemma deliveries_after_confirm req db :
  deliveries (Deliveries.confirm req db).2 = deliveries db
  \/ exists d d',
       deliveries db !! Deliveries.f_id req = Some d
       /\ Delivery.order d' = Delivery.order d
       /\ deliveries (Deliveries.confirm req db).2
          = <[Deliveries.f_id req := d']> (deliveries db).
Proof.
  unfold Deliveries.confirm.
  destruct (negb _); [left; reflexivity|].
  destruct (deliveries db !! _) as [d|] eqn:Hd; [|left; reflexivity].
  destruct (Deliveries.foreign_partner _ _); [left; reflexivity|].
  right. exists d. eexists. split; [reflexivity|].
  cbn [orders set_deliveries].
  destruct (orders db !! _); [destruct (save_order _ _ _ _)|];
    (split; [|reflexivity]); reflexivity.
Qed.

Lemma assigned_delivery_cases req partnerId order db id d' :
  Deliveries.assigned_delivery req partnerId order db = Some (id, d') ->
  (exists d, deliveries db !! id = Some d
             /\ Delivery.order d = Deliveries.as_orderId req
             /\ Delivery.order d' = Delivery.order d)
  \/ (id = fresh (dom (deliveries db))
      /\ (forall k d, deliveries db !! k = Some d ->
            Delivery.order d <> Deliveries.as_orderId req)
      /\ Delivery.order d' = Deliveries.as_orderId req).
Proof.
  unfold Deliveries.assigned_delivery.
  destruct (findOne _ _) as [[k d]|] eqn:Hfind.
  - apply findOne_Some in Hfind as [Hk Hord]. apply bool_decide_eq_true_1 in Hord.
    intros H. left. exists d.
    destruct (Deliveries.as_pickupAddress req) as [[s|ad]|]; simpl in H;
      [destruct (String.eqb s ""); [|discriminate]| |];
      injection H as <- <-; auto.
  - intros H. injection H as <- <-. right. split; [reflexivity|]. split; [|reflexivity].
    intros k d Hk. pose proof (findOne_None _ _ Hfind k d Hk) as Hnone.
    now apply bool_decide_eq_false_1 in Hnone.
Qed.

(** X15: The assign, status and confirm routes of the delivery router keep
    the invariant that no two stored deliveries refer to the same order. *)
Theorem delivery_routes_keep_one_delivery_per_order (db : DB)
    (a : Deliveries.AssignReq) (s : Deliveries.StatusReq) (c : Deliveries.ConfirmReq) :
  one_delivery_per_order (deliveries db) ->
  one_delivery_per_order (deliveries (Deliveries.assign a db).2)
  /\ one_delivery_per_order (deliveries (Deliveries.updateStatus s db).2)
  /\ one_delivery_per_order (deliveries (Deliveries.confirm c db).2).
Proof.
  intros Hone. split; [|split].
  - unfold Deliveries.assign.
    destruct (negb _); [exact Hone|].
    destruct (orders db !! _) as [order|]; [|exact Hone].
    destruct (Deliveries.as_partnerId a) as [partnerId|]; [|exact Hone].
    destruct (Deliveries.assigned_delivery a partnerId order db) as [[id d']|] eqn:Hdoc;
      [|exact Hone].
    assert (Hres : one_delivery_per_order (<[id := d']> (deliveries db))).
    { apply assigned_delivery_cases in Hdoc
        as [(d & Hid & _ & Hord)|(-> & Hnone & Hord)].
      - eapply one_delivery_rewrite; eauto.
      - apply one_delivery_new; [assumption|].
        intros k d Hk. rewrite Hord. eauto. }
    destruct (save_order _ _ _ _); exact Hres.
  - destruct (deliveries_after_status s db) as [->|(d & d' & Hd & Hord & ->)];
      [assumption|]. eapply one_delivery_rewrite; eauto.
  - destruct (deliveries_after_confirm c db) as [->|(d & d' & Hd & Hord & ->)];
      [assumption|]. eapply one_delivery_rewrite; eauto.
Qed.

(** X16: The status and confirm routes change the database only for a stored
    delivery, and, when the caller is a delivery partner, only for one
    assigned to that caller; the status route also only for a status of the
    enumeration. *)
Theorem delivery_partner_touches_own_deliveries_only (db : DB)
    (s : Deliveries.StatusReq) (c : Deliveries.ConfirmReq) :
  ((Deliveries.updateStatus s db).2 <> db ->
   exists d, deliveries db !! Deliveries.d_id s = Some d
             /\ (role (Deliveries.d_user s) = delivery_partner ->
                 Delivery.partner d = user_id (Deliveries.d_user s))
             /\ is_Some (Delivery.parse_status (Deliveries.d_status s)))
  /\ ((Deliveries.confirm c db).2 <> db ->
      exists d, deliveries db !! Deliveries.f_id c = Some d
                /\ (role (Deliveries.f_user c) = delivery_partner ->
                    Delivery.partner d = user_id (Deliveries.f_user c))).
Proof.
  assert (Hown : forall u d, Deliveries.foreign_partner u d = false ->
                   role u = delivery_partner -> Delivery.partner d = user_id u).
  { intros u d Hf Hrole. unfold Deliveries.foreign_partner in Hf.
    rewrite (bool_decide_eq_true_2 _ Hrole) in Hf. simpl in Hf.
    apply negb_false_iff, bool_decide_eq_true_1 in Hf. exact Hf. }
  split.
  - unfold Deliveries.updateStatus.
    destruct (negb _); [simpl; congruence|].
    destruct (Delivery.parse_status _) as [status|]; [|simpl; congruence].
    destruct (deliveries db !! _) as [d|] eqn:Hd; [|simpl; congruence].
    destruct (Deliveries.foreign_partner _ _) eqn:Hf; [simpl; congruence|].
    intros _. exists d. repeat split; eauto.
  - unfold Deliveries.confirm.
    destruct (negb _); [simpl; congruence|].
    destruct (deliveries db !! _) as [d|] eqn:Hd; [|simpl; congruence].
    destruct (Deliveries.foreign_partner _ _) eqn:Hf; [simpl; congruence|].
    intros _. exists d. split; eauto.
Qed.

(** X17: When the order of a delivery is not stored, the status route still
    answers 200 and writes the delivery only: the status is set and one
    history entry appended, and every other field is as it was, so that
    actualDeliveryDate is not stamped even for status delivered. *)
Theorem orphan_delivery_status_update (req : Deliveries.StatusReq) (db : DB)
    (delivery : Delivery.t) (status : Delivery.Status) :
  deliveryAccess (Deliveries.d_user req) = true ->
  Deliveries.foreign_partner (Deliveries.d_user req) delivery = false ->
  deliveries db !! Deliveries.d_id req = Some delivery ->
  orders db !! Delivery.order delivery = None ->
  Delivery.parse_status (Deliveries.d_status req) = Some status ->
  let d' :=
    Delivery.mk (Delivery.order delivery) (Delivery.partner delivery) status
      (Delivery.estimatedDate delivery) (Delivery.actualDeliveryDate delivery)
      (Delivery.pickupAddress delivery) (Delivery.deliveryAddress delivery)
      (Delivery.notes delivery) (Delivery.customerSignature delivery)
      (Delivery.proofOfDelivery delivery)
      (Delivery.statusHistory delivery
       ++ [Delivery.mkHistory (Deliveries.d_status req) (Deliveries.d_location req)
             (Deliveries.d_note req) (Deliveries.d_now req)])
      (Delivery.failureReason delivery) (Delivery.attempts delivery) in
  Deliveries.updateStatus req db
  = (Success 200 d', set_deliveries (<[Deliveries.d_id req := d']> (deliveries db)) db).
Proof.
  intros Haccess Hown Hdel Hord Hparse d'.
  unfold Deliveries.updateStatus.
  rewrite Haccess, Hparse, Hdel, Hown. simpl negb. cbv iota.
  cbn [Delivery.order Delivery.push_history Delivery.set_status].
  rewrite Hord. reflexivity.
Qed.

(** X18: The assign route, for an admin and a stored order.  Without a
    partner id it answers 500 and writes nothing.  With one, and no delivery
    stored for the order, it creates the delivery under an unused id:
    status assigned, partner, estimated date, the pickup address when the
    body gives an object, the order's shipping address, one history entry.
    With a delivery stored for the order it replaces partner and estimated
    date, and the pickup address when the body gives an object, leaving
    every other field; a non-empty string as pickup address answers 500 and
    writes nothing.  On success the order is stored with its delivery
    summary rewritten to partner and estimated date and every other field
    as it was. *)
Theorem delivery_assign_creates_or_updates (req : Deliveries.AssignReq) (db : DB)
    (order : Order.t) :
  adminOnly (Deliveries.as_user req) = true ->
  orders db !! Deliveries.as_orderId req = Some order ->
  stored_ok order ->
  (Deliveries.as_partnerId req = None ->
   exists m, Deliveries.assign req db = (Failure 500 m, db))
  /\ forall partnerId, Deliveries.as_partnerId req = Some partnerId ->
       let o' :=
         Order.mk (Order.user order) (Order.orderNumber order) (Order.items order)
           (Order.shippingAddress order) (Order.status order) (Order.payment order)
           (Order.mkDeliveryInfo (Some partnerId) (Deliveries.as_estimatedDate req) None None)
           (Order.totalAmount order) (Order.statusHistory order)
           (Order.cancellationReason order) in
       ((forall k d, deliveries db !! k = Some d ->
           Delivery.order d <> Deliveries.as_orderId req) ->
        let d' :=
          Delivery.mk (Deliveries.as_orderId req) partnerId Delivery.assigned
            (Deliveries.as_estimatedDate req) None
            (match Deliveries.as_pickupAddress req with
             | Some (Deliveries.pickup_object a) => a
             | _ => Delivery.mkAddress None None None None
             end)
            (Delivery.mkAddress (Some (Order.street (Order.shippingAddress order)))
               (Some (Order.city (Order.shippingAddress order)))
               (Some (Order.state (Order.shippingAddress order)))
               (Some (Order.pincode (Order.shippingAddress order))))
            None None None
            [Delivery.mkHistory "assigned" None (Some "Delivery assigned"%string)
               (Deliveries.as_now req)]
            None 0 in
        deliveries db !! fresh (dom (deliveries db)) = None
        /\ Deliveries.assign req db
           = (Success 200 d',
              set_orders (<[Deliveries.as_orderId req := o']> (orders db))
                (set_deliveries (<[fresh (dom (deliveries db)) := d']> (deliveries db)) db)))
       /\ (forall k d,
             one_delivery_per_order (deliveries db) ->
             deliveries db !! k = Some d ->
             Delivery.order d = Deliveries.as_orderId req ->
             (forall s, Deliveries.as_pickupAddress req = Some (Deliveries.pickup_text s) ->
                s <> ""%string ->
                exists m, Deliveries.assign req db = (Failure 500 m, db))
             /\ ((forall s, Deliveries.as_pickupAddress req = Some (Deliveries.pickup_text s) ->
                    s = ""%string) ->
                 let d' :=
                   Delivery.mk (Delivery.order d) partnerId (Delivery.status d)
                     (Deliveries.as_estimatedDate req) (Delivery.actualDeliveryDate d)
                     (match Deliveries.as_pickupAddress req with
                      | Some (Deliveries.pickup_object a) => a
                      | _ => Delivery.pickupAddress d
                      end)
                     (Delivery.deliveryAddress d) (Delivery.notes d)
                     (Delivery.customerSignature d) (Delivery.proofOfDelivery d)
                     (Delivery.statusHistory d) (Delivery.failureReason d)
                     (Delivery.attempts d) in
                 Deliveries.assign req db
                 = (Success 200 d',
                    set_orders (<[Deliveries.as_orderId req := o']> (orders db))
                      (set_deliveries (<[k := d']> (deliveries db)) db)))).
Proof.
  intros Hadmin Hfound Hstored. split.
  { intros Hnone. unfold Deliveries.assign.
    rewrite Hadmin, Hfound, Hnone. simpl. eauto. }
  intros partnerId Hpartner o'. split.
  - intros Hfree d'. split; [apply not_elem_of_dom, is_fresh|].
    unfold Deliveries.assign, Deliveries.assigned_delivery.
    rewrite Hadmin, Hfound, Hpartner. simpl negb. cbv iota.
    destruct (findOne _ _) as [[k d]|] eqn:Hfind.
    { apply findOne_Some in Hfind as [Hk Hord]. apply bool_decide_eq_true_1 in Hord.
      now destruct (Hfree k d Hk). }
    cbn [orders set_deliveries].
    rewrite save_order_stored; [|auto with stored|eauto].
    subst d' o'. unfold Deliveries.pickup_of_new.
    destruct (Deliveries.as_pickupAddress req) as [[s|ad]|]; reflexivity.
  - intros k d Hone Hk Hord.
    assert (Hfind : findOne (fun d0 => bool_decide (Delivery.order d0 = Deliveries.as_orderId req))
                            (deliveries db) = Some (k, d)).
    { apply findOne_unique; [assumption|now apply bool_decide_eq_true_2|].
      intros j b Hj Hb. apply bool_decide_eq_true_1 in Hb.
      apply (Hone j k b d); congruence. }
    split.
    + intros s Hs Hne. unfold Deliveries.assign, Deliveries.assigned_delivery.
      rewrite Hadmin, Hfound, Hpartner, Hfind, Hs. simpl.
      destruct (String.eqb_spec s ""); [contradiction|]. eauto.
    + intros Htext d'. unfold Deliveries.assign, Deliveries.assigned_delivery.
      rewrite Hadmin, Hfound, Hpartner, Hfind. simpl negb. cbv iota.
      subst d' o'.
      destruct (Deliveries.as_pickupAddress req) as [[s|ad]|] eqn:Hp; simpl.
      * rewrite (Htext s eq_refl). simpl.
        rewrite save_order_stored; [|auto with stored|eauto]. reflexivity.
      * rewrite save_order_stored; [|auto with stored|eauto]. reflexivity.
      * rewrite save_order_stored; [|auto with stored|eauto]. reflexivity.
Qed.

Lemma findOne_is_Some {A} (f : A -> bool) (m : gmap N A) k a :
  m !! k = Some a -> f a = true -> is_Some (findOne f m).
Proof.
  intros Hk Hf. destruct (findOne f m) eqn:Hfind; [eauto|].
  rewrite (findOne_None _ _ Hfind k a Hk) in Hf. discriminate.
Qed.

Lemma filter_Permutation {A} (f : A -> bool) (l l' : list A) :
  l ≡ₚ l' -> List.filter f l ≡ₚ List.filter f l'.
Proof.
  induction 1 as [|x l l' _ IH|x y l|l l' l'' _ IH1 _ IH2]; simpl.
  - reflexivity.
  - destruct (f x); [now constructor|assumption].
  - destruct (f x), (f y); try reflexivity. apply perm_swap.
  - now transitivity (List.filter f l').
Qed.

Lemma find_all_insert_fresh {A} (f : A -> bool) (m : gmap N A) k v :
  m !! k = None ->
  find_all f (<[k := v]> m) ≡ₚ (if f v then [v] else []) ++ find_all f m.
Proof.
  intros Hk. unfold find_all.
  rewrite (filter_Permutation f _ (v :: (map_to_list m).*2)).
  - simpl. destruct (f v); reflexivity.
  - rewrite (map_to_list_insert m k v Hk). reflexivity.
Qed.

Lemma find_all_elem {A} (f : A -> bool) (m : gmap N A) a :
  a ∈ find_all f m <-> (exists k, m !! k = Some a) /\ f a = true.
Proof.
  unfold find_all. rewrite list_elem_of_In, filter_In, <- list_elem_of_In, list_elem_of_fmap.
  split.
  - intros [([k b] & -> & Hin) Hf]. apply elem_of_map_to_list in Hin. eauto.
  - intros [[k Hk] Hf]. split; [|assumption].
    exists (k, a). split; [reflexivity|]. now apply elem_of_map_to_list.
Qed.

Lemma find_all_nil {A} (f : A -> bool) (m : gmap N A) :
  (forall k a, m !! k = Some a -> f a = false) -> find_all f m = [].
Proof.
  intros Hnone. destruct (find_all f m) as [|a l] eqn:Hl; [reflexivity|].
  assert (Hin : a ∈ find_all f m) by (rewrite Hl; left).
  apply find_all_elem in Hin as [[k Hk] Hf]. rewrite (Hnone k a Hk) in Hf. discriminate.
Qed.

Lemma round1_single_whole_rating (r : Review.t) k :
  Review.rating r = inject_Z k -> 1 <= k <= 5 ->
  exists q, Reviews.round1 (Reviews.average [r]) = Reviews.Fin q /\ (q == inject_Z k)%Q.
Proof.
  intros Hr Hk. unfold Reviews.average, Reviews.round1, Reviews.sum_ratings. simpl.
  rewrite Hr. eexists. split; [reflexivity|].
  assert (Hcases : k = 1 \/ k = 2 \/ k = 3 \/ k = 4 \/ k = 5) by lia.
  destruct Hcases as [->|[->|[->|[->| ->]]]]; vm_compute; reflexivity.
Qed.

Lemma findOne_none_intro {A} (f : A -> bool) (m : gmap N A) :
  (forall k a, m !! k = Some a -> f a = false) -> findOne f m = None.
Proof.
  intros Hnone. destruct (findOne f m) as [[k a]|] eqn:Hfind; [|reflexivity].
  apply findOne_Some in Hfind as [Hk Hf]. rewrite (Hnone k a Hk) in Hf. discriminate.
Qed.

Lemma whole_rating_valid k :
  1 <= k <= 5 -> Qle_bool 1 (inject_Z k) && Qle_bool (inject_Z k) 5 = true.
Proof.
  intros Hk. apply andb_true_intro. split; apply Qle_bool_iff.
  - change 1%Q with (inject_Z 1). rewrite <- Zle_Qle. lia.
  - change 5%Q with (inject_Z 5). rewrite <- Zle_Qle. lia.
Qed.

Lemma create_as_product req db :
  asks_product_review req -> Reviews.create req db = Reviews.create_product_review req db.
Proof. intros [H|H]; unfold Reviews.create; rewrite H; reflexivity. Qed.

(** X19: The first review of a product, with a whole rating from 1 to 5 and a
    comment, answers 201, is stored approved under an unused id, and sets
    the product's ratings to count 1 and average equal to the rating,
    leaving the stock counters. *)
Theorem first_review_sets_product_rating (req : Reviews.CreateReq) (db : DB)
    (pid : ObjectId) (p : Product.t) (k : Z) (c : string) :
  asks_product_review req ->
  Reviews.r_productId req = Some pid ->
  products db !! pid = Some p ->
  (forall j r, reviews db !! j = Some r ->
     reviewed_by pid (user_id (Reviews.r_user req)) r = false) ->
  (forall j r, reviews db !! j = Some r -> Reviews.approved_for_product pid r = false) ->
  Reviews.r_rating req = Some (inject_Z k) -> 1 <= k <= 5 ->
  Reviews.r_comment req = Some c -> c <> ""%string ->
  exists review db',
    Reviews.create req db = (Success 201 review, db')
    /\ reviews db' = <[fresh (dom (reviews db)) := review]> (reviews db)
    /\ Review.rating review = inject_Z k
    /\ Review.isApproved review = true
    /\ Review.user review = user_id (Reviews.r_user req)
    /\ exists p',
         products db' !! pid = Some p'
         /\ Product.ratings_count p' = 1
         /\ (Product.ratings_average p' == inject_Z k)%Q
         /\ Product.stock p' = Product.stock p
         /\ Product.reservedStock p' = Product.reservedStock p.
Proof.
  intros Hty Hpid Hp Hnodup Hnone Hrating Hk Hcomment Hc.
  rewrite (create_as_product _ _ Hty). unfold Reviews.create_product_review.
  rewrite Hpid. simpl. rewrite Hp. simpl.
  erewrite findOne_none_intro by exact Hnodup.
  rewrite Hrating, Hcomment. unfold Reviews.review_doc.
  match goal with |- context [Reviews.create_review (Some ?r) db] => set (review := r) end.
  unfold Reviews.create_review.
  assert (Hvalid : Review.valid review = true).
  { unfold Review.valid. subst review.
    cbn [Review.rating Review.comment Review.type Review.product].
    rewrite (whole_rating_valid k Hk).
    destruct (String.eqb_spec c ""); [contradiction|]. simpl.
    first [reflexivity | apply bool_decide_eq_true_2; eauto]. }
  rewrite Hvalid. cbn [reviews set_reviews].
  assert (Hlist : find_all (Reviews.approved_for_product pid)
                    (<[fresh (dom (reviews db)) := review]> (reviews db)) = [review]).
  { pose proof (find_all_insert_fresh (Reviews.approved_for_product pid) (reviews db)
                  (fresh (dom (reviews db))) review
                  (proj1 (not_elem_of_dom _ _) (is_fresh _))) as Hperm.
    rewrite (find_all_nil _ _ Hnone), app_nil_r in Hperm.
    assert (Happroved : Reviews.approved_for_product pid review = true).
    { unfold Reviews.approved_for_product. subst review. simpl.
      rewrite !bool_decide_eq_true_2 by reflexivity. reflexivity. }
    rewrite Happroved in Hperm. symmetry in Hperm.
    now apply Permutation_singleton_l in Hperm. }
  rewrite Hlist.
  destruct (round1_single_whole_rating review k eq_refl Hk) as (q & Hq & Hqk).
  rewrite Hq. unfold Reviews.write_product_rating, Reviews.finish.
  eexists _, _. split; [reflexivity|].
  cbn [reviews products set_products set_reviews].
  repeat split; try reflexivity.
  rewrite lookup_alter_eq, Hp. simpl. eexists. split; [reflexivity|].
  simpl. repeat split; auto.
Qed.

Lemma create_product_review_inv req db review db1 :
  Reviews.create_product_review req db = (Success 201 review, db1) ->
  exists pid,
    Reviews.r_productId req = Some pid
    /\ is_Some (products db1 !! pid)
    /\ reviews db1 !! fresh (dom (reviews db)) = Some review
    /\ reviewed_by pid (user_id (Reviews.r_user req)) review = true.
Proof.
  unfold Reviews.create_product_review.
  destruct (Reviews.r_productId req) as [pid|]; [|discriminate]. simpl.
  destruct (products db !! pid) as [p|] eqn:Hp; [|discriminate]. simpl.
  destruct (findOne _ (reviews db)); [discriminate|].
  unfold Reviews.review_doc, Reviews.create_review.
  destruct (Reviews.r_rating req) as [q|]; [|discriminate].
  destruct (Reviews.r_comment req) as [c|]; [|discriminate].
  destruct (Review.valid _); [|discriminate].
  cbn [reviews set_reviews]. unfold Reviews.write_product_rating, Reviews.finish.
  destruct (Reviews.round1 _); [|discriminate].
  intros [= <- <-]. exists pid. split; [reflexivity|].
  cbn [products reviews set_products set_reviews].
  rewrite lookup_alter_eq, Hp, lookup_insert_eq. split; [simpl; eauto|].
  split; [reflexivity|]. unfold reviewed_by. simpl.
  rewrite !bool_decide_eq_true_2 by reflexivity. reflexivity.
Qed.

(** X20: After a user's product review has been created, a second product
    review by the same user for the same product answers 400 and writes
    nothing. *)
Theorem second_product_review_is_refused (req req' : Reviews.CreateReq) (db db1 : DB)
    (review : Review.t) :
  asks_product_review req -> asks_product_review req' ->
  Reviews.create req db = (Success 201 review, db1) ->
  Reviews.r_user req' = Reviews.r_user req ->
  Reviews.r_productId req' = Reviews.r_productId req ->
  Reviews.create req' db1 = (Failure 400 "You have already reviewed this product", db1).
Proof.
  intros Hty Hty' Hcreate Huser Hprod.
  rewrite (create_as_product _ _ Hty) in Hcreate. rewrite (create_as_product _ _ Hty').
  destruct (create_product_review_inv _ _ _ _ Hcreate) as (pid & Hpid & [p Hp] & Hrev & Hby).
  unfold Reviews.create_product_review. rewrite Hprod, Hpid. simpl. rewrite Hp. simpl.
  rewrite Huser.
  destruct (findOne_is_Some (reviewed_by pid (user_id (Reviews.r_user req))) (reviews db1)
              _ _ Hrev Hby) as [found Hfound].
  unfold reviewed_by in Hfound. rewrite Hfound. reflexivity.
Qed.

Lemma find_all_approved pid (rs : gmap N Review.t) :
  find_all (Reviews.approved_for_product pid) rs = approved_product_reviews pid rs.
Proof.
  unfold find_all, approved_product_reviews.
  induction ((map_to_list rs).*2) as [|r l IH]; [reflexivity|].
  simpl. rewrite filter_cons, IH. unfold Reviews.approved_for_product.
  destruct (decide _) as [(Hp & Ha & Ht)|Hno].
  - rewrite (bool_decide_eq_true_2 _ Hp), Ha, (bool_decide_eq_true_2 _ Ht). reflexivity.
  - destruct (bool_decide (Review.product r = Some pid)) eqn:Hp; [|reflexivity].
    destruct (Review.isApproved r) eqn:Ha; [|reflexivity].
    destruct (bool_decide (Review.type r = Review.product_review)) eqn:Ht; [|reflexivity].
    apply bool_decide_eq_true_1 in Hp, Ht. destruct Hno. auto.
Qed.

Lemma sum_ratings_whole rs ks (acc : Q) :
  whole_ratings rs ks ->
  (foldl (fun sum r => (sum + Review.rating r)%Q) acc rs
   == acc + inject_Z (foldr Z.add 0%Z ks))%Q.
Proof.
  intros H. revert acc. induction H as [|r k rs ks [Hr _] _ IH]; intros acc; simpl.
  - change (inject_Z 0) with 0%Q. ring.
  - rewrite IH, Hr, inject_Z_plus. ring.
Qed.

Lemma Qfloor_quotient (a : Z) (p : positive) :
  Qfloor (inject_Z a / inject_Z (Zpos p)) = a / Zpos p.
Proof.
  unfold Qdiv, Qinv, Qmult, inject_Z, Qfloor. simpl.
  now rewrite Z.mul_1_r.
Qed.

Lemma round1_guarded_average_whole rs ks :
  whole_ratings rs ks ->
  Reviews.round1 (Reviews.guarded_average rs)
  = Reviews.Fin (inject_Z (mean_in_tenths ks) / 10)%Q.
Proof.
  intros H. destruct H as [|r k rs ks Hrk Hrest].
  - reflexivity.
  - assert (Hall : whole_ratings (r :: rs) (k :: ks)) by (constructor; assumption).
    pose proof (Forall2_length _ _ _ Hall) as Hlen.
    unfold Reviews.guarded_average, Reviews.average.
    change (0 <? length (r :: rs))%nat with true. cbv iota.
    unfold Reviews.round1. do 2 f_equal.
    unfold mean_in_tenths, Reviews.sum_ratings.
    rewrite <- Hlen.
    set (n := Z.of_nat (length (r :: rs))).
    set (S := foldr Z.add 0 (k :: ks)).
    assert (Hn : 0 < n) by (subst n; simpl length; lia).
    destruct n as [|p|p] eqn:Hp; try lia.
    change (2 * Z.pos p) with (Z.pos (2 * p)).
    rewrite <- Qfloor_quotient. f_equal.
    apply Qfloor_comp.
    rewrite (sum_ratings_whole _ _ 0%Q Hall). fold S.
    rewrite inject_Z_plus, inject_Z_mult.
    change (Z.pos (2 * p)) with (2 * Z.pos p). rewrite inject_Z_mult.
    change (inject_Z 20) with 20%Q. change (inject_Z 2) with 2%Q.
    field. intros Hz. change 0%Q with (inject_Z 0) in Hz.
    apply inject_Z_injective in Hz. discriminate.
Qed.

Lemma alter_as_insert {A} (f : A -> A) (m : gmap N A) i x :
  m !! i = Some x -> alter f i m = <[i := f x]> m.
Proof.
  intros Hx. apply map_eq. intros j. destruct (decide (j = i)) as [->|Hne].
  - now rewrite lookup_alter_eq, lookup_insert_eq, Hx.
  - now rewrite lookup_alter_ne, lookup_insert_ne by auto.
Qed.

Lemma recompute_guarded_whole review pid db p ks :
  Review.type review = Review.product_review ->
  Review.product review = Some pid ->
  products db !! pid = Some p ->
  whole_ratings (approved_product_reviews pid (reviews db)) ks ->
  Reviews.recompute_guarded review db
  = Some (set_products
            (<[pid := Product.mk (Product.name p) (Product.price p) (Product.discountPrice p)
                        (Product.stock p) (Product.reservedStock p)
                        (Product.lowStockThreshold p) (Product.isAvailable p)
                        (inject_Z (mean_in_tenths ks) / 10)%Q
                        (Z.of_nat (length ks))]> (products db)) db).
Proof.
  intros Hty Hpid Hp Hks. unfold Reviews.recompute_guarded.
  rewrite Hty, Hpid, find_all_approved.
  rewrite (round1_guarded_average_whole _ _ Hks), (Forall2_length _ _ _ Hks).
  unfold Reviews.write_product_rating.
  now rewrite (alter_as_insert _ _ _ _ Hp).
Qed.

(** X21: Deleting a product review, as its author or an admin, while the
    approved product reviews left for the product carry whole ratings from
    1 to 5, answers 200, removes the review and writes on the product the
    number of those reviews as ratings count and their mean rounded to one
    decimal, a half rounded up, as ratings average (0 when none is left);
    every other field of the product and every other collection is as it
    was. *)
Theorem delete_recomputes_product_rating (req : Reviews.DeleteReq) (db : DB)
    (review : Review.t) (pid : ObjectId) (p : Product.t) (ks : list Z) :
  reviews db !! Reviews.del_id req = Some review ->
  Review.user review = user_id (Reviews.del_user req) \/ role (Reviews.del_user req) = admin ->
  Review.type review = Review.product_review ->
  Review.product review = Some pid ->
  products db !! pid = Some p ->
  whole_ratings
    (approved_product_reviews pid (base.delete (Reviews.del_id req) (reviews db))) ks ->
  Reviews.delete req db
  = (Success 200 tt,
     set_products
       (<[pid := Product.mk (Product.name p) (Product.price p) (Product.discountPrice p)
                   (Product.stock p) (Product.reservedStock p)
                   (Product.lowStockThreshold p) (Product.isAvailable p)
                   (inject_Z (mean_in_tenths ks) / 10)%Q
                   (Z.of_nat (length ks))]> (products db))
       (set_reviews (base.delete (Reviews.del_id req) (reviews db)) db)).
Proof.
  intros Hfound Hauth Hty Hpid Hp Hks.
  unfold Reviews.delete. rewrite Hfound.
  assert (Hgate : negb (bool_decide (Review.user review = user_id (Reviews.del_user req)))
                  && negb (bool_decide (role (Reviews.del_user req) = admin)) = false).
  { destruct Hauth as [H|H]; rewrite (bool_decide_eq_true_2 _ H); simpl; [reflexivity|].
    apply andb_false_r. }
  rewrite Hgate.
  rewrite (recompute_guarded_whole review pid
             (set_reviews (base.delete (Reviews.del_id req) (reviews db)) db)
             p ks Hty Hpid Hp Hks).
  reflexivity.
Qed.

(** X22: Moderating a product review, as an admin, stores the review with
    the given approval flag and every other field as it was, and answers
    it.  While the approved product reviews then stored for the product
    carry whole ratings from 1 to 5, the product gets their number as
    ratings count and their mean rounded to one decimal, a half rounded up,
    as ratings average (0 when none is approved); every other field of the
    product and every other collection is as it was. *)
Theorem moderate_recomputes_product_rating (req : Reviews.ModerateReq) (db : DB)
    (review : Review.t) (pid : ObjectId) (p : Product.t) (b : bool) (ks : list Z) :
  adminOnly (Reviews.m_user req) = true ->
  reviews db !! Reviews.m_id req = Some review ->
  Reviews.m_isApproved req = Some b ->
  Review.type review = Review.product_review ->
  Review.product review = Some pid ->
  products db !! pid = Some p ->
  let review' :=
    Review.mk (Review.type review) (Review.product review) (Review.deliveryPartner review)
      (Review.order review) (Review.user review) (Review.rating review)
      (Review.title review) (Review.comment review) (Review.isVerifiedPurchase review) b in
  whole_ratings
    (approved_product_reviews pid (<[Reviews.m_id req := review']> (reviews db))) ks ->
  Reviews.moderate req db
  = (Success 200 review',
     set_products
       (<[pid := Product.mk (Product.name p) (Product.price p) (Product.discountPrice p)
                   (Product.stock p) (Product.reservedStock p)
                   (Product.lowStockThreshold p) (Product.isAvailable p)
                   (inject_Z (mean_in_tenths ks) / 10)%Q
                   (Z.of_nat (length ks))]> (products db))
       (set_reviews (<[Reviews.m_id req := review']> (reviews db)) db)).
Proof.
  intros Hadmin Hfound Hb Hty Hpid Hp review' Hks.
  unfold Reviews.moderate. rewrite Hadmin, Hfound, Hb. simpl negb. cbv iota.
  change (Review.set_isApproved b review) with review'.
  rewrite (recompute_guarded_whole review' pid
             (set_reviews (<[Reviews.m_id req := review']> (reviews db)) db)
             p ks Hty Hpid Hp Hks).
  reflexivity.
Qed.

(** X23: A delivery review is created only for a stored order of the caller
    in status delivered or completed, with a delivery partner who is a
    stored user, and not yet reviewed; the review is for that partner and
    order and is marked as a verified purchase. *)
Theorem delivery_review_needs_delivered_order (req : Reviews.CreateReq) (db db' : DB)
    (review : Review.t) :
  Reviews.r_type req = Some "delivery"%string ->
  Reviews.create req db = (Success 201 review, db') ->
  exists orderId order partner,
    Reviews.r_orderId req = Some orderId
    /\ orders db !! orderId = Some order
    /\ Order.user order = user_id (Reviews.r_user req)
    /\ (Order.status order = Order.delivered \/ Order.status order = Order.completed)
    /\ Order.partner (Order.delivery order) = Some partner
    /\ is_Some (users db !! partner)
    /\ (forall j r, reviews db !! j = Some r ->
          Review.type r = Review.delivery_review -> Review.order r <> Some orderId)
    /\ Review.deliveryPartner review = Some partner
    /\ Review.order review = Some orderId
    /\ Review.isVerifiedPurchase review = true.
Proof.
  intros Hty. unfold Reviews.create. rewrite Hty. simpl.
  unfold Reviews.create_delivery_review.
  destruct (Reviews.r_orderId req) as [orderId|]; [|discriminate].
  destruct (orders db !! orderId) as [order|] eqn:Hord; [|discriminate].
  destruct (bool_decide (Order.user order = _)) eqn:Howner; [|discriminate].
  apply bool_decide_eq_true_1 in Howner. simpl negb. cbv iota.
  destruct (Reviews.delivered_or_completed _) eqn:Hst; [|discriminate].
  simpl negb. cbv iota.
  destruct (Order.partner (Order.delivery order)) as [partner|] eqn:Hpartner; [|discriminate].
  simpl. destruct (users db !! partner) as [u|] eqn:Hu; [|discriminate]. simpl.
  destruct (findOne _ (reviews db)) eqn:Hfind; [discriminate|].
  unfold Reviews.review_doc, Reviews.create_review.
  destruct (Reviews.r_rating req); [|discriminate].
  destruct (Reviews.r_comment req); [|discriminate].
  destruct (Review.valid _); [|discriminate].
  unfold Reviews.finish. destruct (Reviews.recompute_guarded _ _); [|discriminate].
  intros [= <- <-]. exists orderId, order, partner.
  split; [reflexivity|]. split; [assumption|]. split; [assumption|].
  split; [destruct (Order.status order); try discriminate; auto|].
  split; [assumption|]. split; [eauto|].
  split; [|repeat split; reflexivity].
  intros j r Hj Hrty Hro. pose proof (findOne_None _ _ Hfind j r Hj) as Hf.
  simpl in Hf. rewrite !bool_decide_eq_true_2 in Hf by assumption. discriminate.
Qed.

Lemma ledgers_balanced_insert (ivs : gmap N Inventory.t) k i :
  ledgers_balanced ivs -> Forall entry_balanced (Inventory.stockHistory i) ->
  ledgers_balanced (<[k := i]> ivs).
Proof.
  intros Hall Hi j i' Hj. destruct (decide (j = k)) as [->|Hne].
  - rewrite lookup_insert_eq in Hj. now injection Hj as <-.
  - rewrite lookup_insert_ne in Hj by auto. eauto.
Qed.

(** X24: The add-stock, update and remove-stock routes keep every entry of
    every stock ledger balanced: new stock is previous stock plus the
    signed quantity. *)
Theorem inventory_routes_keep_ledger_balanced (db : DB)
    (a : Inventories.AddReq) (u : Inventories.UpdateReq) (r : Inventories.RemoveReq) :
  ledgers_balanced (inventories db) ->
  ledgers_balanced (inventories (Inventories.addStock a db).2)
  /\ ledgers_balanced (inventories (Inventories.update u db).2)
  /\ ledgers_balanced (inventories (Inventories.removeStock r db).2).
Proof.
  intros Hall. split; [|split].
  - unfold Inventories.addStock.
    destruct (negb _); [exact Hall|].
    destruct (Inventories.a_productId a) as [pid|]; [|exact Hall].
    destruct (Inventories.a_quantity a) as [q|]; [|exact Hall].
    destruct (Inventories.bad_quantity _); [exact Hall|].
    destruct (products db !! pid); [|exact Hall].
    destruct (negb (Inventory.valid _)); [exact Hall|].
    cbn [snd inventories set_inventories set_products].
    apply ledgers_balanced_insert; [assumption|].
    cbn [Inventory.stockHistory Inventory.push_history Inventory.set_lastRestocked
         Inventory.set_totalStock].
    apply Forall_app. split.
    + destruct (inventories db !! pid) as [i|] eqn:Hi; simpl; [eauto|constructor].
    + constructor; [|constructor]. unfold entry_balanced. simpl. reflexivity.
  - unfold Inventories.update.
    destruct (negb _); [exact Hall|].
    destruct (inventories db !! _) as [i|] eqn:Hi; [|exact Hall].
    destruct (Inventories.i_totalStock u) as [t|].
    + destruct (negb (Inventory.valid _)); [exact Hall|].
      cbn [snd inventories set_inventories set_products].
      apply ledgers_balanced_insert; [assumption|].
      destruct (Inventories.i_lowStockThreshold u);
        cbn [Inventory.stockHistory Inventory.push_history Inventory.set_lowStockThreshold
             Inventory.set_totalStock];
        (apply Forall_app; split; [eauto|]);
        (constructor; [|constructor]); unfold entry_balanced; simpl; lia.
    + destruct (negb (Inventory.valid _)); [exact Hall|].
      cbn [snd inventories set_inventories].
      apply ledgers_balanced_insert; [assumption|].
      destruct (Inventories.i_lowStockThreshold u); simpl; eauto.
  - unfold Inventories.removeStock.
    destruct (negb _); [exact Hall|].
    destruct (Inventories.rm_quantity r) as [q|]; [|exact Hall].
    destruct (Inventories.bad_quantity _); [exact Hall|].
    destruct (inventories db !! _) as [i|] eqn:Hi; [|exact Hall].
    destruct (_ <? q); [exact Hall|].
    destruct (negb (Inventory.valid _)); [exact Hall|].
    cbn [snd inventories set_inventories set_products].
    apply ledgers_balanced_insert; [assumption|].
    cbn [Inventory.stockHistory Inventory.push_history Inventory.set_totalStock].
    apply Forall_app. split; [eauto|].
    constructor; [|constructor]. unfold entry_balanced. simpl. lia.
Qed.

Lemma good_quantity q : 1 <= q -> Inventories.bad_quantity (Some q) = false.
Proof.
  intros Hq. unfold Inventories.bad_quantity.
  destruct (Z.eqb_spec q 0); [lia|]. destruct (Z.ltb_spec q 1); [lia|]. reflexivity.
Qed.

(** X25: Add-stock with a quantity of at least one, for a stored product,
    answers 200: the inventory record (created at zero when there was none)
    gains the quantity, gets lastRestocked and one ledger entry of type in,
    and the product's stock is overwritten with the record's new total,
    whatever it was, reservedStock untouched. *)
Theorem add_stock_overwrites_product_stock (req : Inventories.AddReq) (db : DB)
    (pid : ObjectId) (q : Z) (p : Product.t) :
  inventoryAccess (Inventories.a_user req) = true ->
  Inventories.a_productId req = Some pid ->
  Inventories.a_quantity req = Some q -> 1 <= q ->
  products db !! pid = Some p ->
  (forall i, inventories db !! pid = Some i -> Inventory.valid i = true) ->
  exists inv,
    Inventories.addStock req db
    = (Success 200 inv,
       set_products (alter (Product.set_stock (Inventory.totalStock inv)) pid (products db))
         (set_inventories (<[pid := inv]> (inventories db)) db))
    /\ Inventory.totalStock inv
       = from_option Inventory.totalStock 0 (inventories db !! pid) + q
    /\ Inventory.reservedStock inv
       = from_option Inventory.reservedStock 0 (inventories db !! pid)
    /\ Inventory.lastRestocked inv = Some (Inventories.a_now req)
    /\ Inventory.stockHistory inv
       = from_option Inventory.stockHistory [] (inventories db !! pid)
         ++ [Inventory.mkHistory Inventory.h_in q
               (from_option Inventory.totalStock 0 (inventories db !! pid))
               (from_option Inventory.totalStock 0 (inventories db !! pid) + q)
               (or_else (Inventories.a_reason req) "Stock added")
               (user_id (Inventories.a_user req))]
    /\ exists p',
         products (Inventories.addStock req db).2 !! pid = Some p'
         /\ Product.stock p' = Inventory.totalStock inv
         /\ Product.reservedStock p' = Product.reservedStock p.
Proof.
  intros Haccess Hpid Hq Hpos Hp Hvalid.
  unfold Inventories.addStock.
  rewrite Haccess, Hpid, Hq, (good_quantity q Hpos), Hp. simpl negb. cbv iota.
  destruct (inventories db !! pid) as [i|] eqn:Hi; simpl default.
  - destruct (negb (Inventory.valid _)) eqn:Hv.
    { exfalso. apply negb_true_iff in Hv. unfold Inventory.valid in Hv. simpl in Hv.
      specialize (Hvalid i eq_refl). unfold Inventory.valid in Hvalid.
      apply andb_prop in Hvalid as [Ht Hr]. apply Z.leb_le in Ht.
      rewrite Hr, andb_true_r in Hv. apply Z.leb_gt in Hv. lia. }
    eexists. split; [reflexivity|]. cbn [snd products set_products set_inventories].
    rewrite lookup_alter_eq, Hp. simpl.
    repeat split; try reflexivity. eexists. repeat split; reflexivity.
  - destruct (negb (Inventory.valid _)) eqn:Hv.
    { exfalso. apply negb_true_iff in Hv. unfold Inventory.valid in Hv. simpl in Hv.
      rewrite andb_true_r in Hv. apply Z.leb_gt in Hv. lia. }
    eexists. split; [reflexivity|]. cbn [snd products set_products set_inventories].
    rewrite lookup_alter_eq, Hp. simpl.
    repeat split; try reflexivity. eexists. repeat split; reflexivity.
Qed.

(** X26: The update route writes the product's stock before it validates the
    inventory record: a total below zero answers 500 and leaves the record
    as it was, yet the product's stock is already that total.  A total of
    zero or more answers 200, sets the record's total and appends one
    ledger entry of type adjustment. *)
Theorem inventory_update_writes_product_before_validation (req : Inventories.UpdateReq)
    (db : DB) (inv : Inventory.t) (t : Z) :
  inventoryAccess (Inventories.i_user req) = true ->
  inventories db !! Inventories.i_productId req = Some inv ->
  Inventories.i_totalStock req = Some t ->
  0 <= Inventory.reservedStock inv ->
  (t < 0 ->
   exists m,
     Inventories.update req db
     = (Failure 500 m,
        set_products (alter (Product.set_stock t) (Inventories.i_productId req) (products db))
                     db)
     /\ forall p, products db !! Inventories.i_productId req = Some p ->
          Product.stock <$> products (Inventories.update req db).2 !! Inventories.i_productId req
          = Some t)
  /\ (0 <= t ->
      exists inv',
        Inventories.update req db
        = (Success 200 inv',
           set_inventories (<[Inventories.i_productId req := inv']> (inventories db))
             (set_products
                (alter (Product.set_stock t) (Inventories.i_productId req) (products db)) db))
        /\ Inventory.totalStock inv' = t
        /\ Inventory.reservedStock inv' = Inventory.reservedStock inv
        /\ Inventory.stockHistory inv'
           = Inventory.stockHistory inv
             ++ [Inventory.mkHistory Inventory.h_adjustment (t - Inventory.totalStock inv)
                   (Inventory.totalStock inv) t
                   (or_else (Inventories.i_reason req) "Manual adjustment")
                   (user_id (Inventories.i_user req))]).
Proof.
  intros Haccess Hinv Ht Hres.
  assert (Hvalid : forall i0,
            Inventory.reservedStock i0 = Inventory.reservedStock inv ->
            Inventory.totalStock i0 = t ->
            Inventory.valid i0 = (0 <=? t)).
  { intros i0 Hr Htot. unfold Inventory.valid. rewrite Hr, Htot.
    rewrite (proj2 (Z.leb_le _ _) Hres). apply andb_true_r. }
  split.
  - intros Hneg. unfold Inventories.update. rewrite Haccess, Hinv, Ht. simpl negb. cbv iota.
    rewrite Hvalid by (destruct (Inventories.i_lowStockThreshold req); reflexivity).
    destruct (Z.leb_spec 0 t); [lia|]. simpl negb. cbv iota.
    eexists. split; [reflexivity|].
    intros p Hp. cbn [snd products set_products]. now rewrite lookup_alter_eq, Hp.
  - intros Hpos. unfold Inventories.update. rewrite Haccess, Hinv, Ht. simpl negb. cbv iota.
    rewrite Hvalid by (destruct (Inventories.i_lowStockThreshold req); reflexivity).
    destruct (Z.leb_spec 0 t); [|lia]. simpl negb. cbv iota.
    eexists. split; [reflexivity|].
    destruct (Inventories.i_lowStockThreshold req); repeat split; reflexivity.
Qed.

(** X27: Remove-stock of at least one unit refuses with 400, writing nothing,
    when the quantity exceeds the record's total minus its reserved units;
    otherwise it answers 200, lowers the total by the quantity, keeps the
    record's reserved units within the total and appends one ledger
    entry. *)
Theorem remove_stock_respects_inventory_reservation (req : Inventories.RemoveReq) (db : DB)
    (inv : Inventory.t) (q : Z) :
  inventoryAccess (Inventories.rm_user req) = true ->
  inventories db !! Inventories.rm_productId req = Some inv ->
  Inventories.rm_quantity req = Some q -> 1 <= q ->
  Inventory.valid inv = true ->
  (Inventory.totalStock inv - Inventory.reservedStock inv < q ->
   Inventories.removeStock req db
   = (Failure 400 (Inventories.cannot_remove_message q
                     (Inventory.totalStock inv - Inventory.reservedStock inv)), db))
  /\ (q <= Inventory.totalStock inv - Inventory.reservedStock inv ->
      exists inv',
        Inventories.removeStock req db
        = (Success 200 inv',
           set_products
             (alter (Product.set_stock (Inventory.totalStock inv'))
                    (Inventories.rm_productId req) (products db))
             (set_inventories (<[Inventories.rm_productId req := inv']> (inventories db)) db))
        /\ Inventory.totalStock inv' = Inventory.totalStock inv - q
        /\ Inventory.reservedStock inv' <= Inventory.totalStock inv'
        /\ Inventory.stockHistory inv'
           = Inventory.stockHistory inv
             ++ [Inventory.mkHistory (default Inventory.h_out (Inventories.rm_type req)) (- q)
                   (Inventory.totalStock inv) (Inventory.totalStock inv - q)
                   (or_else (Inventories.rm_reason req) "Stock removed")
                   (user_id (Inventories.rm_user req))]).
Proof.
  intros Haccess Hinv Hq Hpos Hvalid.
  unfold Inventory.valid in Hvalid. apply andb_prop in Hvalid as [Ht Hr].
  apply Z.leb_le in Ht, Hr.
  split.
  - intros Hlt. unfold Inventories.removeStock.
    rewrite Haccess, Hq, (good_quantity q Hpos), Hinv. simpl negb. cbv iota.
    destruct (Z.ltb_spec (Inventory.totalStock inv - Inventory.reservedStock inv) q); [|lia].
    reflexivity.
  - intros Hle. unfold Inventories.removeStock.
    rewrite Haccess, Hq, (good_quantity q Hpos), Hinv. simpl negb. cbv iota.
    destruct (Z.ltb_spec (Inventory.totalStock inv - Inventory.reservedStock inv) q); [lia|].
    assert (Hv : forall h, Inventory.valid
                   (Inventory.push_history h
                      (Inventory.set_totalStock (Inventory.totalStock inv - q) inv)) = true).
    { intros h. unfold Inventory.valid. simpl.
      rewrite (proj2 (Z.leb_le _ _) Hr), andb_true_r. apply Z.leb_le. lia. }
    rewrite Hv. simpl negb. cbv iota.
    eexists. split; [reflexivity|]. simpl. repeat split; try reflexivity. lia.
Qed.

(** X28: Every request of the modelled routes keeps each stored order valid
    and with an order number. *)
Theorem every_stored_order_stays_valid (gw : Payments.Gateway) (db db' : DB) :
  step gw db db' -> all_stored_ok (orders db) -> all_stored_ok (orders db').
Proof.
  intros Hstep Hall.
  destruct (step_touches _ _ _ Hstep) as [->|(now & id & o & o' & Hsave & _)];
    [assumption|].
  apply save_order_saved in Hsave as (Hok & -> & _).
  intros j b Hj. destruct (decide (j = id)) as [->|Hne].
  - rewrite lookup_insert_eq in Hj. now injection Hj as <-.
  - rewrite lookup_insert_ne in Hj by auto. eauto.
Qed.

Lemma evolves_refl o : evolves o o.
Proof. repeat split; reflexivity. Qed.

Lemma evolves_push h o o' : evolves o o' -> evolves o (Order.push_history h o').
Proof.
  intros (Hu & Hi & Ht & Ha & Hh). repeat split; auto.
  cbn [Order.statusHistory Order.push_history]. now apply prefix_app_r.
Qed.

Lemma evolves_set_status s o o' : evolves o o' -> evolves o (Order.set_status s o').
Proof. intros H; exact H. Qed.

Lemma evolves_set_payment p o o' : evolves o o' -> evolves o (Order.set_payment p o').
Proof. intros H; exact H. Qed.

Lemma evolves_set_delivery d o o' : evolves o o' -> evolves o (Order.set_delivery d o').
Proof. intros H; exact H. Qed.

Lemma evolves_set_reason r o o' :
  evolves o o' -> evolves o (Order.set_cancellationReason r o').
Proof. intros H; exact H. Qed.

Lemma evolves_project s o o' : evolves o o' -> evolves o (Deliveries.project s o').
Proof. intros H. destruct s; exact H. Qed.

Create HintDb evolve.
#[local] Hint Resolve evolves_refl evolves_push evolves_set_status evolves_set_payment
  evolves_set_delivery evolves_set_reason evolves_project : evolve.

Ltac kept_by_save :=
  match goal with
  | |- context [save_order ?now ?id ?o ?os] =>
      let Hsave := fresh "Hsave" in
      destruct (save_order now id o os) eqn:Hsave; [|left; reflexivity];
      right; exists now, id, o; eexists; split; [exact Hsave|];
      let old := fresh "old" in let Hold := fresh "Hold" in
      intros old Hold; cbn [orders set_products set_deliveries] in Hold;
      repeat match goal with
             | H : orders _ !! _ = Some _ |- _ =>
                 cbn [orders set_products set_deliveries] in H
             end;
      try rewrite order_stamp_if_delivered in Hold;
      cbn [Delivery.order Delivery.push_history Delivery.set_status
           Delivery.set_proofOfDelivery Delivery.set_customerSignature
           Delivery.set_actualDeliveryDate] in Hold;
      try match goal with
          | H : orders _ !! ?k = Some ?x |- _ =>
              rewrite H in Hold; injection Hold as <-
          end;
      auto 10 with evolve
  end.

Lemma create_keeps req db : orders_kept db (Orders.create req db).2.
Proof.
  unfold Orders.create. case_handler; try untouched.
  destruct (save_order _ _ _ _) eqn:Hsave; [|untouched].
  right. eexists _, _, _, _. split; [exact Hsave|].
  intros old Hold. cbn [orders set_products] in Hold.
  now rewrite fresh_order_id in Hold.
Qed.

Lemma updateStatus_keeps req db : orders_kept db (Orders.updateStatus req db).2.
Proof. unfold Orders.updateStatus. case_handler; try untouched. kept_by_save. Qed.

Lemma cancel_keeps req db : orders_kept db (Orders.cancel req db).2.
Proof. unfold Orders.cancel. case_handler; try untouched. kept_by_save. Qed.

Lemma assignDelivery_keeps req db : orders_kept db (Orders.assignDelivery req db).2.
Proof. unfold Orders.assignDelivery. case_handler; try untouched. kept_by_save. Qed.

Lemma verify_keeps gw req db : orders_kept db (Payments.verify gw req db).2.
Proof. unfold Payments.verify. case_handler; try untouched. kept_by_save. Qed.

Lemma createOrder_keeps gw req db : orders_kept db (Payments.createOrder gw req db).2.
Proof. unfold Payments.createOrder. case_handler; try untouched. kept_by_save. Qed.

Lemma refund_keeps gw req db : orders_kept db (Payments.refund gw req db).2.
Proof. unfold Payments.refund. case_handler; try untouched. kept_by_save. Qed.

Lemma save_to_keeps_order now id o old db :
  orders db !! id = Some old -> evolves old o ->
  orders_kept db (Payments.save_to now id o db).2.
Proof.
  intros Hold Hev. unfold Payments.save_to.
  destruct (save_order _ _ _ _) eqn:Hsave; [|untouched].
  right. eexists _, _, _, _. split; [exact Hsave|].
  intros old' Hold'. rewrite Hold in Hold'. now injection Hold' as <-.
Qed.

Lemma webhook_keeps gw req db : orders_kept db (Payments.webhook gw req db).2.
Proof.
  unfold Payments.webhook. destruct (negb _); [untouched|].
  destruct (Payments.w_event req); try untouched;
    (destruct (findOne _ _) as [[id order]|] eqn:Hfind; [|untouched]);
    apply findOne_Some in Hfind as [Hlook _];
    try (destruct (bool_decide _); [|untouched]);
    eapply save_to_keeps_order; eauto; unfold Payments.captured; auto 10 with evolve.
Qed.

Lemma delivery_status_keeps req db : orders_kept db (Deliveries.updateStatus req db).2.
Proof.
  unfold Deliveries.updateStatus.
  destruct (negb _); [untouched|].
  destruct (Delivery.parse_status _) as [status|]; [|untouched].
  destruct (deliveries db !! _) as [d|]; [|untouched].
  destruct (Deliveries.foreign_partner _ _); [untouched|].
  rewrite order_stamp_if_delivered.
  cbn [Delivery.order Delivery.push_history Delivery.set_status].
  destruct (orders db !! Delivery.order d) as [order|] eqn:Hord; [|untouched].
  destruct (save_order _ _ _ _) eqn:Hsave; [|untouched].
  right. eexists _, _, _, _. split; [exact Hsave|].
  intros old Hold. rewrite Hord in Hold. injection Hold as <-. auto 10 with evolve.
Qed.

Lemma confirm_keeps req db : orders_kept db (Deliveries.confirm req db).2.
Proof.
  unfold Deliveries.confirm.
  destruct (negb _); [untouched|].
  destruct (deliveries db !! _) as [d|]; [|untouched].
  destruct (Deliveries.foreign_partner _ _); [untouched|].
  cbn [orders set_deliveries Delivery.order Delivery.push_history Delivery.set_status
       Delivery.set_proofOfDelivery Delivery.set_customerSignature
       Delivery.set_actualDeliveryDate].
  destruct (orders db !! Delivery.order d) as [order|] eqn:Hord; [|untouched].
  destruct (save_order _ _ _ _) eqn:Hsave; [|untouched].
  right. eexists _, _, _, _. split; [exact Hsave|].
  intros old Hold. rewrite Hord in Hold. injection Hold as <-. auto 10 with evolve.
Qed.

Lemma delivery_assign_keeps req db : orders_kept db (Deliveries.assign req db).2.
Proof.
  unfold Deliveries.assign. destruct (negb _); [untouched|].
  destruct (orders db !! _) as [order|] eqn:Hord; [|untouched].
  destruct (Deliveries.as_partnerId req) as [partnerId|]; [|untouched].
  destruct (Deliveries.assigned_delivery _ _ _ _) as [[id delivery]|]; [|untouched].
  kept_by_save.
Qed.

Lemma touched_same_is_kept db db' : orders db' = orders db -> orders_kept db db'.
Proof. intros H. now left. Qed.

Lemma review_create_keeps req db : orders_kept db (Reviews.create req db).2.
Proof.
  left. unfold Reviews.create, Reviews.create_product_review, Reviews.create_delivery_review.
  case_handler; try reflexivity.
  all: match goal with H : Reviews.create_review _ _ = Some _ |- _ =>
         apply create_review_orders in H end.
  all: apply finish_orders; auto.
  all: intros db' Hw.
  - apply write_product_rating_orders in Hw. congruence.
  - apply recompute_guarded_orders in Hw. congruence.
Qed.

Lemma review_update_keeps req db : orders_kept db (Reviews.update req db).2.
Proof.
  left. unfold Reviews.update. case_handler; try reflexivity.
  all: apply finish_orders; auto; intros db' Hw; now apply recompute_on_update_orders in Hw.
Qed.

Lemma review_delete_keeps req db : orders_kept db (Reviews.delete req db).2.
Proof.
  left. unfold Reviews.delete. case_handler; try reflexivity.
  all: apply finish_orders; auto; intros db' Hw; now apply recompute_guarded_orders in Hw.
Qed.

Lemma review_moderate_keeps req db : orders_kept db (Reviews.moderate req db).2.
Proof.
  left. unfold Reviews.moderate. case_handler; try reflexivity.
  all: apply finish_orders; auto; intros db' Hw; now apply recompute_guarded_orders in Hw.
Qed.

Lemma addStock_keeps req db : orders_kept db (Inventories.addStock req db).2.
Proof. left. unfold Inventories.addStock. case_handler; reflexivity. Qed.

Lemma inventory_update_keeps req db : orders_kept db (Inventories.update req db).2.
Proof.
  left. unfold Inventories.update. destruct (negb _); [reflexivity|].
  destruct (inventories db !! _); [|reflexivity].
  destruct (Inventories.i_totalStock req); case_handler; reflexivity.
Qed.

Lemma removeStock_keeps req db : orders_kept db (Inventories.removeStock req db).2.
Proof. left. unfold Inventories.removeStock. case_handler; reflexivity. Qed.

Lemma step_keeps gw db db' : step gw db db' -> orders_kept db db'.
Proof.
  destruct 1;
    eauto using create_keeps, updateStatus_keeps, cancel_keeps, verify_keeps,
      webhook_keeps, delivery_status_keeps, confirm_keeps, review_create_keeps,
      review_update_keeps, review_delete_keeps, review_moderate_keeps,
      addStock_keeps, inventory_update_keeps, removeStock_keeps,
      assignDelivery_keeps, createOrder_keeps, refund_keeps, delivery_assign_keeps.
Qed.

(** X29: No request of the modelled routes removes an order or changes its
    user, items, total or shipping address, and the status history of an
    order only grows at its end. *)
Theorem orders_are_kept_and_only_grow (gw : Payments.Gateway) (db db' : DB) :
  step gw db db' ->
  forall id o, orders db !! id = Some o ->
    exists o', orders db' !! id = Some o'
               /\ Order.user o' = Order.user o
               /\ Order.items o' = Order.items o
               /\ Order.totalAmount o' = Order.totalAmount o
               /\ Order.shippingAddress o' = Order.shippingAddress o
               /\ Order.statusHistory o `prefix_of` Order.statusHistory o'.
Proof.
  intros Hstep id o Hid.
  destruct (step_keeps _ _ _ Hstep) as [->|(now & k & o1 & o2 & Hsave & Hev)].
  - exists o. split; [assumption|]. repeat split; reflexivity.
  - apply save_order_saved in Hsave as (_ & -> & ->).
    destruct (decide (id = k)) as [->|Hne].
    + rewrite lookup_insert_eq. eexists. split; [reflexivity|].
      destruct (pre_save_fields now (Z.of_nat (size (orders db))) o1)
        as (_ & -> & -> & -> & -> & _ & ->).
      exact (Hev o Hid).
    + rewrite lookup_insert_ne by auto. exists o. split; [assumption|].
      repeat split; reflexivity.
Qed.

Lemma read_number_toString z : 0 <= z -> read_number (toString z) = Some z.
Proof.
  intros Hz. unfold read_number, toString.
  pose proof (DecimalZ.of_to z) as Hof.
  destruct (Z.to_int z) as [d|d] eqn:Hd.
  - simpl in Hof. unfold NilZero.string_of_int, NilZero.string_of_uint.
    destruct d; try (rewrite (NilEmpty.usu (_ _)); simpl; now rewrite Hof).
    simpl. now rewrite <- Hof.
  - destruct z; simpl in Hd; try discriminate. lia.
Qed.

Lemma read_number_leading_zeros k s :
  read_number (repeat_char "0" k ++ s) = read_number s.
Proof.
  induction k as [|k IH]; [reflexivity|]. rewrite <- IH.
  unfold read_number.
  change (repeat_char "0" (S k) ++ s)%string with (String "0" (repeat_char "0" k ++ s)).
  cbn [NilEmpty.uint_of_string].
  destruct (NilEmpty.uint_of_string (repeat_char "0" k ++ s)) as [d|]; reflexivity.
Qed.

Lemma read_orderNumber_make now count :
  0 <= now -> 0 <= count ->
  read_orderNumber (Order.make_orderNumber now count) = Some (now, count + 1).
Proof.
  intros Hn Hc. unfold read_orderNumber, Order.make_orderNumber.
  rewrite strip_prefix_app.
  change ("-" ++ Order.sequence count)%string with (String "-" (Order.sequence count)).
  rewrite (split_dash_digits _ _ (proj1 (toString_digits now Hn))).
  rewrite (read_number_toString now Hn).
  unfold Order.sequence, padStart.
  rewrite read_number_leading_zeros, read_number_toString by lia. reflexivity.
Qed.

(** X30: The order number made by the pre-save hook determines the clock and
    the order count it was made from: two numbers are equal only for the
    same clock and the same count. *)
Theorem order_number_spells_clock_and_count (now now' count count' : Z) :
  0 <= now -> 0 <= count -> 0 <= now' -> 0 <= count' ->
  Order.make_orderNumber now count = Order.make_orderNumber now' count' ->
  now = now' /\ count = count'.
Proof.
  intros Hn Hc Hn' Hc' Heq.
  pose proof (read_orderNumber_make now count Hn Hc) as H1.
  pose proof (read_orderNumber_make now' count' Hn' Hc') as H2.
  rewrite Heq, H2 in H1. injection H1 as -> Hcount. split; [reflexivity|lia].
Qed.

(** ** The properties at the example requests *)

Lemma ordered_orders : orders Example.ordered = {[ 0%N := Example.placed ]}.
Proof. vm_compute. reflexivity. Qed.

Lemma ordered_products :
  products Example.ordered = {[ 1%N := Product.inc_reservedStock 3 Example.bike ]}.
Proof. vm_compute. reflexivity. Qed.

Lemma shop_products : products Example.shop = {[ 1%N := Example.bike ]}.
Proof. reflexivity. Qed.

Lemma shop_carts : carts Example.shop = {[ 10%N := Scenario.basket ]}.
Proof. reflexivity. Qed.

Lemma shop_inventories :
  inventories Example.shop = {[ 1%N := Inventory.mk 5 0 5 [] None ]}.
Proof. reflexivity. Qed.

Lemma shop_reviews : reviews Example.shop = ∅.
Proof. reflexivity. Qed.

Lemma awaiting_orders : orders Example.awaiting = {[ 0%N := Example.awaited ]}.
Proof. reflexivity. Qed.

Lemma dispatched_deliveries : deliveries Example.dispatched = {[ 5%N := Example.parcel ]}.
Proof. reflexivity. Qed.

Lemma dispatched_one_delivery : one_delivery_per_order (deliveries Example.dispatched).
Proof.
  intros i j di dj Hi Hj _. rewrite dispatched_deliveries in Hi, Hj.
  apply lookup_singleton_Some in Hi as [<- _].
  apply lookup_singleton_Some in Hj as [<- _]. reflexivity.
Qed.

Lemma stored_ok_placed : stored_ok Example.placed.
Proof. split; reflexivity. Qed.

Lemma stored_ok_settled : stored_ok Scenario.settled.
Proof. split; reflexivity. Qed.

Lemma checkout_places_order_witness :
  exists o db1,
    Orders.create Example.checkout Example.shop = (Success 201 o, db1)
    /\ Order.status o = Order.created
    /\ Order.totalAmount o = lines_total (Order.items o).
Proof.
  destruct (checkout_places_order Example.checkout Example.shop Example.home Scenario.basket)
    as (o & db1 & Heq & _ & _ & _ & Hst & _ & _ & _ & _ & Htotal & _).
  - reflexivity.
  - reflexivity.
  - vm_compute. reflexivity.
  - discriminate.
  - intros item Hin. apply list_elem_of_singleton in Hin as ->.
    exists Example.bike. split; [vm_compute; reflexivity|]. vm_compute. split; discriminate.
  - vm_compute. reflexivity.
  - exists o, db1. auto.
Defined.

Lemma checkout_keeps_stock_bounds_witness : all_stock_ok (products Example.ordered).
Proof.
  apply (checkout_keeps_stock_bounds Example.checkout Example.shop).
  - intros pid p H. rewrite shop_products in H.
    apply lookup_singleton_Some in H as [_ <-]. vm_compute. split; discriminate.
  - intros cart H. rewrite shop_carts in H.
    apply lookup_singleton_Some in H as [_ <-]. split.
    + apply NoDup_singleton.
    + intros item Hin. apply list_elem_of_singleton in Hin as ->. simpl. lia.
Defined.

Lemma checkout_keeps_reservation_when_order_is_refused_witness :
  exists m db1,
    Orders.create Scenario.careless Example.shop = (Failure 500 m, db1)
    /\ orders db1 = orders Example.shop
    /\ Product.reservedStock <$> products db1 !! 1%N = Some 3.
Proof.
  destruct (checkout_keeps_reservation_when_order_is_refused
              Scenario.careless Example.shop Scenario.nowhere Scenario.basket)
    as (m & db1 & Heq & Ho & _ & Hp).
  - reflexivity.
  - reflexivity.
  - vm_compute. reflexivity.
  - discriminate.
  - intros item Hin. apply list_elem_of_singleton in Hin as ->.
    exists Example.bike. split; [vm_compute; reflexivity|]. vm_compute. discriminate.
  - destruct (Hp 1%N Example.bike) as (p' & Hl & Hr); [vm_compute; reflexivity|].
    exists m, db1. rewrite Hl. simpl. rewrite Hr. auto.
Defined.

Lemma cancel_undoes_checkout_reservation_witness :
  exists o' db2,
    Orders.cancel Example.withdraw Example.ordered = (Success 200 o', db2)
    /\ products db2 = products Example.shop.
Proof.
  destruct (cancel_undoes_checkout_reservation Example.checkout Example.withdraw
              Example.shop Example.ordered Example.placed)
    as (o' & db2 & Heq & _ & Hp).
  - vm_compute. reflexivity.
  - vm_compute. reflexivity.
  - reflexivity.
  - exists o', db2. auto.
Defined.

Lemma cancel_writes_only_when_allowed_witness :
  exists order,
    orders Example.ordered !! 0%N = Some order
    /\ Order.status order ∈ cancellable_statuses.
Proof.
  destruct (cancel_writes_only_when_allowed Example.withdraw Example.ordered)
    as (order & Hl & _ & Hst).
  - intros H. apply (f_equal (fun d => Order.status <$> orders d !! 0%N)) in H.
    vm_compute in H. discriminate.
  - exists order. auto.
Defined.

Lemma payment_routes_write_only_after_checks_witness :
  is_Some (orders Example.ordered !! Payments.orderId Example.pay).
Proof.
  destruct (payment_routes_write_only_after_checks Example.gateway Example.pay Example.hook
              Example.ordered) as [H _].
  apply H. intros Heq.
  apply (f_equal (fun d => Order.status <$> orders d !! 0%N)) in Heq.
  vm_compute in Heq. discriminate.
Defined.


Lemma webhook_captured_is_idempotent_witness :
  Payments.webhook Example.gateway Example.hook
    (Payments.webhook Example.gateway Example.hook Example.awaiting).2
  = (Success 200 tt, (Payments.webhook Example.gateway Example.hook Example.awaiting).2).
Proof.
  apply (webhook_captured_is_idempotent Example.gateway Example.hook Example.hook
           Example.awaiting Example.captured_event 0%N Example.awaited).
  - reflexivity.
  - reflexivity.
  - reflexivity.
  - reflexivity.
  - reflexivity.
  - reflexivity.
  - intros j b H _. rewrite awaiting_orders in H.
    apply lookup_singleton_Some in H as [<- _]. reflexivity.
  - split; reflexivity.
Defined.

Lemma webhook_changes_status_only_on_capture_witness :
  exists o',
    orders (Payments.webhook Example.gateway Scenario.declined Example.awaiting).2 !! 0%N
    = Some o'
    /\ Order.status o' = Order.created.
Proof.
  destruct (webhook_changes_status_only_on_capture Example.gateway Scenario.declined
              Example.awaiting) with (id := 0%N) (o := Example.awaited)
    as (o' & Hl & Hst & _).
  - intros e. discriminate.
  - reflexivity.
  - exists o'. auto.
Defined.

Lemma create_payment_refuses_paid_order_witness :
  Payments.createOrder Example.gateway Scenario.invoice Example.paid
  = (Failure 400 "Order already paid", Example.paid).
Proof.
  destruct (create_payment_refuses_paid_order Example.gateway Scenario.invoice Example.paid
              Scenario.settled) as [H _].
  - vm_compute. reflexivity.
  - reflexivity.
  - exact stored_ok_settled.
  - apply H. reflexivity.
Defined.

Lemma captured_webhook_pays_created_payment_witness :
  exists o2,
    orders (Payments.webhook Example.gateway Example.hook Example.awaiting).2 !! 0%N = Some o2
    /\ Order.status o2 = Order.paid
    /\ products (Payments.webhook Example.gateway Example.hook Example.awaiting).2
       = products Example.ordered.
Proof.
  destruct (captured_webhook_pays_created_payment Example.gateway Scenario.invoice
              Example.hook Example.ordered Example.awaiting "order_1" 30000
              Example.captured_event)
    as (o2 & Hl & Hst & _ & _ & _ & _ & Hp).
  - vm_compute. reflexivity.
  - intros j b H Hne. rewrite ordered_orders in H.
    apply lookup_singleton_Some in H as [<- _]. now destruct Hne.
  - reflexivity.
  - reflexivity.
  - reflexivity.
  - exists o2. auto.
Defined.

Lemma refund_cancels_without_release_witness :
  exists o',
    (Payments.refund Example.gateway Scenario.reimburse Example.paid).2
    = set_orders (<[0%N := o']> (orders Example.paid)) Example.paid
    /\ Order.status o' = Order.cancelled
    /\ Order.pay_status (Order.payment o') = Order.refunded.
Proof.
  destruct (refund_cancels_without_release Example.gateway Scenario.reimburse Example.paid)
    as (_ & H & _).
  destruct (H Scenario.settled "pay_1"%string
              ("rfnd_1"%string, Payments.refundAmount None Scenario.settled,
               "processed"%string))
    as (o' & Heq & _ & Hst & Hpay & _).
  - reflexivity.
  - vm_compute. reflexivity.
  - exact stored_ok_settled.
  - reflexivity.
  - discriminate.
  - reflexivity.
  - exists o'. auto.
Defined.

Lemma delivery_routes_keep_one_delivery_per_order_witness :
  one_delivery_per_order (deliveries (Deliveries.assign Scenario.allot Example.dispatched).2)
  /\ one_delivery_per_order
       (deliveries (Deliveries.updateStatus Example.pick_up Example.dispatched).2)
  /\ one_delivery_per_order
       (deliveries (Deliveries.confirm Example.hand_over Example.dispatched).2).
Proof.
  apply (delivery_routes_keep_one_delivery_per_order Example.dispatched Scenario.allot
           Example.pick_up Example.hand_over).
  intros i j di dj Hi Hj _. rewrite dispatched_deliveries in Hi, Hj.
  apply lookup_singleton_Some in Hi as [<- _].
  apply lookup_singleton_Some in Hj as [<- _]. reflexivity.
Defined.

Lemma delivery_partner_touches_own_deliveries_only_witness :
  exists d,
    deliveries Example.dispatched !! 5%N = Some d
    /\ Delivery.partner d = user_id Example.courier.
Proof.
  destruct (delivery_partner_touches_own_deliveries_only Example.dispatched Example.pick_up
              Example.hand_over) as [H _].
  destruct H as (d & Hl & Hp & _).
  - intros Heq. apply (f_equal (fun d => Delivery.status <$> deliveries d !! 5%N)) in Heq.
    vm_compute in Heq. discriminate.
  - exists d. split; [exact Hl|]. apply Hp. reflexivity.
Defined.

Lemma orphan_delivery_status_update_witness :
  exists d',
    Deliveries.updateStatus Example.pick_up Scenario.orphaned
    = (Success 200 d', set_deliveries {[ 5%N := d' ]} Example.shop)
    /\ Delivery.status d' = Delivery.picked
    /\ Delivery.actualDeliveryDate d' = None.
Proof.
  eexists. split.
  - rewrite (orphan_delivery_status_update Example.pick_up Scenario.orphaned Example.parcel
               Delivery.picked);
      [|reflexivity|reflexivity|reflexivity|reflexivity|reflexivity].
    change (deliveries Scenario.orphaned) with ({[ 5%N := Example.parcel ]} : gmap N Delivery.t).
    change (Deliveries.d_id Example.pick_up) with 5%N.
    rewrite insert_singleton_eq. reflexivity.
  - split; reflexivity.
Defined.

Lemma delivery_assign_creates_or_updates_witness :
  exists d',
    (Deliveries.assign Scenario.allot Example.dispatched).1 = Success 200 d'
    /\ deliveries (Deliveries.assign Scenario.allot Example.dispatched).2 !! 5%N = Some d'
    /\ Delivery.partner d' = 20%N
    /\ Delivery.pickupAddress d' = Scenario.depot
    /\ Delivery.deliveryAddress d' = Delivery.deliveryAddress Example.parcel.
Proof.
  destruct (delivery_assign_creates_or_updates Scenario.allot Example.dispatched
              Example.placed) as [_ H].
  - reflexivity.
  - vm_compute. reflexivity.
  - exact stored_ok_placed.
  - pose proof (H 20%N eq_refl) as H'. cbv zeta in H'. destruct H' as [_ Hupdate].
    destruct (Hupdate 5%N Example.parcel) as [_ Hok].
    + exact dispatched_one_delivery.
    + reflexivity.
    + reflexivity.
    + cbv zeta in Hok. eexists. rewrite Hok by (intros s Hs; discriminate).
      split; [reflexivity|]. split; [apply lookup_insert_eq|]. repeat split.
Defined.

Lemma first_review_sets_product_rating_witness :
  exists review db' p',
    Reviews.create Scenario.praise Example.shop = (Success 201 review, db')
    /\ products db' !! 1%N = Some p'
    /\ Product.ratings_count p' = 1
    /\ (Product.ratings_average p' == inject_Z 4)%Q.
Proof.
  destruct (first_review_sets_product_rating Scenario.praise Example.shop 1%N Example.bike 4
              "Solid frame.")
    as (review & db' & Heq & _ & _ & _ & _ & p' & Hl & Hc & Ha & _).
  - left. reflexivity.
  - reflexivity.
  - vm_compute. reflexivity.
  - intros j r H. rewrite shop_reviews, lookup_empty in H. discriminate.
  - intros j r H. rewrite shop_reviews, lookup_empty in H. discriminate.
  - reflexivity.
  - lia.
  - reflexivity.
  - discriminate.
  - exists review, db', p'. auto.
Defined.

Lemma second_product_review_is_refused_witness :
  Reviews.create Scenario.praise Scenario.reviewed
  = (Failure 400 "You have already reviewed this product", Scenario.reviewed).
Proof.
  apply (second_product_review_is_refused Scenario.praise Scenario.praise Example.shop
           Scenario.reviewed Scenario.first_review).
  - left. reflexivity.
  - left. reflexivity.
  - vm_compute. reflexivity.
  - reflexivity.
  - reflexivity.
Defined.

Lemma rated_left :
  approved_product_reviews 1%N (base.delete 7%N (reviews Scenario.rated))
  = [Scenario.opinion 11%N 5 true; Scenario.opinion 12%N 4 true;
     Scenario.opinion 13%N 5 true].
Proof. vm_compute. reflexivity. Qed.

Lemma rated_hidden :
  approved_product_reviews 1%N
    (<[7%N := Review.mk Review.product_review (Some 1%N) None None 10%N 4%Q
                (Some "Great bike!"%string) "Great quality and design." true false]>
       (reviews Scenario.rated))
  = [Scenario.opinion 11%N 5 true; Scenario.opinion 12%N 4 true;
     Scenario.opinion 13%N 5 true].
Proof. vm_compute. reflexivity. Qed.

Lemma whole_opinions :
  whole_ratings [Scenario.opinion 11%N 5 true; Scenario.opinion 12%N 4 true;
                 Scenario.opinion 13%N 5 true] [5; 4; 5].
Proof. repeat constructor; simpl; try reflexivity; lia. Qed.

Lemma delete_recomputes_product_rating_witness :
  exists p',
    Reviews.delete Scenario.retract Scenario.rated
    = (Success 200 tt,
       set_products (<[1%N := p']> (products Scenario.rated))
         (set_reviews (base.delete 7%N (reviews Scenario.rated)) Scenario.rated))
    /\ Product.ratings_count p' = 3
    /\ (Product.ratings_average p' == 47 # 10)%Q.
Proof.
  eexists. split.
  - apply (delete_recomputes_product_rating Scenario.retract Scenario.rated
             Example.seeded_review 1%N Example.seeded_bike [5; 4; 5]).
    + reflexivity.
    + left. reflexivity.
    + reflexivity.
    + reflexivity.
    + reflexivity.
    + change (Reviews.del_id Scenario.retract) with 7%N. rewrite rated_left.
      exact whole_opinions.
  - split; reflexivity.
Defined.

Lemma moderate_recomputes_product_rating_witness :
  exists review' p',
    Reviews.moderate Scenario.hide Scenario.rated
    = (Success 200 review',
       set_products (<[1%N := p']> (products Scenario.rated))
         (set_reviews (<[7%N := review']> (reviews Scenario.rated)) Scenario.rated))
    /\ Review.isApproved review' = false
    /\ Review.comment review' = Review.comment Example.seeded_review
    /\ Product.ratings_count p' = 3
    /\ (Product.ratings_average p' == 47 # 10)%Q.
Proof.
  eexists _, _. split.
  - apply (moderate_recomputes_product_rating Scenario.hide Scenario.rated
             Example.seeded_review 1%N Example.seeded_bike false [5; 4; 5]).
    + reflexivity.
    + reflexivity.
    + reflexivity.
    + reflexivity.
    + reflexivity.
    + reflexivity.
    + pose proof whole_opinions as H. rewrite <- rated_hidden in H. exact H.
  - repeat split; reflexivity.
Defined.

Lemma delivery_review_needs_delivered_order_witness :
  exists order partner,
    orders Scenario.arrived !! 0%N = Some order
    /\ (Order.status order = Order.delivered \/ Order.status order = Order.completed)
    /\ Order.partner (Order.delivery order) = Some partner
    /\ Review.deliveryPartner Scenario.thanks_review = Some partner.
Proof.
  destruct (delivery_review_needs_delivered_order Scenario.thanks Scenario.arrived
              Scenario.thanked Scenario.thanks_review)
    as (orderId & order & partner & Hid & Hl & _ & Hst & Hp & _ & _ & Hd & _).
  - reflexivity.
  - vm_compute. reflexivity.
  - injection Hid as <-. exists order, partner. auto.
Defined.

Lemma inventory_routes_keep_ledger_balanced_witness :
  ledgers_balanced (inventories (Inventories.addStock Scenario.restock Example.shop).2)
  /\ ledgers_balanced (inventories (Inventories.update Example.adjust Example.shop).2)
  /\ ledgers_balanced (inventories (Inventories.removeStock Example.scrap Example.shop).2).
Proof.
  apply (inventory_routes_keep_ledger_balanced Example.shop Scenario.restock Example.adjust
           Example.scrap).
  intros k i H. rewrite shop_inventories in H.
  apply lookup_singleton_Some in H as [_ <-]. constructor.
Defined.

Lemma add_stock_overwrites_product_stock_witness :
  exists inv p',
    (Inventories.addStock Scenario.restock Example.shop).1 = Success 200 inv
    /\ Inventory.totalStock inv = 9
    /\ products (Inventories.addStock Scenario.restock Example.shop).2 !! 1%N = Some p'
    /\ Product.stock p' = 9.
Proof.
  destruct (add_stock_overwrites_product_stock Scenario.restock Example.shop 1%N 4
              Example.bike)
    as (inv & Heq & Ht & _ & _ & _ & p' & Hl & Hs & _).
  - reflexivity.
  - reflexivity.
  - reflexivity.
  - lia.
  - vm_compute. reflexivity.
  - intros i H. rewrite shop_inventories in H.
    apply lookup_singleton_Some in H as [_ <-]. reflexivity.
  - exists inv, p'. rewrite Hs, Ht. split; [now rewrite Heq|].
    split; [reflexivity|]. split; [exact Hl|reflexivity].
Defined.

Lemma inventory_update_writes_product_before_validation_witness :
  exists m,
    (Inventories.update Scenario.blunder Example.shop).1 = Failure 500 m
    /\ Product.stock <$> products (Inventories.update Scenario.blunder Example.shop).2 !! 1%N
       = Some (-2).
Proof.
  destruct (inventory_update_writes_product_before_validation Scenario.blunder Example.shop
              (Inventory.mk 5 0 5 [] None) (-2)) as [H _].
  - reflexivity.
  - vm_compute. reflexivity.
  - reflexivity.
  - simpl. lia.
  - destruct H as (m & Heq & Hp); [lia|].
    exists m. rewrite Heq. split; [reflexivity|].
    apply (Hp Example.bike). vm_compute. reflexivity.
Defined.

Lemma remove_stock_respects_inventory_reservation_witness :
  exists inv',
    (Inventories.removeStock Example.scrap Example.shop).1 = Success 200 inv'
    /\ Inventory.totalStock inv' = 0.
Proof.
  destruct (remove_stock_respects_inventory_reservation Example.scrap Example.shop
              (Inventory.mk 5 0 5 [] None) 5) as [_ H].
  - reflexivity.
  - vm_compute. reflexivity.
  - reflexivity.
  - lia.
  - reflexivity.
  - destruct H as (inv' & Heq & Ht & _); [simpl; lia|].
    exists inv'. rewrite Heq. auto.
Defined.

Lemma every_stored_order_stays_valid_witness : all_stored_ok (orders Example.paid).
Proof.
  apply (every_stored_order_stays_valid Example.gateway Example.ordered Example.paid).
  - apply (step_verify Example.gateway Example.ordered Example.pay).
  - intros id o H. rewrite ordered_orders in H.
    apply lookup_singleton_Some in H as [_ <-]. exact stored_ok_placed.
Defined.

Lemma orders_are_kept_and_only_grow_witness :
  exists o',
    orders Example.paid !! 0%N = Some o'
    /\ Order.items o' = Order.items Example.placed
    /\ Order.statusHistory Example.placed `prefix_of` Order.statusHistory o'.
Proof.
  destruct (orders_are_kept_and_only_grow Example.gateway Example.ordered Example.paid)
    with (id := 0%N) (o := Example.placed)
    as (o' & Hl & _ & Hi & _ & _ & Hh).
  - apply (step_verify Example.gateway Example.ordered Example.pay).
  - vm_compute. reflexivity.
  - exists o'. auto.
Defined.

Lemma held_reservation_keeps_stock_bounds_witness :
  all_stock_ok (products Example.paid)
  /\ all_stock_ok (products (Orders.cancel Example.withdraw Example.ordered).2).
Proof.
  assert (Hheld : forall o, orders Example.ordered !! 0%N = Some o ->
                    stored_ok o /\ reservation_held (products Example.ordered) o).
  { intros o H. rewrite ordered_orders in H.
    apply lookup_singleton_Some in H as [_ <-]. split; [exact stored_ok_placed|].
    intros pid p Hp. rewrite ordered_products in Hp.
    apply lookup_singleton_Some in Hp as [<- <-]. vm_compute. discriminate. }
  apply (held_reservation_keeps_stock_bounds Example.gateway Example.pay Example.withdraw
           Example.ordered).
  - intros pid p Hp. rewrite ordered_products in Hp.
    apply lookup_singleton_Some in Hp as [_ <-]. vm_compute. split; discriminate.
  - exact Hheld.
  - exact Hheld.
Defined.

Lemma order_number_spells_clock_and_count_witness :
  1700000000000 = 1700000000000 /\ 1 = 1.
Proof.
  apply (order_number_spells_clock_and_count 1700000000000 1700000000000 1 1);
    [lia | lia | lia | lia | reflexivity].
Defined.
